(** * Referral agent workflow: validation, routing and status boundary

    A shallow embedding of [backend/agent.py] (the worker pipeline) and of
    the status endpoint of [backend/main.py], together with the properties
    of the written specification that concern them; then of the other
    endpoints of [backend/main.py] and of [backend/DocumentProcessor.py],
    with further properties of the code.

    Python values are embedded as the inductive type [json]; a Python
    exception is the [Raise] case of the result type [res]; the Redis
    connection, the logger and standard output form the state [world]
    that the pipeline threads through its calls. *)

From Stdlib Require Import ZArith String Ascii List Bool Lia.
From Stdlib Require Import Floats.SpecFloat.
From stdpp Require Import base gmap strings.

Import ListNotations.
Local Open Scope Z_scope.
Local Open Scope list_scope.

(** ** Python values *)

Module Py.

(** The values [json.loads] produces, which are also the values the
    pipeline builds itself (dicts of strings, lists of strings, [None]).
    A dict keeps its insertion order, so it is an association list; the
    dicts of interest have pairwise distinct keys and [dict_get] returns
    the first binding. *)
#[local] Unset Elimination Schemes.
Inductive json : Type :=
| JNull
| JBool (b : bool)
| JInt (z : Z)
| JFloat (f : spec_float)
| JStr (s : string)
| JArr (items : list json)
| JObj (fields : list (string * json)).
#[local] Set Elimination Schemes.

(** Exceptions, by class.  [OtherError] stands for any class that is
    none of the named ones and derives from [Exception] (errors of the
    OpenAI client, of the Redis client, ...). *)
Inductive exn : Type :=
| JSONDecodeError
| KeyError
| TypeError
| AttributeError
| HTTPException (status_code : Z) (detail : string)
| OtherError (name : string).

Inductive res (A : Type) : Type :=
| Ok (a : A)
| Raise (e : exn).

Arguments Ok {A} a.
Arguments Raise {A} e.

Definition res_bind {A B : Type} (r : res A) (k : A -> res B) : res B :=
  match r with
  | Ok a => k a
  | Raise e => Raise e
  end.

Definition is_ok {A : Type} (r : res A) : bool :=
  match r with
  | Ok _ => true
  | Raise _ => false
  end.

(** [bool(v)]: the truth value Python gives an object. *)
Definition float_is_zero (f : spec_float) : bool :=
  match f with
  | S754_zero _ => true
  | _ => false
  end.

Definition truthy (v : json) : bool :=
  match v with
  | JNull => false
  | JBool b => b
  | JInt z => negb (Z.eqb z 0)
  | JFloat f => negb (float_is_zero f)
  | JStr s => negb (String.eqb s "")
  | JArr items => match items with [] => false | _ :: _ => true end
  | JObj fields => match fields with [] => false | _ :: _ => true end
  end.

(** [v is None] *)
Definition is_none (v : json) : bool :=
  match v with
  | JNull => true
  | _ => false
  end.

(** [isinstance(v, dict)] *)
Definition is_dict (v : json) : bool :=
  match v with
  | JObj _ => true
  | _ => false
  end.

(** [v == s] for a string literal [s]: only a string compares equal. *)
Definition eq_str (v : json) (s : string) : bool :=
  match v with
  | JStr t => String.eqb t s
  | _ => false
  end.

Fixpoint dict_get (fields : list (string * json)) (k : string) : option json :=
  match fields with
  | [] => None
  | (k', v) :: rest => if String.eqb k' k then Some v else dict_get rest k
  end.

Definition dict_has (fields : list (string * json)) (k : string) : bool :=
  match dict_get fields k with
  | Some _ => true
  | None => false
  end.

Definition dict_get_or (fields : list (string * json)) (k : string) (default : json)
  : json :=
  match dict_get fields k with
  | Some v => v
  | None => default
  end.

(** [obj.get(k, default)]; only dicts have the method. *)
Definition get (obj : json) (k : string) (default : json) : res json :=
  match obj with
  | JObj fields => Ok (dict_get_or fields k default)
  | _ => Raise AttributeError
  end.

(** [needle in hay] on strings. *)
Fixpoint contains (needle hay : string) : bool :=
  String.prefix needle hay ||
  match hay with
  | EmptyString => false
  | String _ hay' => contains needle hay'
  end.

(** [k in container] for a string [k]: key membership on a dict, element
    membership on a list, substring test on a string; the other values
    are not iterable. *)
Definition contains_key (k : string) (container : json) : res bool :=
  match container with
  | JObj fields => Ok (dict_has fields k)
  | JArr items => Ok (existsb (fun v => eq_str v k) items)
  | JStr s => Ok (contains k s)
  | _ => Raise TypeError
  end.

(** [container[k]] for a string [k]. *)
Definition getitem (container : json) (k : string) : res json :=
  match container with
  | JObj fields =>
      match dict_get fields k with
      | Some v => Ok v
      | None => Raise KeyError
      end
  | _ => Raise TypeError
  end.

(** [s.split(sep)] for a one-character separator. *)
Fixpoint split (sep : ascii) (s : string) : list string :=
  match s with
  | EmptyString => [EmptyString]
  | String c s' =>
      if Ascii.eqb c sep then EmptyString :: split sep s'
      else match split sep s' with
           | h :: t => String c h :: t
           | [] => [String c EmptyString]
           end
  end.

(** [s.endswith(suffix)] *)
Definition endswith (s suffix : string) : bool :=
  let n := String.length s in
  let k := String.length suffix in
  Nat.leb k n && String.eqb (String.substring (n - k) k s) suffix.

(** [sep.join(parts)] *)
Definition join (sep : string) (parts : list string) : string :=
  String.concat sep parts.

(** [any(values)] *)
Definition any (values : list json) : bool := existsb truthy values.

End Py.

Import Py.

Declare Scope res_scope.
Delimit Scope res_scope with res.
Notation "'let?' x ':=' e 'in' k" := (res_bind e (fun x => k))
  (at level 10, x name, e at level 100, k at level 200) : res_scope.

(** ** The validation engine: [check_required_fields] *)

Module Validation.

Definition sentinel : string := "All fields - invalid JSON response".

Definition required_fields : list string :=
  [ "referring_provider.name";
    "referring_provider.contact";
    "receiving_provider.name";
    "receiving_provider.contact";
    "patient.name";
    "patient.date_of_birth";
    "reason_for_referral";
    "requested_action" ].

Definition contact_note : string := " (phone, email, or address)".

(** The inner loop over the parts of a dotted field: the pair is
    [(current, field_missing)] when the loop is left. *)
Fixpoint traverse (current : json) (parts : list string) : json * bool :=
  match parts with
  | [] => (current, false)
  | part :: rest =>
      match current with
      | JObj fields =>
          match dict_get fields part with
          | Some v => traverse v rest
          | None => (current, true)
          end
      | _ => (current, true)
      end
  end.

(** One round of the loop over [required_fields]: the list of missing
    fields after the round, from the list before it. *)
Definition check_field (data : json) (field : string) (missing_fields : list string)
  : res (list string) :=
  if contains "." field then
    let parts := split "." field in
    let '(current, field_missing) := traverse data parts in
    if field_missing || negb (truthy current) || eq_str current "" then
      Ok (missing_fields ++ [field])
    else if endswith field ".contact" then
      let contact := current in
      (let? phone := get contact "phone" JNull in
       let? email := get contact "email" JNull in
       let? address := get contact "address" JNull in
       if negb (any [phone; email; address]) then
         Ok (missing_fields ++ [field +:+ contact_note])
       else Ok missing_fields)%res
    else Ok missing_fields
  else
    (let? present := contains_key field data in
     if negb present then Ok (missing_fields ++ [field])
     else
       let? v := getitem data field in
       if negb (truthy v) then Ok (missing_fields ++ [field])
       else
         let? v' := getitem data field in
         if eq_str v' "" then Ok (missing_fields ++ [field])
         else Ok missing_fields)%res.

Fixpoint check_fields (data : json) (fields : list string) (missing_fields : list string)
  : res (list string) :=
  match fields with
  | [] => Ok missing_fields
  | field :: rest =>
      (let? missing_fields' := check_field data field missing_fields in
       check_fields data rest missing_fields')%res
  end.

Definition check_required_fields (data : json) : res (bool * list string) :=
  if negb (truthy data) then Ok (false, [sentinel])
  else
    (let? missing_fields := check_fields data required_fields [] in
     Ok (Nat.eqb (List.length missing_fields) 0, missing_fields))%res.

End Validation.


(** ** What the specification calls a path, and when it is missing *)

Module PathSpec.

Import Validation.

(** The value a dotted path designates in [data]: none when a segment is
    absent, or is looked up in a value that is not a record. *)
Fixpoint lookup_path (v : json) (segments : list string) : option json :=
  match segments with
  | [] => Some v
  | segment :: rest =>
      match v with
      | JObj fields =>
          match dict_get fields segment with
          | Some v' => lookup_path v' rest
          | None => None
          end
      | _ => None
      end
  end.

Definition path_value (data : json) (path : string) : option json :=
  lookup_path data (split "." path).

(** Empty or absent: [None], the empty string, list or record, and the
    other values Python counts as false. *)
Definition is_empty (v : json) : bool := negb (truthy v).

(** A traversal segment is absent or not a record, or the terminal value
    is empty or absent. *)
Definition path_unsatisfied (data : json) (path : string) : bool :=
  match path_value data path with
  | None => true
  | Some v => is_empty v
  end.

(** The channel [k] of a contact record, [None] when the key is absent:
    what [contact.get(k)] evaluates to. *)
Definition channel (contact : list (string * json)) (k : string) : json :=
  dict_get_or contact k JNull.

(** All three of phone, email and address are empty. *)
Definition no_channel (contact : list (string * json)) : bool :=
  is_empty (channel contact "phone") &&
  is_empty (channel contact "email") &&
  is_empty (channel contact "address").

(** The value reached at the end of the traversal of a path ending in
    [.contact], when present and non-empty, is a record. *)
Definition contact_ok (data : json) (path : string) : bool :=
  if endswith path ".contact" then
    match path_value data path with
    | Some v => implb (truthy v) (is_dict v)
    | None => true
    end
  else true.

(** This holds for every required path ending in [.contact]. *)
Definition contacts_are_records (data : json) : bool :=
  forallb (contact_ok data) required_fields.

End PathSpec.

(** ** The loop of [check_required_fields], field by field

    What each round adds to the list of missing fields, read off the
    value the field designates; [ValidationFacts.check_field_entry] shows
    that the rounds of [check_field] add exactly this. *)

Module Entries.

Import Validation PathSpec.

(** The three [contact.get] calls and the [any] test of the special
    check: what the round adds for a contact value that passed the
    emptiness test. *)
Definition contact_entry (field : string) (contact : json) : res (list string) :=
  match contact with
  | JObj fields =>
      if no_channel fields then Ok [field +:+ contact_note] else Ok []
  | _ => Raise AttributeError
  end.

(** What one round adds to the list, from the value the path designates. *)
Definition dotted_entry (data : json) (field : string) : res (list string) :=
  match path_value data field with
  | None => Ok [field]
  | Some v =>
      if is_empty v then Ok [field]
      else if endswith field ".contact" then contact_entry field v
      else Ok []
  end.

Definition plain_entry (data : json) (field : string) : res (list string) :=
  match data with
  | JObj fields =>
      match dict_get fields field with
      | None => Ok [field]
      | Some v => if is_empty v then Ok [field] else Ok []
      end
  | JArr items =>
      if existsb (fun v => eq_str v field) items then Raise TypeError else Ok [field]
  | JStr s => if contains field s then Raise TypeError else Ok [field]
  | _ => Raise TypeError
  end.

Definition entry (data : json) (field : string) : res (list string) :=
  if contains "." field then dotted_entry data field else plain_entry data field.

Definition res_map {A B : Type} (f : A -> B) (r : res A) : res B :=
  match r with
  | Ok a => Ok (f a)
  | Raise e => Raise e
  end.

(** The whole loop: the entries of the fields, in order; the first
    round that raises ends the loop. *)
Fixpoint entries (data : json) (fields : list string) : res (list string) :=
  match fields with
  | [] => Ok []
  | field :: rest =>
      (let? l := entry data field in
       let? ls := entries data rest in
       Ok (l ++ ls))%res
  end.

End Entries.

(** ** The world of the worker: Redis, the clock, the log, the LLM *)

Module Runtime.

Inductive log_level : Type := INFO | WARNING | ERROR.

(** What a run leaves behind besides the Redis contents: the records
    handed to the logger at level INFO and above (the logger is
    configured at INFO, [logger.debug] calls leave nothing), the requests
    sent to the language model, and the lines printed. *)
Inductive event : Type :=
| Log (level : log_level) (msg : string) (args : list json)
| LogException (e : exn)
| Chat (model : string) (messages : list (string * json))
| Print (line : string).

(** The Redis database holds string values with the time they expire at;
    the processing queue is the Redis list [document_processing_queue],
    its head on the left.  The clock counts seconds; it stands still
    during a computation, and [elapse] moves it between two.  The
    connection to Redis is taken to hold (the worker and the web service
    refuse to start without it), so a Redis command does not raise. *)
Record world : Type := mkWorld {
  store : gmap string (string * Z);
  queue : list string;
  clock : Z;
  trace : list event }.

(** A computation reads and changes the world, and returns or raises. *)
Definition M (A : Type) : Type := world -> res A * world.

Definition ret {A : Type} (a : A) : M A := fun w => (Ok a, w).

Definition raise {A : Type} (e : exn) : M A := fun w => (Raise e, w).

Definition bind {A B : Type} (m : M A) (k : A -> M B) : M B :=
  fun w =>
    match m w with
    | (Ok a, w') => k a w'
    | (Raise e, w') => (Raise e, w')
    end.

Definition lift {A : Type} (r : res A) : M A := fun w => (r, w).

(** The world with more events in its trace. *)
Definition extend (w : world) (evs : list event) : world :=
  {| store := store w; queue := queue w; clock := clock w;
     trace := trace w ++ evs |}.

Definition emit (ev : event) : M unit := fun w => (Ok tt, extend w [ev]).

Definition log (level : log_level) (msg : string) (args : list json) : M unit :=
  emit (Log level msg args).

Definition print (line : string) : M unit := emit (Print line).

(** [redis_client.setex(key, ttl, value)] *)
Definition setex (key : string) (ttl : Z) (value : string) : M unit :=
  fun w => (Ok tt,
            {| store := <[key := (value, clock w + ttl)]> (store w);
               queue := queue w; clock := clock w; trace := trace w |}).

(** [redis_client.get(key)]: the value, unless the key is absent or its
    time to live has run out. *)
Definition live (now : Z) (entry : string * Z) : option string :=
  if now <? snd entry then Some (fst entry) else None.

Definition redis_get (key : string) : M (option string) :=
  fun w => (Ok (store w !! key ≫= live (clock w)), w).

(** [redis_client.rpop(queue_key)]: the element at the right end. *)
Definition rpop : M (option string) :=
  fun w =>
    match rev (queue w) with
    | [] => (Ok None, w)
    | job :: rest =>
        (Ok (Some job),
         {| store := store w; queue := rev rest; clock := clock w;
            trace := trace w |})
    end.

(** [redis_client.lpush(queue_key, value)] *)
Definition lpush (value : string) : M unit :=
  fun w => (Ok tt,
            {| store := store w; queue := value :: queue w; clock := clock w;
               trace := trace w |}).

(** Time passing between two calls. *)
Definition elapse (seconds : Z) : M unit :=
  fun w => (Ok tt,
            {| store := store w; queue := queue w;
               clock := clock w + Z.max 0 seconds; trace := trace w |}).

(** What the code takes from outside the repository: the [json] module,
    string conversion of values and exceptions, [datetime.isoformat],
    and the chat completion endpoint of the OpenAI client (it returns
    the content of the first choice, which may be [None], or raises). *)
Class Platform : Type := {
  json_loads : string -> option json;
  json_dumps : option nat -> json -> string;
  py_repr : json -> string;
  exn_str : exn -> string;
  isoformat : Z -> string;
  chat_completions_create : string -> list (string * json) -> res (option string) }.

End Runtime.

Import Runtime.

Declare Scope m_scope.
Delimit Scope m_scope with M.
Notation "'let*' x ':=' e 'in' k" := (bind e (fun x => k))
  (at level 10, x name, e at level 100, k at level 200) : m_scope.
Notation "e ;; k" := (bind e (fun _ => k))
  (at level 100, k at level 200, right associativity) : m_scope.

(** ** The worker: [backend/agent.py] *)

Module Agent.

Local Open Scope m_scope.

Definition dq : string := String (ascii_of_nat 34) EmptyString.

Definition sentinel_no_contact : string := "No contact information available".

(** [get_contact_info(provider_data)] *)
Definition get_contact_info (provider_data : json) : res json :=
  (let? contact := get provider_data "contact" (JObj []) in
   let? email := get contact "email" JNull in
   if truthy email then getitem contact "email"
   else
     let? phone := get contact "phone" JNull in
     if truthy phone then getitem contact "phone"
     else
       let? address := get contact "address" JNull in
       if truthy address then getitem contact "address"
       else Ok (JStr sentinel_no_contact))%res.

(** The contact target of [main]: the referring provider first, the
    receiving provider when the first answer is the no-contact text. *)
Definition contact_target (referring_provider receiving_provider : json) : res json :=
  (let? contact_info := get_contact_info referring_provider in
   if eq_str contact_info sentinel_no_contact then
     get_contact_info receiving_provider
   else Ok contact_info)%res.

Definition email_prompt_part0 : string :=
  "
    You are a medical administrative assistant. Draft a professional email requesting missing information for a medical referral.

    Context:
    - Referring Provider: ".

Definition email_prompt_part1 : string :=
  "
    - Receiving Provider: ".

Definition email_prompt_part2 : string :=
  "
    - Missing Fields: ".

Definition email_prompt_part3 : string :=
  "

    Please draft a concise, professional email that:
    1. Explains that we received a referral but some required information is missing
    2. Lists the specific missing fields in human readable form and it should absolutely not be json/computer form
    3. Requests the information be provided to complete the referral
    4. Maintains a professional and courteous tone

    Return the email in the following JSON format:
    {
        " +:+ dq +:+ "subject" +:+ dq +:+ ": " +:+ dq +:+ "email subject line" +:+ dq +:+ ",
        " +:+ dq +:+ "body" +:+ dq +:+ ": " +:+ dq +:+ "email body content" +:+ dq +:+ ",
        " +:+ dq +:+ "recipient" +:+ dq +:+ ": " +:+ dq +:+ "email address or contact method" +:+ dq +:+ "
    }
    ".

(** [OCR_Extraction_Prompt], of [backend/prompts/ocr_extraction_prompt.py]. *)
Definition OCR_Extraction_Prompt : string :=
  "
    You are an expert data extraction assistant. Your task is to analyze the provided RAW OCR output of a medical referral document and extract all relevant information into a structured JSON format. Carefully review the OCR text and populate the following fields based on the available data. If any field is missing or cannot be determined, use an empty string (””) or an empty array ([]), as appropriate.

    Required fields to extract:

    {
        “referral_id”: “string”,                // Unique identifier for the referral
        “date_of_referral”: “YYYY-MM-DD”,       // Date the referral was created

        “referring_provider”: {
        “name”: “string”,
        “provider_id”: “string”,
        “specialty”: “string”,
        “contact”: {
            “phone”: “string”,
            “email”: “string”,
            “address”: “string”
            }
        },

        “receiving_provider”: {
            “name”: “string”,
            “provider_id”: “string”,
            “specialty”: “string”,
            “contact”: {
                “phone”: “string”,
                “email”: “string”,
                “address”: “string”
            }
        },

        “patient”: {
            “name”: “string”,
            “date_of_birth”: “YYYY-MM-DD”,
            “gender”: “string”,
            “patient_id”: “string”,
            “contact”: {
            “phone”: “string”,
            “email”: “string”,
            “address”: “string”
            },
            “insurance”: {
                “provider”: “string”,
                “policy_number”: “string”
            }
        },

        “reason_for_referral”: “string”,
        
        “diagnosis”: “string”,
        “medications”: [
            {
            “name”: “string”,
            “dosage”: “string”,
            “frequency”: “string”
            }
            ],
        “allergies”: [
            “string”
        ],
        “recent_investigations”: [
            {
            “test_name”: “string”,
            “date”: “YYYY-MM-DD”,
            “result”: “string”
            }
        ],
        “requested_action”: “string”. (Additional Instruction: Extract verbatim request for action otherwise if absent, use your context to extract the correct requested action from the data (you may have to weave together data) but remember you are a medical assistant and lives are at stake, so do not make up information. Use only what information you have.),
        “attachments”: [
        {
        “type”: “string”,
        “file_url”: “string”
        }
        ],
        “notes”: “string”
        " +:+ dq +:+
  "summary" +:+ dq +:+
  ": " +:+ dq +:+
  "string" +:+ dq +:+
  " Use the context from this document and summurize why this patient is being referred for care
    }

    Instructions:
    • Extract all fields and any additional relevant details present in the OCR output.
    • If a field is missing or not explicitly stated, use “” for strings or [] for arrays.
    • Only output the completed JSON object, with no extra commentary or explanation.
    • Ensure the JSON structure matches the schema above.

    Begin extraction using the above schema.
    ".


Definition rule50 : string :=
  "==================================================".

Section Pipeline.

Context `{Platform}.

(** The model the requests are sent to. *)
Definition model : string := "gpt-4.1-nano".

(** [json.loads(s)] *)
Definition loads (s : string) : res json :=
  match json_loads s with
  | Some v => Ok v
  | None => Raise JSONDecodeError
  end.

(** What [llm_assistend_extraction] and [draft_request_email] make of
    the content of a reply: [None] when there is no content or when it
    is not JSON text, and the decoded value otherwise. *)
Definition decoded (reply : option string) : json :=
  match reply with
  | Some text =>
      match json_loads text with
      | Some v => v
      | None => JNull
      end
  | None => JNull
  end.

(** A value inside an f-string. *)
Definition py_str (v : json) : string :=
  match v with
  | JStr s => s
  | _ => py_repr v
  end.

(** [datetime.datetime.now().isoformat()] *)
Definition now_isoformat : M string :=
  fun w => (Ok (isoformat (clock w)), w).

Definition str_list (l : list string) : json := JArr (map JStr l).

(** [check_redis()] *)
Definition check_redis : M (option string) :=
  let* job_json := rpop in
  match job_json with
  | Some job => ret (Some job)
  | None => ret None
  end.

(** [chat_with_gpt4(messages, model="gpt-4.1-nano")] *)
Definition chat_with_gpt4 (messages : list (string * json)) : M (option string) :=
  log INFO "Calling OpenAI GPT-4 model with messages." [];;
  emit (Chat model messages);;
  let* content := lift (chat_completions_create model messages) in
  log INFO "Received response from GPT-4 model." [];;
  ret content.

(** The [messages] of [llm_assistend_extraction]. *)
Definition extraction_messages (raw_ocr_text : json) : list (string * json) :=
  [("system", JStr OCR_Extraction_Prompt); ("user", raw_ocr_text)].

(** [llm_assistend_extraction(raw_ocr_text)] *)
Definition llm_assistend_extraction (raw_ocr_text : json) : M json :=
  log INFO "Starting LLM-assisted extraction." [];;
  let messages := extraction_messages raw_ocr_text in
  let* response := chat_with_gpt4 messages in
  let* data :=
    match response with
    | Some text =>
        match loads text with
        | Ok v => ret v
        | Raise JSONDecodeError =>
            log ERROR "LLM response is not valid JSON:" [];;
            emit (LogException JSONDecodeError);;
            log INFO "Returned Text: %s" [JStr text];;
            ret JNull
        | Raise e => raise e
        end
    | None => ret JNull
    end in
  log INFO "LLM-assisted extraction complete." [];;
  ret data.

Definition email_prompt (referring_name receiving_name : json)
    (missing_fields : list string) : string :=
  email_prompt_part0 +:+ py_str referring_name +:+
  email_prompt_part1 +:+ py_str receiving_name +:+
  email_prompt_part2 +:+ join ", " missing_fields +:+
  email_prompt_part3.

(** The [messages] of [draft_request_email]. *)
Definition draft_messages (referring_name receiving_name : json)
    (missing_fields : list string) : list (string * json) :=
  [("system", JStr "You are a professional medical administrative assistant.");
   ("user", JStr (email_prompt referring_name receiving_name missing_fields))].

(** [draft_request_email(missing_fields, referring_provider,
    receiving_provider, referral_id)] *)
Definition draft_request_email (missing_fields : list string)
    (referring_provider receiving_provider referral_id : json) : M json :=
  log INFO "Drafting request email for missing fields: %s" [str_list missing_fields];;
  let* referring_name := lift (get referring_provider "name" (JStr "Unknown")) in
  let* receiving_name := lift (get receiving_provider "name" (JStr "Unknown")) in
  let messages := draft_messages referring_name receiving_name missing_fields in
  let* response := chat_with_gpt4 messages in
  match response with
  | Some text =>
      log INFO "Email draft received from LLM." [];;
      match loads text with
      | Ok v => ret v
      | Raise JSONDecodeError =>
          log ERROR "Failed to parse email draft response" [];;
          ret JNull
      | Raise e => raise e
      end
  | None =>
      log WARNING "No response received from LLM for email draft." [];;
      ret JNull
  end.

(** [mock_send_email(email_data, contact_info)] *)
Definition mock_send_email (email_data contact_info : json) : M json :=
  log INFO "To: %s" [contact_info];;
  let* subject := lift (get email_data "subject" (JStr "Missing Referral Information")) in
  log INFO "Subject: %s" [subject];;
  let* body := lift (get email_data "body" (JStr "No body content")) in
  log INFO "Body: %s" [body];;
  log INFO "%s" [JStr rule50];;
  log INFO "Mock email send complete." [];;
  let* timestamp := now_isoformat in
  ret (JObj [("status", JStr "sent");
             ("timestamp", JStr timestamp);
             ("recipient", contact_info)]).

(** [mock_emr_sync(referral_data)] *)
Definition mock_emr_sync (referral_data : json) : M json :=
  let* referral_id := lift (get referral_data "referral_id" (JStr "Unknown")) in
  log INFO "Syncing referral ID: %s" [referral_id];;
  let* patient := lift (get referral_data "patient" (JObj [])) in
  let* patient_name := lift (get patient "name" (JStr "Unknown")) in
  log INFO "Patient: %s" [patient_name];;
  let* referring := lift (get referral_data "referring_provider" (JObj [])) in
  let* referring_name := lift (get referring "name" (JStr "Unknown")) in
  log INFO "Referring Provider: %s" [referring_name];;
  let* receiving := lift (get referral_data "receiving_provider" (JObj [])) in
  let* receiving_name := lift (get receiving "name" (JStr "Unknown")) in
  log INFO "Receiving Provider: %s" [receiving_name];;
  log INFO "EMR Sync completed successfully" [];;
  log INFO "%s" [JStr rule50];;
  log INFO "Mock EMR sync complete." [];;
  let* timestamp := now_isoformat in
  let* referral_id' := lift (get referral_data "referral_id" JNull) in
  ret (JObj [("status", JStr "synced");
             ("timestamp", JStr timestamp);
             ("referral_id", referral_id')]).

(** The status record [update_redis_status] serializes. *)
Definition status_data (status timestamp : string) (additional_info structured_data : json)
  : json :=
  JObj [("status", JStr status);
        ("timestamp", JStr timestamp);
        ("additional_info", additional_info);
        ("structured_data", structured_data)].

Definition doc_key (doc_id : json) : string := "document:" +:+ py_str doc_id.

(** [update_redis_status(doc_id, status, additional_info, structured_data)] *)
Definition update_redis_status (doc_id : json) (status : string)
    (additional_info structured_data : json) : M unit :=
  log INFO "Updating Redis status for document %s to %s" [doc_id; JStr status];;
  let* timestamp := now_isoformat in
  setex (doc_key doc_id) 3600
    (json_dumps None (status_data status timestamp additional_info structured_data));;
  log INFO "Redis status update complete for document %s." [doc_id].

(** Between [w] and [w'] the status record of [doc_id] was set, for one
    hour, to [status] with [additional_info] and [structured_data],
    stamped with the time of [w]. *)
Definition written (w w' : world) (doc_id : json) (status : string)
    (additional_info structured_data : json) : Prop :=
  store w' =
  <[doc_key doc_id :=
      (json_dumps None
         (status_data status (isoformat (clock w)) additional_info structured_data),
       clock w + 3600)]> (store w).

(** How the body of the [try] statement of [main] is left when it does
    not raise: by its [continue], or at its end. *)
Inductive exit : Type := Continue | Completed.

(** The branch of [main] for a complete referral. *)
Definition route_complete (doc_id structured_data : json) : M unit :=
  log INFO "All required fields present for document %s. Syncing to EMR..." [doc_id];;
  let* emr_result := mock_emr_sync structured_data in
  update_redis_status doc_id "emr_synced" emr_result structured_data;;
  log INFO "EMR sync complete for document %s" [doc_id].

(** The branch of [main] for a referral with missing fields. *)
Definition route_incomplete (doc_id structured_data : json)
    (missing_fields : list string) : M unit :=
  log INFO "Missing fields detected for document %s: %s" [doc_id; str_list missing_fields];;
  log INFO "Drafting email for missing fields for document %s" [doc_id];;
  let* referring_arg := lift (get structured_data "referring_provider" (JObj [])) in
  let* receiving_arg := lift (get structured_data "receiving_provider" (JObj [])) in
  let* referral_id := lift (get structured_data "referral_id" doc_id) in
  let* email_draft :=
    draft_request_email missing_fields referring_arg receiving_arg referral_id in
  if truthy email_draft then
    let* referring_provider := lift (get structured_data "referring_provider" (JObj [])) in
    let* receiving_provider := lift (get structured_data "receiving_provider" (JObj [])) in
    let* contact_info := lift (contact_target referring_provider receiving_provider) in
    log INFO "Sending email for missing fields for document %s" [doc_id];;
    let* email_result := mock_send_email email_draft contact_info in
    update_redis_status doc_id "missing_fields_email_sent"
      (JObj [("missing_fields", str_list missing_fields);
             ("email_result", email_result);
             ("contact_info", contact_info)])
      structured_data;;
    log INFO "Missing fields email sent for document %s" [doc_id]
  else
    log ERROR "Failed to draft email for document %s" [doc_id];;
    update_redis_status doc_id "email_draft_failed"
      (JObj [("missing_fields", str_list missing_fields)])
      structured_data.

(** Routing: the [if is_complete] statement of [main]. *)
Definition route (doc_id structured_data : json) (is_complete : bool)
    (missing_fields : list string) : M unit :=
  if is_complete then route_complete doc_id structured_data
  else route_incomplete doc_id structured_data missing_fields.

(** The body of the [try] statement of [main], for one job. *)
Definition process_job (document_data : string) : M exit :=
  let* job_data := lift (loads document_data) in
  let* doc_id := lift (get job_data "document_id" (JStr "unknown")) in
  let* raw_ocr_text := lift (get job_data "extracted_text" (JStr "")) in
  log INFO "Processing document %s" [doc_id];;
  log INFO "Extracting structured data for document %s" [doc_id];;
  let* structured_data := llm_assistend_extraction raw_ocr_text in
  if is_none structured_data then
    log ERROR "Failed to extract structured data for document %s" [doc_id];;
    update_redis_status doc_id "extraction_failed" (JStr "LLM extraction failed") JNull;;
    ret Continue
  else
    log INFO "Checking required fields for document %s" [doc_id];;
    let* checked := lift (Validation.check_required_fields structured_data) in
    route doc_id structured_data (fst checked) (snd checked);;
    print ("Processed document " +:+ py_str doc_id);;
    print ("Structured data: " +:+ json_dumps (Some 2%nat) structured_data);;
    log INFO "Processing complete for document %s" [doc_id];;
    ret Completed.

(** The exception classes of the first [except] clause. *)
Definition swallowed (e : exn) : bool :=
  match e with
  | JSONDecodeError | KeyError | TypeError => true
  | _ => false
  end.

(** The [try] statement of [main] with its two [except] clauses: the
    first logs and goes on, the second logs and raises again. *)
Definition try_process_job (document_data : string) : M exit :=
  fun w =>
    match process_job document_data w with
    | (Ok x, w') => (Ok x, w')
    | (Raise e, w') =>
        if swallowed e then
          (log ERROR "Error processing document (JSON or dict error): %s" [JStr (exn_str e)];;
           emit (LogException e);;
           ret Completed) w'
        else
          (log ERROR "Unexpected error processing document: %s" [JStr (exn_str e)];;
           emit (LogException e);;
           raise e) w'
    end.

(** One round of the [while True] loop of [main]. *)
Definition main_iteration : M unit :=
  let* document_data := check_redis in
  match document_data with
  | Some job =>
      if String.eqb job "" then ret tt
      else
        log INFO "Document data found. Beginning processing." [];;
        let* how := try_process_job job in
        match how with
        | Continue => ret tt
        | Completed => log INFO "Breaking after processing current document." []
        end
  | None => ret tt
  end.

(** The world in which the body of the [try] statement starts, when the
    round has taken its job from the queue of [w] and left [rest]. *)
Definition dequeued (w : world) (rest : list string) : world :=
  {| store := store w; queue := rest; clock := clock w;
     trace := trace w ++ [Log INFO "Document data found. Beginning processing." []] |}.

(** [main()], cut after [rounds] rounds of its loop: the loop itself
    only ends by an exception. *)
Fixpoint main_rounds (rounds : nat) : M unit :=
  match rounds with
  | O => ret tt
  | S n => main_iteration;; main_rounds n
  end.

Definition main (rounds : nat) : M unit :=
  log INFO "Agent main loop started." [];;
  main_rounds rounds.

End Pipeline.

End Agent.

(** ** Routing and contact resolution, as the specification words them *)

Module RoutingSpec.

Import PathSpec Agent.

(** The best channel of a contact record: its email if non-empty, else
    its phone, else its address. *)
Definition best_channel (contact : list (string * json)) : option json :=
  if truthy (channel contact "email") then Some (channel contact "email")
  else if truthy (channel contact "phone") then Some (channel contact "phone")
  else if truthy (channel contact "address") then Some (channel contact "address")
  else None.

(** The contact record of a provider record; a provider without the key
    has the empty one. *)
Definition contact_record (provider : json) : option (list (string * json)) :=
  match provider with
  | JObj fields =>
      match dict_get fields "contact" with
      | None => Some []
      | Some (JObj contact) => Some contact
      | Some _ => None
      end
  | _ => None
  end.

(** The referring provider's best channel; the receiving provider's
    when the referring provider has none of the three; the no-contact
    text when neither has. *)
Definition resolve (referring receiving : list (string * json)) : json :=
  match best_channel referring with
  | Some v => v
  | None =>
      match best_channel receiving with
      | Some v => v
      | None => JStr sentinel_no_contact
      end
  end.

(** The name of a provider record, as the email draft gives it. *)
Definition provider_name (provider : json) : json :=
  match provider with
  | JObj fields => dict_get_or fields "name" (JStr "Unknown")
  | _ => JStr "Unknown"
  end.





(** The statuses a routing branch may record. *)
Definition branch_status (is_complete : bool) (status : string) : Prop :=
  if is_complete then status = "emr_synced"
  else status = "email_draft_failed" \/ status = "missing_fields_email_sent".

(** The last records of [mock_emr_sync] and of [mock_send_email]. *)
Definition emr_sync_done : event := Log INFO "Mock EMR sync complete." [].


End RoutingSpec.

(** ** The status boundary: [get_document_status] of [backend/main.py] *)

Module Api.

Import Agent.
Local Open Scope m_scope.

Section StatusEndpoint.

Context `{Platform}.

Definition corrupt_detail : string := "Corrupt document data in Redis".
Definition failed_detail : string := "Failed to retrieve document status".

(** The body of the [try] statement of [get_document_status]. *)
Definition get_document_status_body (document_id : string) : M json :=
  let doc_key := "document:" +:+ document_id in
  let* doc_data := redis_get doc_key in
  match doc_data with
  | None =>
      log ERROR ("doc_data for " +:+ doc_key +:+ " is not a string: <class 'NoneType'>") [];;
      raise (HTTPException 500 corrupt_detail)
  | Some text =>
      let* data := lift (loads text) in
      let* status := lift (get data "status" JNull) in
      let* timestamp := lift (get data "timestamp" JNull) in
      let* additional_info := lift (get data "additional_info" JNull) in
      let* structured_data := lift (get data "structured_data" JNull) in
      ret (JObj [("status", status);
                 ("timestamp", timestamp);
                 ("additional_info", additional_info);
                 ("structured_data", structured_data)])
  end.

(** The two [except] clauses: an [HTTPException] passes, any other
    exception is logged and replaced. *)
Definition http_guard {A : Type} (m : M A) : M A :=
  fun w =>
    match m w with
    | (Ok r, w') => (Ok r, w')
    | (Raise (HTTPException code detail), w') => (Raise (HTTPException code detail), w')
    | (Raise e, w') =>
        (log ERROR ("Error retrieving document status: " +:+ exn_str e) [];;
         raise (HTTPException 500 failed_detail)) w'
    end.

(** [get_document_status(document_id)] *)
Definition get_document_status (document_id : string) : M json :=
  http_guard (get_document_status_body document_id).

End StatusEndpoint.

End Api.

(** ** What a computation may do to the world *)

Module Effects.

Import Agent.

Definition post {A : Type} (m : M A) (Q : world -> res A -> world -> Prop) : Prop :=
  forall w, Q w (fst (m w)) (snd (m w)).

(** The Redis database, the queue and the clock stay as they are. *)
Definition quiet {A : Type} (m : M A) : Prop :=
  post m (fun w _ w' =>
            store w' = store w /\ queue w' = queue w /\ clock w' = clock w).

(** The queue stays as it is. *)
Definition keeps_queue {A : Type} (m : M A) : Prop :=
  post m (fun w _ w' => queue w' = queue w).

(** The computation never raises. *)
Definition total {A : Type} (m : M A) : Prop :=
  post m (fun _ r _ => is_ok r = true).

(** When the computation raises, the Redis database is as before. *)
Definition clean_raise {A : Type} (m : M A) : Prop :=
  post m (fun w r w' => is_ok r = false -> store w' = store w).

(** The trace only grows, by events that satisfy [P]. *)
Definition emits (P : event -> Prop) {A : Type} (m : M A) : Prop :=
  post m (fun w _ w' => exists evs, trace w' = trace w ++ evs /\ Forall P evs).

(** The computation either raises and leaves the Redis database as it
    was, or returns and has set the status record of [doc_id] once, to
    one of the [allowed] statuses, with [structured_data]. *)
Definition records `{Platform} (doc_id : json) (allowed : string -> Prop)
    (structured_data : json) {A : Type} (m : M A) : Prop :=
  post m (fun w r w' =>
            clock w' = clock w /\
            ((is_ok r = false /\ store w' = store w) \/
             (is_ok r = true /\
              exists status additional_info,
                allowed status /\
                written w w' doc_id status additional_info structured_data))).

End Effects.
(** ** More of Python's texts and dicts *)

Module Text.

(** A text is held as its UTF-8 bytes: a code point is one byte that is
    not of the form 10xxxxxx, followed by bytes that are. *)
Definition is_continuation (c : ascii) : bool :=
  let n := N_of_ascii c in N.leb 128 n && N.ltb n 192.

(** [len(s)]: the number of code points. *)
Fixpoint py_len (s : string) : Z :=
  match s with
  | EmptyString => 0
  | String c s' => if is_continuation c then py_len s' else 1 + py_len s'
  end.

(** [s[:n]]: the first [n] code points. *)
Fixpoint py_take (n : nat) (s : string) : string :=
  match s with
  | EmptyString => EmptyString
  | String c s' =>
      if is_continuation c then String c (py_take n s')
      else match n with
           | O => EmptyString
           | S k => String c (py_take k s')
           end
  end.

(** [s.split(sep)] for a separator of one character or more: the text
    is read from the left, and an occurrence of [sep] that is found is
    stepped over ([skip] counts what is left of it). *)
Fixpoint split_from (sep : string) (skip : nat) (s : string) : list string :=
  match s with
  | EmptyString => [EmptyString]
  | String c s' =>
      match skip with
      | S k => split_from sep k s'
      | O =>
          if String.prefix sep s then
            EmptyString :: split_from sep (String.length sep - 1) s'
          else
            match split_from sep 0 s' with
            | piece :: pieces => String c piece :: pieces
            | [] => [String c EmptyString]
            end
      end
  end.

Definition split_on (sep s : string) : list string := split_from sep 0 s.

(** [d[k] = v] on the fields of a dict: the key keeps its place when it
    is there, and comes last when it is new. *)
Fixpoint dict_setitem (fields : list (string * json)) (k : string) (v : json)
  : list (string * json) :=
  match fields with
  | [] => [(k, v)]
  | (k', v') :: rest =>
      if String.eqb k' k then (k', v) :: rest
      else (k', v') :: dict_setitem rest k v
  end.

(** [container[k] = v] for a string [k]; the value is the container
    after the assignment.  Only a dict takes a string as index. *)
Definition setitem (container : json) (k : string) (v : json) : res json :=
  match container with
  | JObj fields => Ok (JObj (dict_setitem fields k v))
  | _ => Raise TypeError
  end.

End Text.

(** ** Outcomes of the worker's steps on values that are not records *)

Module Outcomes.

(** The round of [check_required_fields] for one of its two top-level
    fields raises on [data]: the test [field in data] cannot be made (a
    number, a boolean), or it holds and [data[field]] cannot be taken
    (a list with the name among its items, a text with the name in
    it). *)
Definition plain_round_raises (data : json) : bool :=
  match data with
  | JArr items =>
      existsb (fun v => eq_str v "reason_for_referral" || eq_str v "requested_action")
        items
  | JStr s => contains "reason_for_referral" s || contains "requested_action" s
  | _ => true
  end.

(** A record whose patient and providers are records, where it has
    them. *)
Definition syncable (referral_data : json) : bool :=
  match referral_data with
  | JObj fields =>
      forallb (fun k => is_dict (dict_get_or fields k (JObj [])))
        ["patient"; "referring_provider"; "receiving_provider"]
  | _ => false
  end.

(** A log record, as opposed to a request to the language model or a
    printed line. *)
Definition is_log (ev : event) : bool :=
  match ev with
  | Log _ _ _ => true
  | _ => false
  end.

(** A request to the language model. *)
Definition is_chat (ev : event) : bool :=
  match ev with
  | Chat _ _ => true
  | _ => false
  end.

(** The computation adds at most [n] requests to the language model to
    the trace, all of them to the model [gpt-4.1-nano]. *)
Definition asks (n : nat) {A : Type} (m : M A) : Prop :=
  Effects.post m
    (fun w _ w' =>
       exists evs,
         trace w' = trace w ++ evs /\
         (length (List.filter is_chat evs) <= n)%nat /\
         Forall (fun ev => forall name messages,
                   ev = Chat name messages -> name = "gpt-4.1-nano") evs).

(** The statuses the worker writes. *)
Definition worker_statuses : list string :=
  ["extraction_failed"; "emr_synced"; "email_draft_failed"; "missing_fields_email_sent"].

End Outcomes.

(** ** The OCR front end: [backend/DocumentProcessor.py] *)

Module DocumentProcessor.

Import Text Agent.
Local Open Scope m_scope.

(** What the front end takes from outside the repository:
    [os.path.splitext], [str.lower] and [str.strip], which depend on the
    operating system and on the Unicode tables, and the OCR itself
    ([Image.open], [convert] and [pytesseract.image_to_string], taken
    together), which returns a text or raises. *)
Class Host : Type := {
  splitext : string -> string * string;
  str_lower : string -> string;
  str_strip : string -> string;
  image_to_string : list Byte.byte -> res string }.

(** The dict [process_document] returns. *)
Record processing_result : Type := {
  filename : string;
  file_size : Z;
  extracted_text : string;
  text_length : Z }.

Section Processor.

Context `{Platform} `{Host}.

(** [self.supported_formats] *)
Definition supported_formats : list string :=
  [".png"; ".jpg"; ".jpeg"; ".pdf"; ".tiff"; ".bmp"].

Definition unsupported_detail : string :=
  "Unsupported file format. Supported: " +:+ join ", " supported_formats.

Definition pdf_detail : string := "PDF support coming soon".

Definition ocr_failed (e : exn) : string := "OCR processing failed: " +:+ exn_str e.

(** [extract_text_from_image(image_bytes)] *)
Definition extract_text_from_image (image_bytes : list Byte.byte) : M string :=
  match image_to_string image_bytes with
  | Ok text => ret (str_strip text)
  | Raise e =>
      log ERROR (ocr_failed e) [];;
      raise (HTTPException 500 (ocr_failed e))
  end.

(** The extension the file is judged by. *)
Definition file_ext (name : string) : string := str_lower (snd (splitext name)).

(** [process_document(file_content, filename)] *)
Definition process_document (file_content : list Byte.byte) (name : string)
  : M processing_result :=
  if negb (existsb (String.eqb (file_ext name)) supported_formats) then
    raise (HTTPException 400 unsupported_detail)
  else if String.eqb (file_ext name) ".pdf" then
    raise (HTTPException 400 pdf_detail)
  else
    let* text := extract_text_from_image file_content in
    ret {| filename := name;
           file_size := Z.of_nat (length file_content);
           extracted_text := text;
           text_length := py_len text |}.

End Processor.

End DocumentProcessor.

(** ** The web service: the other endpoints of [backend/main.py] *)

Module Service.

Import Text Agent DocumentProcessor.
Local Open Scope m_scope.

(** [redis_client.llen(queue_key)] *)
Definition llen : M Z := fun w => (Ok (Z.of_nat (length (queue w))), w).

(** [redis_client.lrange(queue_key, 0, -1)]: the whole list, from the
    left. *)
Definition lrange_all : M (list string) := fun w => (Ok (queue w), w).

(** [redis_client.keys(prefix + "*")]: the keys that begin with
    [prefix] and have not expired.  Redis returns them in no particular
    order; here they come in the order of the map. *)
Definition redis_keys (prefix : string) : M (list string) :=
  fun w =>
    (Ok (map fst
           (filter (fun entry => String.prefix prefix (fst entry) &&
                                 (clock w <? snd (snd entry)))
              (map_to_list (store w)))),
     w).

Section Endpoints.

Context `{Platform} `{Host}.

(** *** [upload_document] *)

(** The job the endpoint queues. *)
Definition job_data (doc_id : string) (r : processing_result)
    (upload_timestamp : string) : json :=
  JObj [("document_id", JStr doc_id);
        ("filename", JStr (filename r));
        ("file_size", JInt (file_size r));
        ("extracted_text", JStr (extracted_text r));
        ("text_length", JInt (text_length r));
        ("upload_timestamp", JStr upload_timestamp);
        ("status", JStr "ocr_complete");
        ("next_step", JStr "agent_processing")].

(** [text[:200] + "..." if len(text) > 200 else text] *)
Definition preview (text : string) : string :=
  if 200 <? py_len text then py_take 200 text +:+ "..." else text.

(** The answer of the endpoint. *)
Definition upload_response (doc_id : string) (r : processing_result) : json :=
  JObj [("document_id", JStr doc_id);
        ("status", JStr "uploaded_and_queued");
        ("message", JStr "Document processed with OCR and queued for agent");
        ("extracted_text_preview", JStr (preview (extracted_text r)));
        ("text_length", JInt (text_length r))].

(** The body of the [try] statement of [upload_document].  [doc_id] is
    the text of the identifier [uuid.uuid4()] draws, [file_content]
    what [file.read()] returns, and [file_name] is [file.filename],
    which may be [None]. *)
Definition upload_document_body (doc_id : string) (file_content : list Byte.byte)
    (file_name : option string) : M json :=
  log INFO ("Processing document: " +:+
            py_str (match file_name with Some name => JStr name | None => JNull end)) [];;
  let name := match file_name with Some name => name | None => EmptyString end in
  let* processing_result := process_document file_content name in
  let* upload_timestamp := now_isoformat in
  let job := job_data doc_id processing_result upload_timestamp in
  lpush (json_dumps None job);;
  setex ("document:" +:+ doc_id) 3600 (json_dumps None job);;
  log INFO ("Document " +:+ doc_id +:+ " queued for agent processing") [];;
  ret (upload_response doc_id processing_result).

(** Its two [except] clauses: an [HTTPException] passes, any other
    exception is logged and replaced. *)
Definition upload_guard {A : Type} (m : M A) : M A :=
  fun w =>
    match m w with
    | (Ok r, w') => (Ok r, w')
    | (Raise (HTTPException code detail), w') => (Raise (HTTPException code detail), w')
    | (Raise e, w') =>
        (log ERROR ("Unexpected error processing document: " +:+ exn_str e) [];;
         raise (HTTPException 500 ("Processing failed: " +:+ exn_str e))) w'
    end.

(** [upload_document(file)] *)
Definition upload_document (doc_id : string) (file_content : list Byte.byte)
    (file_name : option string) : M json :=
  upload_guard (upload_document_body doc_id file_content file_name).

(** *** The listing endpoints *)

(** A [try] statement whose one clause, [except Exception], logs the
    exception and raises an [HTTPException] with status 500. *)
Definition failing {A : Type} (context detail : string) (m : M A) : M A :=
  fun w =>
    match m w with
    | (Ok r, w') => (Ok r, w')
    | (Raise e, w') =>
        (log ERROR (context +:+ exn_str e) [];;
         raise (HTTPException 500 detail)) w'
    end.

(** [get_queue_status()] *)
Definition get_queue_status : M json :=
  failing "Error retrieving queue status: " "Failed to retrieve queue status"
    (let* queue_length := llen in
     ret (JObj [("queue_length", JInt queue_length);
                ("status", JStr (if 0 <? queue_length then "active" else "empty"))])).

(** The answer of the two listings. *)
Definition listing (documents : list json) : json :=
  JObj [("documents", JArr documents);
        ("count", JInt (Z.of_nat (length documents)))].

Definition not_a_string (what : string) : string :=
  what +:+ " is not a string: <class 'NoneType'>".

(** The status of a queued job, from its status key. *)
Definition current_status (doc_key : string) (status_data : option string) : M json :=
  match status_data with
  | None =>
      log ERROR (not_a_string ("Status data for " +:+ doc_key)) [];;
      ret JNull
  | Some text =>
      match (let? data := loads text in get data "status" JNull)%res with
      | Ok status => ret status
      | Raise _ => ret JNull
      end
  end.

(** The body of the [try] statement inside the loop of
    [get_all_documents_in_queue]; the value is the job with its
    [current_status]. *)
Definition queue_entry (item : string) : M json :=
  let* job := lift (loads item) in
  let* doc_id := lift (get job "document_id" JNull) in
  let doc_key := "document:" +:+ py_str doc_id in
  let* status_data := redis_get doc_key in
  let* status := current_status doc_key status_data in
  lift (setitem job "current_status" status).

(** The loop of [get_all_documents_in_queue]: an item whose body raises
    is logged and left out. *)
Fixpoint queue_entries (items : list string) (documents : list json)
  : M (list json) :=
  match items with
  | [] => ret documents
  | item :: rest =>
      fun w =>
        match queue_entry item w with
        | (Ok job, w') => queue_entries rest (documents ++ [job]) w'
        | (Raise e, w') =>
            (log ERROR ("Error parsing job data from queue: " +:+ exn_str e) [];;
             queue_entries rest documents) w'
        end
  end.

(** [get_all_documents_in_queue()] *)
Definition get_all_documents_in_queue : M json :=
  failing "Error retrieving all documents in queue: "
    "Failed to retrieve all documents in queue"
    (let* queue_items := lrange_all in
     let* documents := queue_entries queue_items [] in
     ret (listing documents)).

(** [key.split("document:")[1]] *)
Definition key_id (key : string) : res json :=
  match split_on "document:" key with
  | _ :: id :: _ => Ok (JStr id)
  | _ => Raise (OtherError "IndexError")
  end.

(** The body of the [try] statement inside the loop of
    [get_all_document_statuses]. *)
Definition status_entry (key value : string) : res json :=
  (let? doc_data := loads value in
   let? document_id := key_id key in
   setitem doc_data "document_id" document_id)%res.

(** The loop of [get_all_document_statuses]. *)
Fixpoint status_entries (keys : list string) (documents : list json)
  : M (list json) :=
  match keys with
  | [] => ret documents
  | key :: rest =>
      let* value := redis_get key in
      match value with
      | None =>
          log ERROR (not_a_string ("Value for " +:+ key)) [];;
          status_entries rest documents
      | Some text =>
          match status_entry key text with
          | Ok doc_data => status_entries rest (documents ++ [doc_data])
          | Raise e =>
              log ERROR ("Error parsing document data for " +:+ key +:+ ": " +:+
                         exn_str e) [];;
              status_entries rest documents
          end
      end
  end.

(** [get_all_document_statuses()] *)
Definition get_all_document_statuses : M json :=
  failing "Error retrieving all document statuses: "
    "Failed to retrieve all document statuses"
    (let* doc_keys := redis_keys "document:" in
     let* documents := status_entries doc_keys [] in
     ret (listing documents)).

End Endpoints.

End Service.

(** ** The endpoints, as their answers can be described *)

Module ServiceSpec.

Import Text Agent DocumentProcessor Service.

(** The formats [process_document] goes on to read: the supported ones
    without [.pdf]. *)
Definition accepted_formats : list string := [".png"; ".jpg"; ".jpeg"; ".tiff"; ".bmp"].

(** The identifier [get_all_document_statuses] gives the document of a
    key. *)
Definition id_of_key (key : string) : string :=
  nth 1 (split_on "document:" key) EmptyString.

Section Codec.

Context `{Platform}.

(** [json.dumps] writes [v] as a text, not the empty one, that
    [json.loads] reads back as [v]. *)
Definition readable (v : json) : Prop :=
  json_dumps None v <> EmptyString /\ json_loads (json_dumps None v) = Some v.

(** The status kept for a document at the time of [w]: the [status] of
    its status record, [None] when there is no record, when it has
    expired, or when it cannot be read as a record. *)
Definition status_now (w : world) (doc_id : json) : json :=
  match store w !! ("document:" +:+ py_str doc_id) ≫= live (clock w) with
  | Some text =>
      match json_loads text with
      | Some (JObj fields) => dict_get_or fields "status" JNull
      | _ => JNull
      end
  | None => JNull
  end.

(** What [get_all_documents_in_queue] shows for an item of the queue:
    nothing unless the item is the text of a record, and then the
    record with its [current_status]. *)
Definition queued_document (w : world) (item : string) : option json :=
  match json_loads item with
  | Some (JObj job) =>
      Some (JObj (dict_setitem job "current_status"
                    (status_now w (dict_get_or job "document_id" JNull))))
  | _ => None
  end.

(** What [get_all_document_statuses] shows for a key and its value. *)
Definition status_document (key text : string) : option json :=
  match json_loads text with
  | Some (JObj fields) =>
      Some (JObj (dict_setitem fields "document_id" (JStr (id_of_key key))))
  | _ => None
  end.

(** What [get_all_document_statuses] shows for a key at the time of
    [w]. *)
Definition shown_status (w : world) (key : string) : option json :=
  match store w !! key ≫= live (clock w) with
  | Some text => status_document key text
  | None => None
  end.

End Codec.

Section Upload.

Context `{Host}.

(** The result of [process_document] on a file it accepts, whose OCR
    returns [text]. *)
Definition processed (file_content : list Byte.byte) (name text : string)
  : processing_result :=
  {| filename := name;
     file_size := Z.of_nat (length file_content);
     extracted_text := str_strip text;
     text_length := py_len (str_strip text) |}.

End Upload.

End ServiceSpec.


(** ** A reference platform

    A decoder for the JSON grammar [json.loads] accepts, the encoder of
    [json.dumps], and the other conversions, to run the pipeline on
    concrete jobs with a scripted language model.  Interpreter limits
    (recursion depth, the digit limit of integers) are not part of it. *)

Module Reference.

Import Agent.

Definition code (c : ascii) : Z := Z.of_N (N_of_ascii c).

Definition chr (n : Z) : ascii := ascii_of_N (Z.to_N n).

Definition is_ws (c : ascii) : bool :=
  let n := code c in
  (n =? 32) || (n =? 9) || (n =? 10) || (n =? 13).

Definition is_digit (c : ascii) : bool := (48 <=? code c) && (code c <=? 57).

Definition digit_value (c : ascii) : Z := code c - 48.

Definition hex_value (c : ascii) : option Z :=
  let n := code c in
  if (48 <=? n) && (n <=? 57) then Some (n - 48)
  else if (97 <=? n) && (n <=? 102) then Some (n - 87)
  else if (65 <=? n) && (n <=? 70) then Some (n - 55)
  else None.

Definition hex4 (a b c d : ascii) : option Z :=
  match hex_value a, hex_value b, hex_value c, hex_value d with
  | Some x, Some y, Some z, Some t => Some (((x * 16 + y) * 16 + z) * 16 + t)
  | _, _, _, _ => None
  end.

Fixpoint skip_ws (s : string) : string :=
  match s with
  | String c s' => if is_ws c then skip_ws s' else s
  | EmptyString => s
  end.

(** The bytes of a code point in UTF-8; a lone surrogate is written on
    three bytes like any other code point of its range. *)
Definition utf8 (u : Z) : string :=
  if u <? 128 then String (chr u) EmptyString
  else if u <? 2048 then
    String (chr (192 + u / 64)) (String (chr (128 + u mod 64)) EmptyString)
  else if u <? 65536 then
    String (chr (224 + u / 4096))
      (String (chr (128 + (u / 64) mod 64))
         (String (chr (128 + u mod 64)) EmptyString))
  else
    String (chr (240 + u / 262144))
      (String (chr (128 + (u / 4096) mod 64))
         (String (chr (128 + (u / 64) mod 64))
            (String (chr (128 + u mod 64)) EmptyString))).

Definition is_high_surrogate (u : Z) : bool := (55296 <=? u) && (u <=? 56319).
Definition is_low_surrogate (u : Z) : bool := (56320 <=? u) && (u <=? 57343).

Definition join_surrogates (hi lo : Z) : Z :=
  65536 + (hi - 55296) * 1024 + (lo - 56320).

Definition simple_escape (c : ascii) : option ascii :=
  let n := code c in
  if n =? 34 then Some (chr 34)
  else if n =? 92 then Some (chr 92)
  else if n =? 47 then Some (chr 47)
  else if n =? 98 then Some (chr 8)
  else if n =? 102 then Some (chr 12)
  else if n =? 110 then Some (chr 10)
  else if n =? 114 then Some (chr 13)
  else if n =? 116 then Some (chr 9)
  else None.

Definition prepend (p : string) (r : option (string * string)) : option (string * string) :=
  match r with
  | Some (body, rest) => Some (p +:+ body, rest)
  | None => None
  end.

(** The text of a string after its opening quote: the decoded string
    and what follows the closing quote. *)
Fixpoint scan_string (s : string) : option (string * string) :=
  match s with
  | EmptyString => None
  | String c rest =>
      if code c =? 34 then Some (EmptyString, rest)
      else if code c <? 32 then None
      else if code c =? 92 then
        match rest with
        | EmptyString => None
        | String e rest1 =>
            if code e =? 117 then
              match rest1 with
              | String h1 (String h2 (String h3 (String h4 rest2))) =>
                  match hex4 h1 h2 h3 h4 with
                  | None => None
                  | Some u =>
                      match rest2 with
                      | String b (String v (String g1 (String g2 (String g3 (String g4 rest3))))) =>
                          if is_high_surrogate u && (code b =? 92) && (code v =? 117) then
                            match hex4 g1 g2 g3 g4 with
                            | None => None
                            | Some u2 =>
                                if is_low_surrogate u2 then
                                  prepend (utf8 (join_surrogates u u2)) (scan_string rest3)
                                else prepend (utf8 u) (scan_string rest2)
                            end
                          else prepend (utf8 u) (scan_string rest2)
                      | _ => prepend (utf8 u) (scan_string rest2)
                      end
                  end
              | _ => None
              end
            else
              match simple_escape e with
              | Some x => prepend (String x EmptyString) (scan_string rest1)
              | None => None
              end
        end
      else prepend (String c EmptyString) (scan_string rest)
  end.

(** A run of digits: its value, its length, and the rest. *)
Fixpoint scan_digits (s : string) (value : Z) (count : Z) : Z * Z * string :=
  match s with
  | String c s' =>
      if is_digit c then scan_digits s' (value * 10 + digit_value c) (count + 1)
      else (value, count, s)
  | EmptyString => (value, count, s)
  end.

Definition prec : Z := 53.
Definition emax : Z := 1024.

(** The double nearest to [digits * 10 ^ exponent]; beyond the first two
    tests the value is above every double, or under half the least one. *)
Definition float_of_decimal (negative : bool) (digits exponent : Z) : spec_float :=
  match digits with
  | Zpos m =>
      if 310 <? exponent then S754_infinity negative
      else if exponent <? - (330 + Z.log2 digits + 1) then S754_zero negative
      else if 0 <=? exponent then
        binary_normalize prec emax
          (if negative then Zneg m * 10 ^ exponent else Zpos m * 10 ^ exponent) 0 negative
      else
        match 10 ^ (- exponent) with
        | Zpos d => SFdiv prec emax (S754_finite negative m 0) (S754_finite false d 0)
        | _ => S754_nan
        end
  | _ => S754_zero negative
  end.

(** A number at the head of [s]: an optional minus sign; then a zero, or
    a digit from one to nine and any digits; then, optionally, a point
    and one digit or more; then, optionally, [e] or [E], an optional
    sign, and one digit or more. *)
Definition scan_number (s : string) : option (json * string) :=
  let '(negative, s1) :=
    match s with
    | String c r => if code c =? 45 then (true, r) else (false, s)
    | EmptyString => (false, s)
    end in
  let integer :=
    match s1 with
    | String c r =>
        if code c =? 48 then Some (0, r)
        else if is_digit c then
          let '(v, _, r') := scan_digits s1 0 0 in Some (v, r')
        else None
    | EmptyString => None
    end in
  match integer with
  | None => None
  | Some (int_value, s2) =>
      let '(frac, s3) :=
        match s2 with
        | String p (String d r as after_point) =>
            if (code p =? 46) && is_digit d then
              let '(v, n, r') := scan_digits after_point int_value 0 in
              (Some (v, n), r')
            else (None, s2)
        | _ => (None, s2)
        end in
      let '(expo, s4) :=
        match s3 with
        | String e after_e =>
            if (code e =? 101) || (code e =? 69) then
              let '(minus, after_sign) :=
                match after_e with
                | String sg r =>
                    if code sg =? 45 then (true, r)
                    else if code sg =? 43 then (false, r)
                    else (false, after_e)
                | EmptyString => (false, after_e)
                end in
              match after_sign with
              | String d _ =>
                  if is_digit d then
                    let '(v, _, r') := scan_digits after_sign 0 0 in
                    (Some (if minus then - v else v), r')
                  else (None, s3)
              | EmptyString => (None, s3)
              end
            else (None, s3)
        | EmptyString => (None, s3)
        end in
      match frac, expo with
      | None, None => Some (JInt (if negative then - int_value else int_value), s4)
      | _, _ =>
          let '(digits, scale) :=
            match frac with
            | Some (v, n) => (v, n)
            | None => (int_value, 0)
            end in
          let e := match expo with Some x => x | None => 0 end in
          Some (JFloat (float_of_decimal negative digits (e - scale)), s4)
      end
  end.

(** [dict[k] = v]: a key keeps its place when it is bound again. *)
Fixpoint dict_set (fields : list (string * json)) (k : string) (v : json)
  : list (string * json) :=
  match fields with
  | [] => [(k, v)]
  | (k', v') :: rest =>
      if String.eqb k' k then (k', v) :: rest else (k', v') :: dict_set rest k v
  end.

Definition keyword (word : string) (v : json) (s : string) : option (json * string) :=
  if String.prefix word s then
    Some (v, String.substring (String.length word) (String.length s - String.length word) s)
  else None.

Definition constant (s : string) : option (json * string) :=
  match keyword "null" JNull s with
  | Some r => Some r
  | None =>
  match keyword "true" (JBool true) s with
  | Some r => Some r
  | None =>
  match keyword "false" (JBool false) s with
  | Some r => Some r
  | None =>
  match keyword "NaN" (JFloat S754_nan) s with
  | Some r => Some r
  | None =>
  match keyword "Infinity" (JFloat (S754_infinity false)) s with
  | Some r => Some r
  | None => keyword "-Infinity" (JFloat (S754_infinity true)) s
  end end end end end.

(** One value at the head of [s] (no leading blanks), and the rest. *)
Fixpoint scan_once (fuel : nat) (s : string) : option (json * string) :=
  match fuel with
  | O => None
  | S fuel' =>
      match s with
      | EmptyString => None
      | String c rest =>
          if code c =? 34 then
            match scan_string rest with
            | Some (text, rest') => Some (JStr text, rest')
            | None => None
            end
          else if code c =? 91 then
            match skip_ws rest with
            | String c' rest' =>
                if code c' =? 93 then Some (JArr [], rest')
                else scan_items fuel' (skip_ws rest) []
            | EmptyString => None
            end
          else if code c =? 123 then
            match skip_ws rest with
            | String c' rest' =>
                if code c' =? 125 then Some (JObj [], rest')
                else scan_members fuel' (skip_ws rest) []
            | EmptyString => None
            end
          else
            match constant s with
            | Some r => Some r
            | None => scan_number s
            end
      end
  end

with scan_items (fuel : nat) (s : string) (items : list json) : option (json * string) :=
  match fuel with
  | O => None
  | S fuel' =>
      match scan_once fuel' s with
      | None => None
      | Some (v, rest) =>
          match skip_ws rest with
          | String c rest' =>
              if code c =? 93 then Some (JArr (items ++ [v]), rest')
              else if code c =? 44 then scan_items fuel' (skip_ws rest') (items ++ [v])
              else None
          | EmptyString => None
          end
      end
  end

with scan_members (fuel : nat) (s : string) (fields : list (string * json))
  : option (json * string) :=
  match fuel with
  | O => None
  | S fuel' =>
      match s with
      | String q after_quote =>
          if code q =? 34 then
            match scan_string after_quote with
            | None => None
            | Some (key, rest) =>
                match skip_ws rest with
                | String colon rest1 =>
                    if code colon =? 58 then
                      match scan_once fuel' (skip_ws rest1) with
                      | None => None
                      | Some (v, rest2) =>
                          match skip_ws rest2 with
                          | String c rest3 =>
                              if code c =? 125 then Some (JObj (dict_set fields key v), rest3)
                              else if code c =? 44 then
                                scan_members fuel' (skip_ws rest3) (dict_set fields key v)
                              else None
                          | EmptyString => None
                          end
                      end
                    else None
                | EmptyString => None
                end
            end
          else None
      | EmptyString => None
      end
  end.

(** [json.loads(s)], [None] for a [JSONDecodeError]. *)
Definition decode (s : string) : option json :=
  match scan_once (2 * String.length s + 2) (skip_ws s) with
  | Some (v, rest) =>
      match skip_ws rest with
      | EmptyString => Some v
      | String _ _ => None
      end
  | None => None
  end.

(** *** The encoder *)

Definition digit_char (n : Z) : ascii := chr (48 + n).

Definition hex_char (n : Z) : ascii := if n <? 10 then chr (48 + n) else chr (87 + n).

(** The decimal digits of a natural number, most significant first;
    [fuel] bounds their count. *)
Fixpoint digits_of (fuel : nat) (n : Z) (acc : string) : string :=
  match fuel with
  | O => acc
  | S fuel' =>
      let acc' := String (digit_char (n mod 10)) acc in
      if n <? 10 then acc' else digits_of fuel' (n / 10) acc'
  end.

Definition decimal (n : Z) : string :=
  digits_of (S (Z.to_nat (Z.log2 (Z.abs n)))) (Z.abs n) EmptyString.

(** [str(n)] for an integer. *)
Definition int_repr (n : Z) : string :=
  if n <? 0 then "-" +:+ decimal n else decimal n.

Fixpoint zeros (n : nat) : string :=
  match n with
  | O => EmptyString
  | S n' => String "0" (zeros n')
  end.

Definition pad2 (n : Z) : string :=
  if n <? 10 then "0" +:+ decimal n else decimal n.

(** The code points of a UTF-8 text. *)
Fixpoint code_points (fuel : nat) (s : string) : list Z :=
  match fuel with
  | O => []
  | S fuel' =>
      match s with
      | EmptyString => []
      | String c rest =>
          let n := code c in
          if n <? 192 then n :: code_points fuel' rest
          else if n <? 224 then
            match rest with
            | String c1 rest1 =>
                ((n - 192) * 64 + (code c1 - 128)) :: code_points fuel' rest1
            | _ => [n]
            end
          else if n <? 240 then
            match rest with
            | String c1 (String c2 rest2) =>
                ((n - 224) * 4096 + (code c1 - 128) * 64 + (code c2 - 128))
                  :: code_points fuel' rest2
            | _ => [n]
            end
          else
            match rest with
            | String c1 (String c2 (String c3 rest3)) =>
                ((n - 240) * 262144 + (code c1 - 128) * 4096 +
                 (code c2 - 128) * 64 + (code c3 - 128))
                  :: code_points fuel' rest3
            | _ => [n]
            end
      end
  end.

Definition hex4_text (u : Z) : string :=
  String (hex_char (u / 4096))
    (String (hex_char ((u / 256) mod 16))
       (String (hex_char ((u / 16) mod 16))
          (String (hex_char (u mod 16)) EmptyString))).

Definition backslash : string := String (chr 92) EmptyString.

(** One code point inside a JSON string, with [ensure_ascii]. *)
Definition escape_point (u : Z) : string :=
  if u =? 34 then backslash +:+ dq
  else if u =? 92 then backslash +:+ backslash
  else if u =? 10 then backslash +:+ "n"
  else if u =? 13 then backslash +:+ "r"
  else if u =? 9 then backslash +:+ "t"
  else if u =? 8 then backslash +:+ "b"
  else if u =? 12 then backslash +:+ "f"
  else if (32 <=? u) && (u <=? 126) then String (chr u) EmptyString
  else if u <? 65536 then backslash +:+ "u" +:+ hex4_text u
  else
    let v := u - 65536 in
    backslash +:+ "u" +:+ hex4_text (55296 + v / 1024) +:+
    backslash +:+ "u" +:+ hex4_text (56320 + v mod 1024).

Definition encode_string (s : string) : string :=
  dq +:+ String.concat EmptyString (map escape_point (code_points (String.length s) s)) +:+ dq.

(** *** The shortest decimal text of a double *)

(** [v >= 10 ^ q] for the positive rational [v = num / den]. *)
Definition ge_pow10 (num den q : Z) : bool :=
  if 0 <=? q then den * 10 ^ q <=? num else den <=? num * 10 ^ (- q).

(** The integer [p] with [10 ^ p <= v < 10 ^ (p + 1)], looked for
    upwards from [p]. *)
Fixpoint magnitude (fuel : nat) (num den p : Z) : Z :=
  match fuel with
  | O => p
  | S fuel' =>
      if ge_pow10 num den (p + 1) then magnitude fuel' num den (p + 1) else p
  end.

Definition same_float (f g : spec_float) : bool :=
  match SFcompare f g with
  | Some Eq => true
  | _ => false
  end.

(** The [n]-digit decimals around the value of the positive double [f],
    which is [num / den]: the one that reads back as [f], the nearer
    one when both do. *)
Definition candidate (f : spec_float) (num den p : Z) (n : Z) : option (Z * Z) :=
  let k := p - (n - 1) in
  let num' := if 0 <=? k then num else num * 10 ^ (- k) in
  let den' := if 0 <=? k then den * 10 ^ k else den in
  let lo := num' / den' in
  let rem := num' mod den' in
  if rem =? 0 then Some (lo, k)
  else
    let hi := lo + 1 in
    let lo_ok := same_float (float_of_decimal false lo k) f in
    let hi_ok := same_float (float_of_decimal false hi k) f in
    match lo_ok, hi_ok with
    | true, true =>
        if 2 * rem <? den' then Some (lo, k)
        else if den' <? 2 * rem then Some (hi, k)
        else if Z.even lo then Some (lo, k) else Some (hi, k)
    | true, false => Some (lo, k)
    | false, true => Some (hi, k)
    | false, false => None
    end.

Fixpoint shortest (fuel : nat) (f : spec_float) (num den p : Z) (n : Z) : Z * Z :=
  match fuel with
  | O =>
      let k := p - (n - 1) in
      ((if 0 <=? k then num else num * 10 ^ (- k)) /
       (if 0 <=? k then den * 10 ^ k else den), k)
  | S fuel' =>
      match candidate f num den p n with
      | Some r => r
      | None => shortest fuel' f num den p (n + 1)
      end
  end.

Fixpoint strip_zeros (fuel : nat) (d k : Z) : Z * Z :=
  match fuel with
  | O => (d, k)
  | S fuel' =>
      if (d mod 10 =? 0) && negb (d =? 0) then strip_zeros fuel' (d / 10) (k + 1)
      else (d, k)
  end.

(** [repr] of a positive finite double with mantissa [m] and exponent
    [e]: its shortest digits, laid out as Python does. *)
Definition positive_float_repr (m : positive) (e : Z) : string :=
  let f := S754_finite false m e in
  let num := if 0 <=? e then Zpos m * 2 ^ e else Zpos m in
  let den := if 0 <=? e then 1 else 2 ^ (- e) in
  let guess := ((Z.log2 (Zpos m) + e) * 30103) / 100000 - 1 in
  let p := magnitude 4 num den guess in
  let '(d0, k0) := shortest 17 f num den p 1 in
  let '(d, k) := strip_zeros 20 d0 k0 in
  let ds := decimal d in
  let nd := Z.of_nat (String.length ds) in
  let decpt := k + nd in
  if (-4 <? decpt) && (decpt <=? 16) then
    if decpt <=? 0 then "0." +:+ zeros (Z.to_nat (- decpt)) +:+ ds
    else if nd <=? decpt then ds +:+ zeros (Z.to_nat (decpt - nd)) +:+ ".0"
    else
      String.substring 0 (Z.to_nat decpt) ds +:+ "." +:+
      String.substring (Z.to_nat decpt) (Z.to_nat (nd - decpt)) ds
  else
    let x := decpt - 1 in
    String.substring 0 1 ds +:+
    (if 1 <? nd then "." +:+ String.substring 1 (Z.to_nat (nd - 1)) ds else EmptyString) +:+
    "e" +:+ (if x <? 0 then "-" else "+") +:+ pad2 (Z.abs x).

(** [repr(f)]; [json.dumps] writes the three special values its own
    way. *)
Definition float_repr (for_json : bool) (f : spec_float) : string :=
  match f with
  | S754_zero s => if s then "-0.0" else "0.0"
  | S754_infinity s =>
      if for_json then (if s then "-Infinity" else "Infinity")
      else (if s then "-inf" else "inf")
  | S754_nan => if for_json then "NaN" else "nan"
  | S754_finite s m e =>
      (if s then "-" else EmptyString) +:+ positive_float_repr m e
  end.

Definition newline : string := String (chr 10) EmptyString.

Fixpoint spaces (n : nat) : string :=
  match n with
  | O => EmptyString
  | S n' => String " " (spaces n')
  end.

(** [json.dumps(v, indent=indent)] at nesting [level]; without [indent]
    the separators are ", " and ": ". *)
Fixpoint encode_at (indent : option nat) (level : nat) (v : json) : string :=
  let item_sep :=
    match indent with
    | None => ", "
    | Some n => "," +:+ newline +:+ spaces (n * S level)
    end in
  let opening :=
    match indent with
    | None => EmptyString
    | Some n => newline +:+ spaces (n * S level)
    end in
  let closing :=
    match indent with
    | None => EmptyString
    | Some n => newline +:+ spaces (n * level)
    end in
  match v with
  | JNull => "null"
  | JBool true => "true"
  | JBool false => "false"
  | JInt z => int_repr z
  | JFloat f => float_repr true f
  | JStr s => encode_string s
  | JArr [] => "[]"
  | JArr items =>
      "[" +:+ opening +:+
      (fix go (l : list json) : string :=
         match l with
         | [] => EmptyString
         | [x] => encode_at indent (S level) x
         | x :: rest => encode_at indent (S level) x +:+ item_sep +:+ go rest
         end) items +:+
      closing +:+ "]"
  | JObj [] => "{}"
  | JObj fields =>
      "{" +:+ opening +:+
      (fix go (l : list (string * json)) : string :=
         match l with
         | [] => EmptyString
         | [(k, x)] => encode_string k +:+ ": " +:+ encode_at indent (S level) x
         | (k, x) :: rest =>
             encode_string k +:+ ": " +:+ encode_at indent (S level) x +:+ item_sep +:+ go rest
         end) fields +:+
      closing +:+ "}"
  end.

Definition encode (indent : option nat) (v : json) : string := encode_at indent 0 v.

(** *** [repr] of a value *)

Definition quote : string := "'".

Definition repr_char (q : ascii) (c : ascii) : string :=
  let n := code c in
  if n =? 92 then backslash +:+ backslash
  else if Ascii.eqb c q then backslash +:+ String q EmptyString
  else if n =? 10 then backslash +:+ "n"
  else if n =? 13 then backslash +:+ "r"
  else if n =? 9 then backslash +:+ "t"
  else if (n <? 32) || (n =? 127) then
    backslash +:+ "x" +:+ String (hex_char (n / 16)) (String (hex_char (n mod 16)) EmptyString)
  else String c EmptyString.

Fixpoint string_chars (s : string) : list ascii :=
  match s with
  | EmptyString => []
  | String c rest => c :: string_chars rest
  end.

(** [repr(s)] of a text whose characters outside ASCII are printable. *)
Definition string_repr (s : string) : string :=
  let q := if contains quote s && negb (contains dq s) then chr 34 else chr 39 in
  String q EmptyString +:+
  String.concat EmptyString (map (repr_char q) (string_chars s)) +:+
  String q EmptyString.

Fixpoint repr (v : json) : string :=
  match v with
  | JNull => "None"
  | JBool true => "True"
  | JBool false => "False"
  | JInt z => int_repr z
  | JFloat f => float_repr false f
  | JStr s => string_repr s
  | JArr items =>
      "[" +:+
      (fix go (l : list json) : string :=
         match l with
         | [] => EmptyString
         | [x] => repr x
         | x :: rest => repr x +:+ ", " +:+ go rest
         end) items +:+ "]"
  | JObj fields =>
      "{" +:+
      (fix go (l : list (string * json)) : string :=
         match l with
         | [] => EmptyString
         | [(k, x)] => string_repr k +:+ ": " +:+ repr x
         | (k, x) :: rest => string_repr k +:+ ": " +:+ repr x +:+ ", " +:+ go rest
         end) fields +:+ "}"
  end.

(** *** The clock, the exceptions, the language model *)

(** The civil date of a day count from 1970-01-01. *)
Definition civil (days : Z) : Z * Z * Z :=
  let z := days + 719468 in
  let era := z / 146097 in
  let doe := z - era * 146097 in
  let yoe := (doe - doe / 1460 + doe / 36524 - doe / 146096) / 365 in
  let doy := doe - (365 * yoe + yoe / 4 - yoe / 100) in
  let mp := (5 * doy + 2) / 153 in
  let d := doy - (153 * mp + 2) / 5 + 1 in
  let m := if mp <? 10 then mp + 3 else mp - 9 in
  let y := yoe + era * 400 + (if m <=? 2 then 1 else 0) in
  (y, m, d).

Definition pad4 (n : Z) : string :=
  let s := decimal n in
  zeros (4 - String.length s) +:+ s.

(** [isoformat] of the time [seconds] after 1970-01-01T00:00:00, on a
    clock without time zone and without fractions of a second. *)
Definition iso (seconds : Z) : string :=
  let '(y, m, d) := civil (seconds / 86400) in
  let s := seconds mod 86400 in
  pad4 y +:+ "-" +:+ pad2 m +:+ "-" +:+ pad2 d +:+ "T" +:+
  pad2 (s / 3600) +:+ ":" +:+ pad2 ((s / 60) mod 60) +:+ ":" +:+ pad2 (s mod 60).

(** The text of an exception: its message is not modelled, the text is
    the name of its class; an [HTTPException] shows its status and
    detail. *)
Definition exn_text (e : exn) : string :=
  match e with
  | JSONDecodeError => "JSONDecodeError"
  | KeyError => "KeyError"
  | TypeError => "TypeError"
  | AttributeError => "AttributeError"
  | HTTPException status_code detail => int_repr status_code +:+ ": " +:+ detail
  | OtherError name => name
  end.

(** A scripted language model: one answer to the extraction request,
    another to the request of an email draft. *)
Definition scripted (prompt : string) (extraction draft : res (option string))
  : string -> list (string * json) -> res (option string) :=
  fun _ messages =>
    match messages with
    | (_, JStr system) :: _ => if String.eqb system prompt then extraction else draft
    | _ => draft
    end.

(** The platform with the scripted language model. *)
Definition platform (extraction draft : res (option string)) : Platform :=
  {| json_loads := decode;
     json_dumps := encode;
     py_repr := repr;
     exn_str := exn_text;
     isoformat := iso;
     chat_completions_create := scripted OCR_Extraction_Prompt extraction draft |}.

(** A JSON text in double quotes. *)
Definition quoted (s : string) : string := dq +:+ s +:+ dq.

(** The world at start: nothing stored, nothing queued. *)
Definition start (now : Z) : world :=
  {| store := ∅; queue := []; clock := now; trace := [] |}.

End Reference.

(** ** Jobs and referrals to run the pipeline on *)

Module Scenario.

Import Agent Reference.

Definition provider (name : string) (contact : json) : json :=
  JObj [("name", JStr name);
        ("provider_id", JStr "");
        ("specialty", JStr "");
        ("contact", contact)].

Definition contact (phone email address : string) : json :=
  JObj [("phone", JStr phone); ("email", JStr email); ("address", JStr address)].

Definition patient (name date_of_birth : string) : json :=
  JObj [("name", JStr name); ("date_of_birth", JStr date_of_birth)].

Definition referral_fields (referring receiving who : json) : list (string * json) :=
  [("referral_id", JStr "R-17");
   ("referring_provider", referring);
   ("receiving_provider", receiving);
   ("patient", who);
   ("reason_for_referral", JStr "Chest pain on exertion");
   ("requested_action", JStr "Cardiology consult")].

Definition referral (referring receiving who : json) : json :=
  JObj (referral_fields referring receiving who).

(** A referral with every required field. *)
Definition complete_referral : json :=
  referral
    (provider "Dr. Ames" (contact "" "ames@clinic.example" ""))
    (provider "Dr. Okoye" (contact "555-0100" "" ""))
    (patient "Jane Roe" "1980-02-29").

(** The same without the date of birth of the patient. *)
Definition referral_without_birth : json :=
  referral
    (provider "Dr. Ames" (contact "" "ames@clinic.example" ""))
    (provider "Dr. Okoye" (contact "555-0100" "" ""))
    (patient "Jane Roe" "").

(** A referral whose providers have no phone, email or address. *)
Definition referral_without_contacts : json :=
  referral
    (provider "Dr. Ames" (contact "" "" ""))
    (provider "Dr. Okoye" (contact "" "" ""))
    (patient "Jane Roe" "1980-02-29").

(** A referral whose referring provider has an empty contact record. *)
Definition referral_with_empty_contact : json :=
  referral
    (provider "Dr. Ames" (JObj []))
    (provider "Dr. Okoye" (contact "555-0100" "" ""))
    (patient "Jane Roe" "1980-02-29").

(** A referral whose referring contact is a text, not a record. *)
Definition referral_with_text_contact : json :=
  referral
    (provider "Dr. Ames" (JStr "ames@clinic.example"))
    (provider "Dr. Okoye" (contact "555-0100" "" ""))
    (patient "Jane Roe" "1980-02-29").


(** The job the upload endpoint queues: [json.dumps(job_data)]. *)
Definition job_fields : list (string * json) :=
  [("document_id", JStr "doc-1");
   ("filename", JStr "referral.png");
   ("file_size", JInt 2048);
   ("extracted_text", JStr "Referral: Jane Roe, chest pain.");
   ("text_length", JInt 31);
   ("upload_timestamp", JStr "2025-11-04T00:00:00");
   ("status", JStr "ocr_complete");
   ("next_step", JStr "agent_processing")].

Definition job : string := encode None (JObj job_fields).

(** An email draft, as the language model is asked to return it. *)
Definition draft_fields : list (string * json) :=
  [("subject", JStr "Missing referral information");
   ("body", JStr "Please send the missing details.");
   ("recipient", JStr "referring provider")].

Definition draft_record : json := JObj draft_fields.

(** The language model answers the extraction request with the JSON text
    of [data], and the request of a draft with the draft above. *)
Definition answering (data : json) : Platform :=
  platform (Ok (Some (encode None data))) (Ok (Some (encode None draft_record))).

(** The language model answers every request with [text]. *)
Definition saying (text : string) : Platform :=
  platform (Ok (Some text)) (Ok (Some text)).


(** The status record of a document, as stored, at the time of [w]. *)
Definition stored_status (w : world) (document_id : string) : option json :=
  match store w !! ("document:" +:+ document_id) ≫= live (clock w) with
  | Some text => decode text
  | None => None
  end.

Definition field (k : string) (v : option json) : option json :=
  match v with
  | Some (JObj fields) => dict_get fields k
  | _ => None
  end.

(** The world once the upload endpoint has pushed the job. *)
Definition queued (now : Z) : world := snd (lpush job (start now)).

(** The text the job carries. *)
Definition raw_text : json := JStr "Referral: Jane Roe, chest pain.".


(** The world an hour, less [early] seconds, after a status was
    written for the document. *)
Definition later (early : Z) : world :=
  snd (elapse (3600 - early)
         (snd (@update_redis_status (saying "{}") (JStr "doc-1") "emr_synced"
                 JNull complete_referral (start 1000)))).

End Scenario.
(** ** A reference host, and uploads to run the service on *)

Module ReferenceHost.

Import Reference DocumentProcessor.

(** [s.rfind(c)]: the last index of [c], -1 when there is none. *)
Fixpoint last_index (c : ascii) (s : string) (i found : Z) : Z :=
  match s with
  | EmptyString => found
  | String c' s' => last_index c s' (i + 1) (if Ascii.eqb c' c then i else found)
  end.

Definition rfind (c : ascii) (s : string) : Z := last_index c s 0 (-1).

(** [posixpath.splitext(p)]: the extension starts at the last dot of
    the last component, unless that component has only dots before
    it. *)
Definition posix_splitext (p : string) : string * string :=
  let sep_index := rfind "/" p in
  let dot_index := rfind "." p in
  if (sep_index <? dot_index) &&
     existsb (fun i => match String.get i p with
                       | Some c => negb (Ascii.eqb c ".")
                       | None => false
                       end)
       (seq (Z.to_nat (sep_index + 1)) (Z.to_nat (dot_index - sep_index - 1)))
  then (String.substring 0 (Z.to_nat dot_index) p,
        String.substring (Z.to_nat dot_index) (String.length p - Z.to_nat dot_index) p)
  else (p, EmptyString).

(** [s.lower()] of an ASCII text. *)
Fixpoint ascii_lower (s : string) : string :=
  match s with
  | EmptyString => EmptyString
  | String c s' =>
      String (if (65 <=? code c) && (code c <=? 90) then chr (code c + 32) else c)
        (ascii_lower s')
  end.

(** The white space of ASCII, as [str.strip] counts it. *)
Definition is_space (c : ascii) : bool :=
  let n := code c in
  ((9 <=? n) && (n <=? 13)) || ((28 <=? n) && (n <=? 32)).

Fixpoint lstrip (l : list ascii) : list ascii :=
  match l with
  | c :: l' => if is_space c then lstrip l' else l
  | [] => []
  end.

(** [s.strip()] of an ASCII text. *)
Definition ascii_strip (s : string) : string :=
  string_of_list_ascii (rev (lstrip (rev (lstrip (list_ascii_of_string s))))).

(** The host whose OCR gives the same answer for every image. *)
Definition host (ocr : res string) : Host :=
  {| splitext := posix_splitext;
     str_lower := ascii_lower;
     str_strip := ascii_strip;
     image_to_string := fun _ => ocr |}.

End ReferenceHost.

Module Uploads.

Import Agent Reference Scenario DocumentProcessor Service ServiceSpec ReferenceHost.

(** The first bytes of a PNG file. *)
Definition scan : list Byte.byte :=
  [Byte.x89; Byte.x50; Byte.x4e; Byte.x47; Byte.x0d; Byte.x0a; Byte.x1a; Byte.x0a].

(** What the OCR reads on it, and the host that reads it. *)
Definition scanned : string := "  Referral: Jane Roe, chest pain. " +:+ newline.

Definition reading : Host := host (Ok scanned).

(** A host whose OCR cannot open the image. *)
Definition blind : Host := host (Raise (OtherError "UnidentifiedImageError")).

(** The job of the upload of [scan] as [referral.PNG] at time 1000. *)
Definition uploaded_job : json :=
  @job_data "doc-1" (@processed reading scan "referral.PNG" scanned) (iso 1000).

(** The world after that upload, into the empty world. *)
Definition uploaded (p : Platform) : world :=
  snd (@upload_document p reading "doc-1" scan (Some "referral.PNG") (start 1000)).

(** A world with three items in its queue, of which one is the text of
    a job, and the status record of that job. *)
Definition mixed_queue : world :=
  {| store := {[ "document:doc-1" := (encode None (JObj [("status", JStr "emr_synced")]), 5000) ]};
     queue := ["not json"; job; "[1, 2]"];
     clock := 1000;
     trace := [] |}.

End Uploads.

(** ** Replies and referrals that are not what the worker expects *)

Module Oddities.

Import Agent Reference Scenario.

(** A referral whose referring provider has the empty text for a
    contact, as the extraction prompt asks for a value that is
    missing. *)
Definition blank_contact_fields : list (string * json) :=
  referral_fields
    (provider "Dr. Ames" (JStr ""))
    (provider "Dr. Okoye" (contact "555-0100" "" ""))
    (patient "Jane Roe" "1980-02-29").

(** A referral whose referring provider is the empty text. *)
Definition blank_provider_fields : list (string * json) :=
  referral_fields
    (JStr "")
    (provider "Dr. Okoye" (contact "555-0100" "" ""))
    (patient "Jane Roe" "1980-02-29").

(** The fields of the referral without a date of birth. *)
Definition no_birth_fields : list (string * json) :=
  referral_fields
    (provider "Dr. Ames" (contact "" "ames@clinic.example" ""))
    (provider "Dr. Okoye" (contact "555-0100" "" ""))
    (patient "Jane Roe" "").

(** The language model answers the extraction request with the JSON
    text of [data], and the request of a draft with [text]. *)
Definition drafting_with (data : json) (text : string) : Platform :=
  platform (Ok (Some (encode None data))) (Ok (Some text)).

End Oddities.


(** * Properties *)
Module ValidationFacts.

Import Validation PathSpec Entries.

Lemma traverse_lookup_path (parts : list string) :
  forall current : json,
    match lookup_path current parts with
    | Some v => traverse current parts = (v, false)
    | None => exists last, traverse current parts = (last, true)
    end.
Proof.
  induction parts as [|part rest IH]; intros current; simpl.
  - reflexivity.
  - destruct current; try (eexists; reflexivity).
    destruct (dict_get fields part) as [v|].
    + apply IH.
    + eexists; reflexivity.
Qed.

Lemma eq_str_empty_falsy (v : json) : eq_str v "" = true -> truthy v = false.
Proof.
  destruct v; simpl; try discriminate.
  intros ->. reflexivity.
Qed.


Lemma check_field_entry (data : json) (field : string) (acc : list string) :
  check_field data field acc = res_map (fun l => acc ++ l) (entry data field).
Proof.
  unfold check_field, entry.
  destruct (contains "." field).
  - unfold dotted_entry, path_value.
    pose proof (traverse_lookup_path (split "." field) data) as H.
    destruct (lookup_path data (split "." field)) as [v|].
    + rewrite H. unfold is_empty. simpl.
      destruct (truthy v) eqn:Hv; simpl.
      * destruct (eq_str v "") eqn:He.
        { apply eq_str_empty_falsy in He. congruence. }
        destruct (endswith field ".contact"); simpl.
        -- destruct v; simpl; try reflexivity.
           unfold no_channel, channel, any, is_empty. simpl.
           destruct (truthy (dict_get_or fields "phone" JNull));
             destruct (truthy (dict_get_or fields "email" JNull));
             destruct (truthy (dict_get_or fields "address" JNull)); simpl;
             rewrite ?app_nil_r; reflexivity.
        -- rewrite app_nil_r. reflexivity.
      * reflexivity.
    + destruct H as [last H]. rewrite H. reflexivity.
  - unfold plain_entry, is_empty.
    destruct data; simpl; try reflexivity.
    + destruct (contains field s); reflexivity.
    + destruct (existsb _ items); reflexivity.
    + unfold dict_has.
      destruct (dict_get fields field) as [v|]; simpl; [|reflexivity].
      destruct (truthy v) eqn:Hv; simpl; [|reflexivity].
      destruct (eq_str v "") eqn:He.
      { apply eq_str_empty_falsy in He. congruence. }
      rewrite app_nil_r. reflexivity.
Qed.


Lemma check_fields_entries (data : json) (fields : list string) :
  forall acc : list string,
    check_fields data fields acc = res_map (fun l => acc ++ l) (entries data fields).
Proof.
  induction fields as [|field rest IH]; intros acc; simpl.
  - rewrite app_nil_r. reflexivity.
  - rewrite check_field_entry.
    destruct (entry data field) as [l|e]; simpl; [|reflexivity].
    rewrite IH.
    destruct (entries data rest) as [ls|e]; simpl; [|reflexivity].
    rewrite app_assoc. reflexivity.
Qed.

Lemma check_required_fields_entries (data : json) :
  check_required_fields data =
  if truthy data then
    res_map (fun m => (Nat.eqb (List.length m) 0, m)) (entries data required_fields)
  else Ok (false, [sentinel]).
Proof.
  unfold check_required_fields.
  rewrite check_fields_entries.
  destruct (truthy data); [|reflexivity].
  cbn [negb]. destruct (entries data required_fields); reflexivity.
Qed.

Lemma entries_ok_field (data : json) (fields : list string) :
  forall m field,
    entries data fields = Ok m -> In field fields ->
    exists l, entry data field = Ok l /\ incl l m.
Proof.
  induction fields as [|f rest IH]; intros m field Hm Hin; simpl in *.
  - contradiction.
  - destruct (entry data f) as [l|e] eqn:Hf; simpl in Hm; [|discriminate].
    destruct (entries data rest) as [ls|e] eqn:Hrest; simpl in Hm; [|discriminate].
    injection Hm as <-.
    destruct Hin as [<-|Hin].
    + exists l. split; [assumption|]. apply incl_appl, incl_refl.
    + destruct (IH ls field eq_refl Hin) as (l' & Hl' & Hincl).
      exists l'. split; [assumption|]. apply incl_appr. assumption.
Qed.

Lemma entries_ok_elem (data : json) (fields : list string) :
  forall m x,
    entries data fields = Ok m -> In x m ->
    exists field l, In field fields /\ entry data field = Ok l /\ In x l.
Proof.
  induction fields as [|f rest IH]; intros m x Hm Hin; simpl in *.
  - injection Hm as <-. contradiction.
  - destruct (entry data f) as [l|e] eqn:Hf; simpl in Hm; [|discriminate].
    destruct (entries data rest) as [ls|e] eqn:Hrest; simpl in Hm; [|discriminate].
    injection Hm as <-.
    apply in_app_or in Hin. destruct Hin as [Hin|Hin].
    + exists f, l. auto.
    + destruct (IH ls x eq_refl Hin) as (f' & l' & Hf' & Hl' & Hx).
      exists f', l'. auto.
Qed.

Lemma entries_total (data : json) (fields : list string) :
  (forall field, In field fields -> is_ok (entry data field) = true) ->
  is_ok (entries data fields) = true.
Proof.
  induction fields as [|f rest IH]; intros H; simpl.
  - reflexivity.
  - pose proof (H f (or_introl eq_refl)) as Hf.
    destruct (entry data f) as [l|e]; simpl in *; [|discriminate].
    assert (Hrest : is_ok (entries data rest) = true).
    { apply IH. intros g Hg. apply H. right. assumption. }
    destruct (entries data rest); simpl in *; [reflexivity|discriminate].
Qed.

(** When every round either succeeds or raises [e], and one of them
    raises, the loop raises [e]. *)
Lemma entries_raise (data : json) (fields : list string) (e : exn) :
  (forall field, In field fields ->
     is_ok (entry data field) = true \/ entry data field = Raise e) ->
  (exists field, In field fields /\ entry data field = Raise e) ->
  entries data fields = Raise e.
Proof.
  induction fields as [|f rest IH]; intros Hall (g & Hg & Hraise); simpl in *.
  - contradiction.
  - destruct (Hall f (or_introl eq_refl)) as [Hok|Hr].
    + destruct (entry data f) as [l|e'] eqn:Hf; simpl in *; [|discriminate].
      destruct Hg as [<-|Hg]; [congruence|].
      rewrite IH; [reflexivity| |].
      * intros h Hh. apply Hall. right. assumption.
      * exists g. auto.
    + rewrite Hr. reflexivity.
Qed.

Lemma prefix_dot (c : ascii) (s : string) :
  String.prefix "." (String c s) = Ascii.eqb c ".".
Proof.
  cbn [String.prefix]. destruct (ascii_dec "." c) as [<-|Hne].
  - rewrite Ascii.eqb_refl. destruct s; reflexivity.
  - symmetry. apply Ascii.eqb_neq. congruence.
Qed.

Lemma split_no_dot (s : string) : contains "." s = false -> split "." s = [s].
Proof.
  induction s as [|c s IH]; intros H.
  - reflexivity.
  - cbn [contains] in H. rewrite prefix_dot in H.
    apply orb_false_iff in H. destruct H as [Hc Hs].
    cbn [split]. rewrite Hc, (IH Hs). reflexivity.
Qed.

(** A path the specification counts as missing is entered under its
    exact name, whenever its round returns. *)
Lemma entry_unsatisfied (data : json) (field : string) (l : list string) :
  path_unsatisfied data field = true -> entry data field = Ok l -> l = [field].
Proof.
  unfold path_unsatisfied, entry. intros Hun.
  destruct (contains "." field) eqn:Hdot.
  - unfold dotted_entry.
    destruct (path_value data field) as [v|].
    + rewrite Hun. congruence.
    + congruence.
  - unfold path_value in Hun. rewrite (split_no_dot _ Hdot) in Hun.
    unfold plain_entry. destruct data; simpl in Hun; try discriminate.
    + destruct (contains field s); congruence.
    + destruct (existsb _ items); congruence.
    + destruct (dict_get fields field) as [v|].
      * rewrite Hun. congruence.
      * congruence.
Qed.

(** An entry is the field, or the field with the contact annotation. *)
Lemma entry_shape (data : json) (field : string) (l : list string) (x : string) :
  entry data field = Ok l -> In x l ->
  x = field \/ x = field +:+ contact_note.
Proof.
  unfold entry, dotted_entry, plain_entry, contact_entry. intros H Hin.
  repeat match type of H with
         | context [match ?t with _ => _ end] => destruct t; try discriminate
         end;
    injection H as <-; simpl in Hin; intuition.
Qed.

End ValidationFacts.

(** ** The claims about the validation engine *)

Module ValidationClaims.

Import Validation PathSpec Entries ValidationFacts.

Lemma contacts_are_records_forall (data : json) :
  contacts_are_records data = true <->
  forall path, In path required_fields -> contact_ok data path = true.
Proof. unfold contacts_are_records. apply forallb_forall. Qed.

Lemma entry_ok_of_record (fields : list (string * json)) (field : string) :
  contact_ok (JObj fields) field = true -> is_ok (entry (JObj fields) field) = true.
Proof.
  unfold contact_ok, entry, dotted_entry, plain_entry, contact_entry, is_empty.
  intros Hok. destruct (contains "." field).
  - destruct (path_value (JObj fields) field) as [v|]; [|reflexivity].
    destruct (truthy v) eqn:Hv; [|reflexivity]. cbn [negb].
    destruct (endswith field ".contact"); [|reflexivity].
    destruct v; try discriminate. destruct (no_channel _); reflexivity.
  - destruct (dict_get fields field) as [v|]; [|reflexivity].
    destruct (negb (truthy v)); reflexivity.
Qed.

Lemma entry_raises_of_bad_contact (data : json) (field : string) :
  contains "." field = true -> contact_ok data field = false ->
  entry data field = Raise AttributeError.
Proof.
  unfold contact_ok, entry, dotted_entry, contact_entry, is_empty.
  intros -> Hbad.
  destruct (endswith field ".contact"); [|discriminate].
  destruct (path_value data field) as [v|]; [|discriminate].
  destruct (truthy v); [|discriminate]. cbn [negb].
  destruct v; try reflexivity. discriminate.
Qed.

Lemma required_contact_dotted (path : string) :
  In path required_fields -> endswith path ".contact" = true ->
  contains "." path = true.
Proof.
  intros Hin Hends.
  repeat (destruct Hin as [<-|Hin]; [vm_compute in Hends |- *; congruence|]).
  contradiction.
Qed.

Lemma check_ok_entries (data : json) (complete : bool) (missing : list string) :
  truthy data = true ->
  check_required_fields data = Ok (complete, missing) ->
  entries data required_fields = Ok missing /\
  complete = Nat.eqb (List.length missing) 0.
Proof.
  intros Ht. rewrite check_required_fields_entries, Ht.
  destruct (entries data required_fields) as [m|e]; simpl; [|discriminate].
  intros [= <- <-]. auto.
Qed.

Lemma length_eqb_nil {A : Type} (l : list A) :
  Nat.eqb (List.length l) 0 = true <-> l = [].
Proof. destruct l; simpl; split; congruence. Qed.

(** C2, amended.  Whenever [check_required_fields] returns, the complete
    flag is true if and only if the missing list is empty; and when the
    input is not empty (it is not one of the values Python counts as
    false, for which the single sentinel entry is returned instead),
    every required path with an absent segment, a segment looked up
    in a value that is not a record, or an empty or absent terminal
    value, is in the missing list under its exact name. *)
Theorem check_required_fields_reports_missing
    (data : json) (complete : bool) (missing : list string) :
  check_required_fields data = Ok (complete, missing) ->
  (complete = true <-> missing = []) /\
  (truthy data = true ->
   forall path, In path required_fields ->
     path_unsatisfied data path = true -> In path missing).
Proof.
  intros Hcheck. split.
  - rewrite check_required_fields_entries in Hcheck.
    destruct (truthy data).
    + destruct (entries data required_fields) as [m|e]; simpl in Hcheck; [|discriminate].
      injection Hcheck as <- <-. apply length_eqb_nil.
    + injection Hcheck as <- <-. split; discriminate.
  - intros Ht path Hin Hun.
    destruct (check_ok_entries _ _ _ Ht Hcheck) as [Hentries _].
    destruct (entries_ok_field _ _ _ _ Hentries Hin) as (l & Hl & Hincl).
    rewrite (entry_unsatisfied _ _ _ Hun Hl) in Hincl.
    apply Hincl. left. reflexivity.
Qed.

(** C8.  Applied to [None], [check_required_fields] returns
    [complete = false] and a missing list of exactly one entry, the
    sentinel, which is none of the required paths, annotated or not. *)
Theorem check_required_fields_null :
  check_required_fields JNull = Ok (false, [sentinel]) /\
  forallb
    (fun path =>
       negb (String.eqb path sentinel) &&
       negb (String.eqb (path +:+ contact_note) sentinel))
    required_fields = true.
Proof. split; reflexivity. Qed.

Lemma path_value_some_truthy (data : json) (path : string) (v : json) :
  In path required_fields -> path_value data path = Some v -> truthy data = true.
Proof.
  intros Hin Hv.
  repeat (destruct Hin as [<-|Hin];
          [vm_compute in Hv; destruct data; try discriminate;
           destruct fields; [discriminate|reflexivity]|]).
  contradiction.
Qed.

Lemma annotation_apart (path field : string) :
  In path required_fields -> In field required_fields ->
  path <> field +:+ contact_note /\
  (path +:+ contact_note = field +:+ contact_note -> path = field).
Proof.
  intros Hp Hf.
  repeat (destruct Hp as [<-|Hp]);
    try contradiction;
    repeat (destruct Hf as [<-|Hf]);
    try contradiction;
    (split; [vm_compute; discriminate|]);
    (intros Heq; first [reflexivity | vm_compute in Heq; discriminate]).
Qed.

Lemma contact_path_entry (data : json) (path : string) (contact : list (string * json)) :
  In path required_fields -> endswith path ".contact" = true ->
  path_value data path = Some (JObj contact) ->
  entry data path =
  Ok (match contact with
      | [] => [path]
      | _ :: _ => if no_channel contact then [path +:+ contact_note] else []
      end).
Proof.
  intros Hin Hends Hv. unfold entry, dotted_entry.
  rewrite (required_contact_dotted _ Hin Hends), Hv, Hends.
  destruct contact as [|kv rest]; [reflexivity|].
  unfold is_empty, contact_entry. cbn [truthy negb].
  destruct (no_channel (kv :: rest)); reflexivity.
Qed.

(** C3, amended.  When [check_required_fields] returns and a required
    path ending in [.contact] designates a record, the path is reported
    missing, with or without the annotation, exactly when all three of
    phone, email and address are empty or absent; it is reported with
    the annotation "(phone, email, or address)" when the record is also
    not the empty record, and under its plain name exactly when it is the
    empty record.  So with one non-empty channel neither form is
    reported. *)
Theorem contact_rule
    (data : json) (path : string) (contact : list (string * json))
    (complete : bool) (missing : list string) :
  In path required_fields -> endswith path ".contact" = true ->
  path_value data path = Some (JObj contact) ->
  check_required_fields data = Ok (complete, missing) ->
  ((In path missing \/ In (path +:+ contact_note) missing) <->
   no_channel contact = true) /\
  (In (path +:+ contact_note) missing <->
   no_channel contact = true /\ contact <> []) /\
  (In path missing <-> contact = []).
Proof.
  intros Hin Hends Hv Hcheck.
  pose proof (path_value_some_truthy _ _ _ Hin Hv) as Ht.
  destruct (check_ok_entries _ _ _ Ht Hcheck) as [Hentries _].
  pose proof (contact_path_entry _ _ _ Hin Hends Hv) as Hentry.
  destruct (entries_ok_field _ _ _ _ Hentries Hin) as (l & Hl & Hincl).
  rewrite Hentry in Hl. injection Hl as <-.
  assert (Hplain : In path missing -> contact = []).
  { intros Hm.
    destruct (entries_ok_elem _ _ _ _ Hentries Hm) as (f & l & Hf & Hfl & Hx).
    destruct (entry_shape _ _ _ _ Hfl Hx) as [->|Heq].
    - rewrite Hentry in Hfl. injection Hfl as <-.
      destruct contact as [|kv rest]; [reflexivity|].
      destruct (no_channel (kv :: rest)); simpl in Hx; [|contradiction].
      destruct Hx as [Hx|[]].
      destruct (annotation_apart f f Hf Hf) as [Hne _]. congruence.
    - destruct (annotation_apart path f Hin Hf) as [Hne _]. contradiction. }
  assert (Hnote : In (path +:+ contact_note) missing ->
                  no_channel contact = true /\ contact <> []).
  { intros Hm.
    destruct (entries_ok_elem _ _ _ _ Hentries Hm) as (f & l & Hf & Hfl & Hx).
    destruct (entry_shape _ _ _ _ Hfl Hx) as [Heq|Heq].
    - destruct (annotation_apart f path Hf Hin) as [Hne _]. congruence.
    - destruct (annotation_apart path f Hin Hf) as [_ Hinj].
      specialize (Hinj Heq). subst f.
      rewrite Hentry in Hfl. injection Hfl as <-.
      destruct contact as [|kv rest].
      + simpl in Hx. destruct Hx as [Hx|[]].
        destruct (annotation_apart path path Hin Hin) as [Hne _]. congruence.
      + destruct (no_channel (kv :: rest)); [|contradiction].
        split; [reflexivity|discriminate]. }
  assert (Hempty : contact = [] -> no_channel contact = true).
  { intros ->. reflexivity. }
  split; [|split].
  - split.
    + intros [Hm|Hm]; [auto|apply Hnote; assumption].
    + intros Hno. destruct contact as [|kv rest].
      * left. apply Hincl. left. reflexivity.
      * right. apply Hincl. rewrite Hno. left. reflexivity.
  - split; [exact Hnote|].
    intros [Hno Hne]. apply Hincl.
    destruct contact as [|kv rest]; [congruence|].
    rewrite Hno. left. reflexivity.
  - split; [exact Hplain|].
    intros ->. apply Hincl. left. reflexivity.
Qed.

(** C9, amended.  [check_required_fields] returns a pair, without
    raising, when the input is empty or a record and, for every required
    path ending in [.contact], the value reached at the end of the
    traversal, when present and non-empty, is a record.  For a record in
    which one of these values is non-empty and not a record, the [get]
    calls on it raise [AttributeError]. *)
Theorem check_required_fields_total :
  (forall data,
     truthy data = false \/ is_dict data = true ->
     contacts_are_records data = true ->
     exists complete missing, check_required_fields data = Ok (complete, missing)) /\
  (forall data,
     is_dict data = true ->
     contacts_are_records data = false ->
     check_required_fields data = Raise AttributeError).
Proof.
  split.
  - intros data Hshape Hok.
    rewrite check_required_fields_entries.
    destruct (truthy data) eqn:Ht; [|eauto].
    destruct Hshape as [Hf|Hd]; [discriminate|].
    destruct data as [| | | | | |fields]; try discriminate.
    assert (His : is_ok (entries (JObj fields) required_fields) = true).
    { apply entries_total. intros f Hf. apply entry_ok_of_record.
      apply contacts_are_records_forall; assumption. }
    destruct (entries (JObj fields) required_fields) as [m|e]; [|discriminate].
    simpl. eauto.
  - intros data Hd Hbad.
    destruct data as [| | | | | |fields]; try discriminate.
    assert (Hexists : exists path, In path required_fields /\
                                   contact_ok (JObj fields) path = false).
    { unfold contacts_are_records in Hbad.
      destruct (forallb (contact_ok (JObj fields)) required_fields) eqn:Hall;
        [discriminate|].
      clear Hbad. induction required_fields as [|f rest IH]; [discriminate|].
      simpl in Hall. apply andb_false_iff in Hall. destruct Hall as [Hf|Hrest].
      - exists f. split; [left; reflexivity|assumption].
      - destruct (IH Hrest) as (p & Hp & Hpbad). exists p. split; [right|]; assumption. }
    destruct Hexists as (path & Hin & Hpbad).
    assert (Hends : endswith path ".contact" = true).
    { unfold contact_ok in Hpbad. destruct (endswith path ".contact"); congruence. }
    assert (Ht : truthy (JObj fields) = true).
    { unfold contact_ok in Hpbad. rewrite Hends in Hpbad.
      destruct (path_value (JObj fields) path) as [v|] eqn:Hv; [|discriminate].
      eapply path_value_some_truthy; eassumption. }
    rewrite check_required_fields_entries, Ht.
    rewrite (entries_raise (JObj fields) required_fields AttributeError).
    + reflexivity.
    + intros f Hf. destruct (contact_ok (JObj fields) f) eqn:Hc.
      * left. apply entry_ok_of_record. assumption.
      * right. apply entry_raises_of_bad_contact; [|assumption].
        apply required_contact_dotted; [assumption|].
        unfold contact_ok in Hc. destruct (endswith f ".contact"); congruence.
    + exists path. split; [assumption|].
      apply entry_raises_of_bad_contact; [|assumption].
      apply required_contact_dotted; assumption.
Qed.

End ValidationClaims.

(** ** Running the worker *)

Module AgentFacts.

Import Validation PathSpec Agent RoutingSpec Effects.
Local Open Scope m_scope.

(** *** Composition of effects *)

Section Composition.

Context {A B : Type}.

Lemma run_bind (m : M A) (k : A -> M B) (w : world) :
  bind m k w =
  match fst (m w) with
  | Ok a => k a (snd (m w))
  | Raise e => (Raise e, snd (m w))
  end.
Proof. unfold bind. destruct (m w) as [[a|e] w']; reflexivity. Qed.

Lemma quiet_bind (m : M A) (k : A -> M B) :
  quiet m -> (forall a, quiet (k a)) -> quiet (bind m k).
Proof.
  intros Hm Hk w. rewrite run_bind. specialize (Hm w). cbv beta in Hm.
  destruct (fst (m w)) as [a|e]; [|exact Hm].
  specialize (Hk a (snd (m w))). cbv beta in Hk.
  destruct Hm as (Hs & Hq & Hc). destruct Hk as (Hs' & Hq' & Hc').
  repeat split; congruence.
Qed.

Lemma total_bind (m : M A) (k : A -> M B) :
  total m -> (forall a, total (k a)) -> total (bind m k).
Proof.
  intros Hm Hk w. rewrite run_bind. specialize (Hm w). cbv beta in Hm.
  destruct (fst (m w)) as [a|e]; [|discriminate].
  apply Hk.
Qed.

Lemma clean_raise_after_quiet (m : M A) (k : A -> M B) :
  quiet m -> (forall a, clean_raise (k a)) -> clean_raise (bind m k).
Proof.
  intros Hm Hk w. rewrite run_bind. specialize (Hm w). cbv beta in Hm.
  destruct Hm as (Hs & _ & _).
  destruct (fst (m w)) as [a|e]; [|intros _; exact Hs].
  specialize (Hk a (snd (m w))). cbv beta in Hk.
  intros Hr. rewrite (Hk Hr). exact Hs.
Qed.

Lemma clean_raise_before_total (m : M A) (k : A -> M B) :
  clean_raise m -> (forall a, total (k a)) -> clean_raise (bind m k).
Proof.
  intros Hm Hk w. rewrite run_bind. specialize (Hm w). cbv beta in Hm.
  destruct (fst (m w)) as [a|e]; [|exact Hm].
  specialize (Hk a (snd (m w))). cbv beta in Hk.
  intros Hr. congruence.
Qed.

Lemma keeps_queue_bind (m : M A) (k : A -> M B) :
  keeps_queue m -> (forall a, keeps_queue (k a)) -> keeps_queue (bind m k).
Proof.
  intros Hm Hk w. rewrite run_bind. specialize (Hm w). cbv beta in Hm.
  destruct (fst (m w)) as [a|e]; [|exact Hm].
  specialize (Hk a (snd (m w))). cbv beta in Hk. congruence.
Qed.

Lemma emits_bind (P : event -> Prop) (m : M A) (k : A -> M B) :
  emits P m -> (forall a, emits P (k a)) -> emits P (bind m k).
Proof.
  intros Hm Hk w. rewrite run_bind. specialize (Hm w). cbv beta in Hm.
  destruct (fst (m w)) as [a|e]; [|exact Hm].
  specialize (Hk a (snd (m w))). cbv beta in Hk.
  destruct Hm as (evs & Hm & Hevs). destruct Hk as (evs' & Hk & Hevs').
  exists (evs ++ evs'). split; [rewrite Hk, Hm; symmetry; apply app_assoc|].
  apply Forall_app. auto.
Qed.

End Composition.

Lemma quiet_clean_raise {A : Type} (m : M A) : quiet m -> clean_raise m.
Proof. intros Hm w _. apply (Hm w). Qed.

Lemma quiet_keeps_queue {A : Type} (m : M A) : quiet m -> keeps_queue m.
Proof. intros Hm w. apply (Hm w). Qed.

Lemma total_clean_raise {A : Type} (m : M A) : total m -> clean_raise m.
Proof. intros Hm w Hr. specialize (Hm w). cbv beta in *. congruence. Qed.

Lemma quiet_ret {A : Type} (a : A) : quiet (ret a).
Proof. intros w. cbn. auto. Qed.

Lemma quiet_raise {A : Type} (e : exn) : quiet (raise (A := A) e).
Proof. intros w. cbn. auto. Qed.

Lemma quiet_lift {A : Type} (r : res A) : quiet (lift r).
Proof. intros w. cbn. auto. Qed.

Lemma quiet_emit (ev : event) : quiet (emit ev).
Proof. intros w. cbn. auto. Qed.

Lemma quiet_log (level : log_level) (msg : string) (args : list json) :
  quiet (log level msg args).
Proof. apply quiet_emit. Qed.

Lemma quiet_print (line : string) : quiet (print line).
Proof. apply quiet_emit. Qed.

Lemma total_ret {A : Type} (a : A) : total (ret a).
Proof. intros w. reflexivity. Qed.

Lemma total_emit (ev : event) : total (emit ev).
Proof. intros w. reflexivity. Qed.

Lemma total_log (level : log_level) (msg : string) (args : list json) :
  total (log level msg args).
Proof. apply total_emit. Qed.

Lemma total_print (line : string) : total (print line).
Proof. apply total_emit. Qed.

Lemma total_setex (key : string) (ttl : Z) (value : string) : total (setex key ttl value).
Proof. intros w. reflexivity. Qed.

Lemma emits_ret (P : event -> Prop) {A : Type} (a : A) : emits P (ret a).
Proof. intros w. exists []. cbn. rewrite app_nil_r. auto. Qed.

Lemma emits_raise (P : event -> Prop) {A : Type} (e : exn) : emits P (raise (A := A) e).
Proof. intros w. exists []. cbn. rewrite app_nil_r. auto. Qed.

Lemma emits_lift (P : event -> Prop) {A : Type} (r : res A) : emits P (lift r).
Proof. intros w. exists []. cbn. rewrite app_nil_r. auto. Qed.

Lemma emits_emit (P : event -> Prop) (ev : event) : P ev -> emits P (emit ev).
Proof. intros Hev w. exists [ev]. cbn. auto. Qed.

Lemma emits_setex (P : event -> Prop) (key : string) (ttl : Z) (value : string) :
  emits P (setex key ttl value).
Proof. intros w. exists []. cbn. rewrite app_nil_r. auto. Qed.

Create HintDb effects.

#[export] Hint Resolve quiet_ret quiet_raise quiet_lift quiet_emit quiet_log quiet_print
  total_ret total_emit total_log total_print total_setex
  emits_ret emits_raise emits_lift emits_setex : effects.

(** Go through a computation: a bind by the composition lemma [rule], a
    case distinction by cases, a call by the hints. *)
Ltac through rule :=
  repeat first
    [ progress auto with effects
    | apply rule; [|intros ?]
    | match goal with
      | |- _ (match ?x with _ => _ end) => destruct x
      | |- _ (if ?x then _ else _) => destruct x
      end ].

(** Unfold the plumbing of a computation applied to a world. *)
Ltac plumbing :=
  cbv beta iota zeta delta
    [bind ret raise lift emit extend log print setex now_isoformat fst snd] in *;
  cbn [store queue clock trace] in *.

Section Pipeline.

Context `{Platform}.

Lemma update_redis_status_run (doc_id : json) (status : string)
    (additional_info structured_data : json) (w : world) :
  exists w',
    update_redis_status doc_id status additional_info structured_data w = (Ok tt, w') /\
    store w' =
      <[doc_key doc_id :=
          (json_dumps None
             (status_data status (isoformat (clock w)) additional_info structured_data),
           clock w + 3600)]> (store w) /\
    clock w' = clock w /\ queue w' = queue w /\
    exists evs, trace w' = trace w ++ evs.
Proof.
  unfold update_redis_status. plumbing.
  eexists. split; [reflexivity|]. plumbing.
  repeat split. eexists. rewrite <- app_assoc. reflexivity.
Qed.

Lemma quiet_now : quiet now_isoformat.
Proof. intros w. cbn. auto. Qed.

Lemma quiet_chat (messages : list (string * json)) : quiet (chat_with_gpt4 messages).
Proof. unfold chat_with_gpt4. through @quiet_bind. Qed.

Lemma quiet_extraction (raw_ocr_text : json) : quiet (llm_assistend_extraction raw_ocr_text).
Proof.
  unfold llm_assistend_extraction. pose proof quiet_chat. through @quiet_bind.
Qed.

Lemma quiet_draft (missing_fields : list string) (referring receiving referral_id : json) :
  quiet (draft_request_email missing_fields referring receiving referral_id).
Proof.
  unfold draft_request_email. pose proof quiet_chat. through @quiet_bind.
Qed.

Lemma quiet_send (email_data contact_info : json) :
  quiet (mock_send_email email_data contact_info).
Proof.
  unfold mock_send_email. pose proof quiet_now. through @quiet_bind.
Qed.

Lemma quiet_emr (referral_data : json) : quiet (mock_emr_sync referral_data).
Proof.
  unfold mock_emr_sync. pose proof quiet_now. through @quiet_bind.
Qed.

Lemma total_now : total now_isoformat.
Proof. intros w. reflexivity. Qed.

Lemma total_update (doc_id : json) (status : string) (additional_info structured_data : json) :
  total (update_redis_status doc_id status additional_info structured_data).
Proof.
  unfold update_redis_status. pose proof total_now. through @total_bind.
Qed.

Lemma clean_raise_route (doc_id structured_data : json) (is_complete : bool)
    (missing_fields : list string) :
  clean_raise (route doc_id structured_data is_complete missing_fields).
Proof.
  pose proof quiet_emr. pose proof quiet_draft. pose proof quiet_send.
  pose proof total_update.
  unfold route, route_complete, route_incomplete.
  destruct is_complete.
  - repeat (apply clean_raise_after_quiet; [solve [auto with effects]|intros ?]).
    apply total_clean_raise. through @total_bind.
  - repeat (apply clean_raise_after_quiet; [solve [auto with effects]|intros ?]).
    destruct (truthy _).
    + repeat (apply clean_raise_after_quiet; [solve [auto with effects]|intros ?]).
      apply total_clean_raise. through @total_bind.
    + apply clean_raise_after_quiet; [solve [auto with effects]|intros ?].
      apply total_clean_raise. through @total_bind.
Qed.

Lemma keeps_queue_update (doc_id : json) (status : string)
    (additional_info structured_data : json) :
  keeps_queue (update_redis_status doc_id status additional_info structured_data).
Proof.
  intros w.
  destruct (update_redis_status_run doc_id status additional_info structured_data w)
    as (w' & -> & _ & _ & Hq & _).
  exact Hq.
Qed.

(** No step of a job touches the queue. *)
Lemma keeps_queue_process_job (document_data : string) :
  keeps_queue (process_job document_data).
Proof.
  pose proof keeps_queue_update.
  pose proof (fun a => quiet_keeps_queue _ (quiet_extraction a)).
  pose proof (fun a => quiet_keeps_queue _ (quiet_emr a)).
  pose proof (fun a b c d => quiet_keeps_queue _ (quiet_draft a b c d)).
  pose proof (fun a b => quiet_keeps_queue _ (quiet_send a b)).
  assert (Hprim : forall (A : Type) (m : M A), quiet m -> keeps_queue m)
    by (intros; apply quiet_keeps_queue; assumption).
  unfold process_job, route, route_complete, route_incomplete.
  repeat first
    [ assumption
    | solve [auto]
    | solve [apply Hprim; auto with effects]
    | apply @keeps_queue_bind; [|intros ?]
    | match goal with
      | |- _ (match ?x with _ => _ end) => destruct x
      | |- _ (if ?x then _ else _) => destruct x
      end ].
Qed.

(** A job that raises has written no status. *)
Lemma clean_raise_process_job (document_data : string) :
  clean_raise (process_job document_data).
Proof.
  pose proof quiet_extraction. pose proof total_update. pose proof clean_raise_route.
  unfold process_job.
  repeat (apply clean_raise_after_quiet; [solve [auto with effects]|intros ?]).
  destruct (is_none _).
  - apply clean_raise_after_quiet; [solve [auto with effects]|intros ?].
    apply total_clean_raise. through @total_bind.
  - repeat (apply clean_raise_after_quiet; [solve [auto with effects]|intros ?]).
    apply clean_raise_before_total; [auto|intros ?].
    through @total_bind.
Qed.



Lemma get_raises (v : json) (k : string) (default : json) (e : exn) :
  get v k default = Raise e -> e = AttributeError.
Proof. destruct v; cbn; congruence. Qed.

Lemma get_record (fields : list (string * json)) (k : string) (default : json) :
  get (JObj fields) k default = Ok (dict_get_or fields k default).
Proof. reflexivity. Qed.

Lemma chat_run (messages : list (string * json)) (reply : option string) (w : world) :
  chat_completions_create model messages = Ok reply ->
  exists evs, chat_with_gpt4 messages w = (Ok reply, extend w evs).
Proof.
  intros Hreply. unfold chat_with_gpt4. plumbing. rewrite Hreply.
  eexists. rewrite <- !app_assoc. reflexivity.
Qed.

(** The extraction returns what [decoded] makes of the reply. *)
Lemma extraction_run (raw_ocr_text : json) (reply : option string) (w : world) :
  chat_completions_create model (extraction_messages raw_ocr_text) = Ok reply ->
  exists evs,
    llm_assistend_extraction raw_ocr_text w = (Ok (decoded reply), extend w evs).
Proof.
  intros Hreply. unfold llm_assistend_extraction, chat_with_gpt4, loads, decoded.
  plumbing. rewrite Hreply.
  destruct reply as [text|]; [destruct (json_loads text)|];
    plumbing; eexists; rewrite <- !app_assoc; reflexivity.
Qed.

Lemma draft_run (missing_fields : list string)
    (referring receiving referral_id referring_name receiving_name : json)
    (reply : option string) (w : world) :
  get referring "name" (JStr "Unknown") = Ok referring_name ->
  get receiving "name" (JStr "Unknown") = Ok receiving_name ->
  chat_completions_create model
    (draft_messages referring_name receiving_name missing_fields) = Ok reply ->
  exists evs,
    draft_request_email missing_fields referring receiving referral_id w =
    (Ok (decoded reply), extend w evs).
Proof.
  intros Hn1 Hn2 Hreply. unfold draft_request_email, chat_with_gpt4, loads, decoded.
  plumbing. rewrite Hn1, Hn2, Hreply.
  destruct reply as [text|]; [destruct (json_loads text)|];
    plumbing; eexists; rewrite <- !app_assoc; reflexivity.
Qed.


Lemma emr_run (fields : list (string * json)) (w : world) :
  is_dict (dict_get_or fields "patient" (JObj [])) = true ->
  is_dict (dict_get_or fields "referring_provider" (JObj [])) = true ->
  is_dict (dict_get_or fields "receiving_provider" (JObj [])) = true ->
  exists evs,
    mock_emr_sync (JObj fields) w =
    (Ok (JObj [("status", JStr "synced");
               ("timestamp", JStr (isoformat (clock w)));
               ("referral_id", dict_get_or fields "referral_id" JNull)]),
     extend w evs) /\
    In emr_sync_done evs.
Proof.
  intros Hp Hr Hv. unfold mock_emr_sync. rewrite !get_record. plumbing.
  destruct (dict_get_or fields "patient" (JObj [])); try discriminate.
  destruct (dict_get_or fields "referring_provider" (JObj [])); try discriminate.
  destruct (dict_get_or fields "receiving_provider" (JObj [])); try discriminate.
  rewrite !get_record. plumbing.
  eexists. split; [rewrite <- !app_assoc; reflexivity|].
  unfold emr_sync_done. simpl. auto 20.
Qed.

(** What [get_contact_info] returns for a provider record. *)
Lemma get_contact_info_best (provider : json) (contact : list (string * json)) :
  contact_record provider = Some contact ->
  get_contact_info provider =
  Ok (match best_channel contact with
      | Some v => v
      | None => JStr sentinel_no_contact
      end).
Proof.
  unfold contact_record, get_contact_info. intros Hc.
  destruct provider as [| | | | | |fields]; try discriminate.
  rewrite get_record. unfold dict_get_or at 1.
  destruct (dict_get fields "contact") as [c|].
  - destruct c as [| | | | | |c]; try discriminate. injection Hc as <-.
    cbn [res_bind]. rewrite !get_record. cbn [res_bind].
    unfold best_channel, channel, getitem, dict_get_or.
    destruct (dict_get c "email") as [e|]; cbn [truthy].
    + destruct (truthy e); [reflexivity|].
      destruct (dict_get c "phone") as [p|]; cbn [truthy].
      * destruct (truthy p); [reflexivity|].
        destruct (dict_get c "address") as [a|]; cbn [truthy]; [|reflexivity].
        destruct (truthy a); reflexivity.
      * destruct (dict_get c "address") as [a|]; cbn [truthy]; [|reflexivity].
        destruct (truthy a); reflexivity.
    + destruct (dict_get c "phone") as [p|]; cbn [truthy].
      * destruct (truthy p); [reflexivity|].
        destruct (dict_get c "address") as [a|]; cbn [truthy]; [|reflexivity].
        destruct (truthy a); reflexivity.
      * destruct (dict_get c "address") as [a|]; cbn [truthy]; [|reflexivity].
        destruct (truthy a); reflexivity.
  - injection Hc as <-. reflexivity.
Qed.

(** The target [main] resolves, against the wording of the
    specification: they agree unless the best channel of the referring
    provider is the no-contact text itself. *)
Lemma contact_target_resolve (referring receiving : json)
    (referring_contact receiving_contact : list (string * json)) :
  contact_record referring = Some referring_contact ->
  contact_record receiving = Some receiving_contact ->
  best_channel referring_contact <> Some (JStr sentinel_no_contact) ->
  contact_target referring receiving = Ok (resolve referring_contact receiving_contact).
Proof.
  intros Hr Hv Hne. unfold contact_target, resolve.
  rewrite (get_contact_info_best _ _ Hr), (get_contact_info_best _ _ Hv).
  cbn [res_bind].
  destruct (best_channel referring_contact) as [v|]; [|reflexivity].
  destruct (eq_str v sentinel_no_contact) eqn:Heq; [|reflexivity].
  destruct v; try discriminate. cbn [eq_str] in Heq.
  apply String.eqb_eq in Heq. subst. congruence.
Qed.


Lemma get_contact_info_raises (provider : json) :
  contact_record provider = None -> get_contact_info provider = Raise AttributeError.
Proof.
  unfold contact_record, get_contact_info. intros Hc.
  destruct provider as [| | | | | |fields]; try reflexivity.
  rewrite get_record. unfold dict_get_or.
  destruct (dict_get fields "contact") as [c|]; [|discriminate].
  destruct c; try reflexivity. discriminate.
Qed.



Lemma provider_name_get (provider : json) :
  is_dict provider = true ->
  get provider "name" (JStr "Unknown") = Ok (provider_name provider).
Proof. destruct provider; try discriminate. reflexivity. Qed.





Lemma send_fails (email_data contact_info : json) (w : world) :
  is_dict email_data = false ->
  mock_send_email email_data contact_info w =
  (Raise AttributeError, extend w [Log INFO "To: %s" [contact_info]]).
Proof.
  intros Hdict. unfold mock_send_email. rewrite run_bind. cbn [log emit fst snd].
  rewrite run_bind. destruct email_data; try discriminate; reflexivity.
Qed.




(** *** The round of the worker's loop *)

Lemma rpop_last (rest : list string) (job : string) (w : world) :
  queue w = rest ++ [job] ->
  rpop w =
  (Ok (Some job),
   {| store := store w; queue := rest; clock := clock w; trace := trace w |}).
Proof.
  intros Hq. unfold rpop. rewrite Hq, rev_app_distr. cbn [rev app].
  rewrite rev_involutive. reflexivity.
Qed.

(** With nothing in the queue the worker polls, and nothing changes. *)
Lemma main_rounds_idle (rounds : nat) (w : world) :
  queue w = [] -> main_rounds rounds w = (Ok tt, w).
Proof.
  intros Hq. induction rounds as [|n IH]; [reflexivity|].
  cbn [main_rounds]. rewrite run_bind.
  assert (Hround : main_iteration w = (Ok tt, w)).
  { unfold main_iteration, check_redis, rpop. plumbing. rewrite Hq. reflexivity. }
  rewrite Hround. exact IH.
Qed.

(** A round takes the job at the right end of the queue and runs the
    [try] statement on it. *)
Lemma main_iteration_run (rest : list string) (job : string) (w : world) :
  queue w = rest ++ [job] -> job <> EmptyString ->
  main_iteration w =
  match try_process_job job (dequeued w rest) with
  | (Ok Continue, w') => (Ok tt, w')
  | (Ok Completed, w') =>
      (Ok tt, extend w' [Log INFO "Breaking after processing current document." []])
  | (Raise e, w') => (Raise e, w')
  end.
Proof.
  intros Hq Hne. unfold main_iteration, check_redis.
  rewrite run_bind, run_bind, (rpop_last rest job w Hq). cbn [fst snd ret].
  apply String.eqb_neq in Hne. rewrite Hne.
  rewrite run_bind. cbn [log emit fst snd]. rewrite run_bind.
  change (extend {| store := store w; queue := rest; clock := clock w; trace := trace w |}
            [Log INFO "Document data found. Beginning processing." []])
    with (dequeued w rest).
  destruct (try_process_job job (dequeued w rest)) as [[[|]|e] w']; reflexivity.
Qed.

(** *** The status records of the routing branches *)

Lemma records_after_quiet {A B : Type} (doc_id : json) (allowed : string -> Prop)
    (data : json) (m : M A) (k : A -> M B) :
  quiet m -> (forall a, records doc_id allowed data (k a)) ->
  records doc_id allowed data (bind m k).
Proof.
  intros Hm Hk w. rewrite run_bind. specialize (Hm w). cbv beta in Hm.
  destruct Hm as (Hs & _ & Hc).
  destruct (fst (m w)) as [a|e].
  - specialize (Hk a (snd (m w))). cbv beta in Hk. unfold written in *.
    rewrite Hs, Hc in Hk. exact Hk.
  - cbn [fst snd is_ok]. auto.
Qed.

Lemma records_before_total {A B : Type} (doc_id : json) (allowed : string -> Prop)
    (data : json) (m : M A) (k : A -> M B) :
  records doc_id allowed data m ->
  (forall a, quiet (k a)) -> (forall a, total (k a)) ->
  records doc_id allowed data (bind m k).
Proof.
  intros Hm Hq Ht w. rewrite run_bind. specialize (Hm w). cbv beta in Hm.
  destruct (fst (m w)) as [a|e].
  - specialize (Hq a (snd (m w))). specialize (Ht a (snd (m w))). cbv beta in Hq, Ht.
    destruct Hq as (Hs & _ & Hc). destruct Hm as (Hc' & Hm).
    split; [congruence|]. right. split; [exact Ht|].
    destruct Hm as [(Hr & _)|(_ & status & info & Hall & Hw)]; [discriminate|].
    exists status, info. split; [exact Hall|].
    unfold written in *. rewrite Hs. exact Hw.
  - exact Hm.
Qed.

Lemma records_update (doc_id : json) (allowed : string -> Prop) (data : json)
    (status : string) (additional_info : json) :
  allowed status ->
  records doc_id allowed data (update_redis_status doc_id status additional_info data).
Proof.
  intros Hall w.
  destruct (update_redis_status_run doc_id status additional_info data w)
    as (w' & -> & Hstore & Hclock & _).
  cbn [fst snd is_ok]. split; [exact Hclock|]. right. split; [reflexivity|].
  exists status, additional_info. auto.
Qed.

Lemma records_route (doc_id data : json) (is_complete : bool) (missing : list string) :
  records doc_id (branch_status is_complete) data
    (route doc_id data is_complete missing).
Proof.
  pose proof quiet_emr. pose proof quiet_draft. pose proof quiet_send.
  unfold route, route_complete, route_incomplete.
  destruct is_complete.
  - repeat (apply records_after_quiet; [solve [auto with effects]|intros ?]).
    apply records_before_total; auto with effects.
    apply records_update. reflexivity.
  - repeat (apply records_after_quiet; [solve [auto with effects]|intros ?]).
    destruct (truthy _).
    + repeat (apply records_after_quiet; [solve [auto with effects]|intros ?]).
      apply records_before_total; auto with effects.
      apply records_update. right. reflexivity.
    + apply records_after_quiet; [solve [auto with effects]|intros ?].
      apply records_update. left. reflexivity.
Qed.

(** *** No record of an EMR sync outside the complete branch *)


Lemma emits_now (P : event -> Prop) : emits P now_isoformat.
Proof. intros w. exists []. cbn. rewrite app_nil_r. auto. Qed.






(** *** The branches under their conditions *)







End Pipeline.

End AgentFacts.

(** ** The claims about the worker *)

Module AgentClaims.

Import Validation PathSpec Agent RoutingSpec Effects AgentFacts.
Local Open Scope m_scope.

Section Pipeline.

Context `{Platform}.

(** C1, amended.  For every reply of the language model, the extraction
    returns [None] when the reply has no content, when its content is
    not JSON text (the empty text included), and when it is the JSON
    text [null]; any other JSON text is returned whole, as decoded, with
    no test against the StructuredReferral schema.  When the extraction
    returns [None], the job ends in status [extraction_failed] with
    [structured_data] null. *)
Theorem extraction_null_or_whole (raw_ocr_text : json) (reply : option string) :
  chat_completions_create model (extraction_messages raw_ocr_text) = Ok reply ->
  (forall w, fst (llm_assistend_extraction raw_ocr_text w) = Ok (decoded reply)) /\
  (decoded reply = JNull <->
   reply = None \/
   exists text, reply = Some text /\
                (json_loads text = None \/ json_loads text = Some JNull)) /\
  (forall document_data job w,
     json_loads document_data = Some (JObj job) ->
     dict_get_or job "extracted_text" (JStr "") = raw_ocr_text ->
     decoded reply = JNull ->
     exists w',
       process_job document_data w = (Ok Continue, w') /\
       written w w' (dict_get_or job "document_id" (JStr "unknown"))
         "extraction_failed" (JStr "LLM extraction failed") JNull).
Proof.
  intros Hreply. split; [|split].
  - intros w. destruct (extraction_run _ _ w Hreply) as (evs & ->). reflexivity.
  - unfold decoded. split.
    + intros Hnull. destruct reply as [text|]; [|auto].
      right. exists text. split; [reflexivity|].
      destruct (json_loads text) as [v|]; [|auto]. right. congruence.
    + intros [->|(text & -> & [->| ->])]; reflexivity.
  - intros document_data job w Hjob Hraw Hnull.
    unfold process_job, loads. rewrite Hjob. plumbing.
    rewrite !get_record. plumbing. rewrite Hraw.
    match goal with
    | |- context [llm_assistend_extraction _ ?w0] =>
        destruct (extraction_run _ _ w0 Hreply) as (evs & ->)
    end.
    rewrite Hnull. cbn [is_none].
    match goal with
    | |- context [update_redis_status ?d ?s ?i ?x ?w0] =>
        destruct (update_redis_status_run d s i x w0)
          as (w1 & -> & Hstore & _)
    end.
    eexists. split; [reflexivity|].
    unfold written. rewrite Hstore. reflexivity.
Qed.

(** C6, amended.  When the pipeline of a job raises, no status record
    has been written for the document: the Redis database is as it was.
    At the boundary of the pipeline a [JSONDecodeError], [KeyError] or
    [TypeError] is caught and logged, and the worker goes on, still
    without a status record; any other exception is logged and raised
    again, past the boundary.  So the round of the worker that took the
    job from the queue returns in the first case and raises in the
    second, and in both the job is gone from the queue with no status
    written. *)
Theorem job_error_policy (document_data : string) (w : world) (e : exn) :
  fst (process_job document_data w) = Raise e ->
  store (snd (process_job document_data w)) = store w /\
  store (snd (try_process_job document_data w)) = store w /\
  fst (try_process_job document_data w) =
    (if swallowed e then Ok Completed else Raise e) /\
  (forall w0 rest,
     queue w0 = rest ++ [document_data] -> document_data <> EmptyString ->
     w = dequeued w0 rest ->
     fst (main_iteration w0) = (if swallowed e then Ok tt else Raise e) /\
     store (snd (main_iteration w0)) = store w0 /\
     queue (snd (main_iteration w0)) = rest).
Proof.
  intros Hraise.
  pose proof (clean_raise_process_job document_data w) as Hclean.
  cbv beta in Hclean. rewrite Hraise in Hclean. specialize (Hclean eq_refl).
  split; [exact Hclean|].
  pose proof (keeps_queue_process_job document_data w) as Hqueue.
  cbv beta in Hqueue.
  assert (Htry : store (snd (try_process_job document_data w)) = store w /\
                 queue (snd (try_process_job document_data w)) = queue w /\
                 fst (try_process_job document_data w) =
                   (if swallowed e then Ok Completed else Raise e)).
  { unfold try_process_job.
    destruct (process_job document_data w) as [[x|e'] w'].
    - discriminate.
    - cbn [fst snd] in *. injection Hraise as ->.
      destruct (swallowed e); plumbing; auto. }
  destruct Htry as (Hstore & Hq & Hres).
  split; [exact Hstore|]. split; [exact Hres|].
  intros w0 rest Hq0 Hne ->.
  rewrite (main_iteration_run rest document_data w0 Hq0 Hne).
  destruct (try_process_job document_data (dequeued w0 rest)) as [[x|e'] w'].
  - cbn [fst snd] in *. destruct (swallowed e); [|discriminate].
    injection Hres as ->. auto.
  - cbn [fst snd] in *. destruct (swallowed e); [discriminate|].
    injection Hres as ->. auto.
Qed.



End Pipeline.

(** C5, at the input where the code leaves the claim: the referring
    provider has an email, which reads "No contact information
    available", and the receiving provider is consulted all the same. *)
Theorem contact_target_confuses_sentinel :
  contact_target
    (JObj [("contact", JObj [("email", JStr "No contact information available")])])
    (JObj [("contact", JObj [("email", JStr "office@clinic.example")])])
  = Ok (JStr "office@clinic.example").
Proof. reflexivity. Qed.

End AgentClaims.

(** ** The claim about the status boundary *)

Module ApiClaims.

Import Agent Api AgentFacts.
Local Open Scope m_scope.

Section StatusEndpoint.

Context `{Platform}.

(** Whatever the guarded body does, the guard returns its result or
    raises an [HTTPException]: the one of the body, or status 500 with
    the fixed detail. *)
Lemma http_guard_outcome {A : Type} (m : M A) (w : world) :
  match fst (http_guard m w) with
  | Ok a => fst (m w) = Ok a
  | Raise e =>
      exists code detail,
        e = HTTPException code detail /\
        (fst (m w) = Raise e \/ (code = 500 /\ detail = failed_detail))
  end.
Proof.
  unfold http_guard. destruct (m w) as [[a|e] w1]; cbn [fst].
  - reflexivity.
  - destruct e; plumbing; eauto 6.
Qed.

(** C7, amended.  A status query for a document whose entry never
    existed, or has expired, raises an HTTP error with status 500 and the
    detail "Corrupt document data in Redis": there is no "unknown" or
    "not found" answer.  No internal exception is surfaced: a query
    returns, or raises an [HTTPException] with status 500 and one of
    the two fixed details. *)
Theorem status_query (document_id : string) (w : world) :
  (store w !! ("document:" +:+ document_id) = None \/
   (exists value expires,
      store w !! ("document:" +:+ document_id) = Some (value, expires) /\
      expires <= clock w) ->
   fst (get_document_status document_id w) = Raise (HTTPException 500 corrupt_detail)) /\
  match fst (get_document_status document_id w) with
  | Ok _ => True
  | Raise e =>
      e = HTTPException 500 corrupt_detail \/ e = HTTPException 500 failed_detail
  end.
Proof.
  split.
  - intros Hmissing.
    assert (Hget : store w !! ("document:" +:+ document_id) ≫= live (clock w) = None).
    { destruct Hmissing as [->|(value & expires & -> & Hle)]; [reflexivity|].
      cbn. unfold live. cbn [fst snd].
      destruct (clock w <? expires) eqn:Hlt; [|reflexivity].
      apply Z.ltb_lt in Hlt. lia. }
    unfold get_document_status, http_guard, get_document_status_body, redis_get.
    plumbing. rewrite Hget. reflexivity.
  - pose proof (http_guard_outcome (get_document_status_body document_id) w) as Hguard.
    fold (get_document_status document_id) in Hguard.
    destruct (fst (get_document_status document_id w)) as [r|e]; [exact I|].
    destruct Hguard as (code & detail & -> & [Hbody|[-> ->]]); [|auto].
    left. revert Hbody.
    unfold get_document_status_body, redis_get, loads. plumbing.
    destruct (store w !! ("document:" +:+ document_id) ≫= live (clock w)) as [text|];
      plumbing; [|intros [= <- <-]; reflexivity].
    destruct (json_loads text) as [data|]; plumbing; [|discriminate].
    repeat match goal with
           | |- context [get ?j ?k ?d] =>
               let Hget := fresh "Hget" in
               destruct (get j k d) eqn:Hget; plumbing;
               [|apply get_raises in Hget; intros [= Heq]; congruence]
           end.
    discriminate.
Qed.

End StatusEndpoint.

End ApiClaims.

(** ** The claims on concrete jobs *)

Module Witnesses.

Import Validation PathSpec Agent Api RoutingSpec Effects Reference Scenario.
Import ValidationClaims AgentClaims ApiClaims.

(** C1 on a reply that is not JSON: the job ends in [extraction_failed]
    with [structured_data] null. *)
Lemma extraction_null_or_whole_witness :
  @chat_completions_create (saying "I cannot read this scan.") model
    (extraction_messages raw_text) = Ok (Some "I cannot read this scan.") /\
  exists w',
    @process_job (saying "I cannot read this scan.") job (start 1000) = (Ok Continue, w') /\
    @written (saying "I cannot read this scan.") (start 1000) w'
      (dict_get_or job_fields "document_id" (JStr "unknown"))
      "extraction_failed" (JStr "LLM extraction failed") JNull.
Proof.
  assert (Hreply : @chat_completions_create (saying "I cannot read this scan.") model
                     (extraction_messages raw_text) = Ok (Some "I cannot read this scan."))
    by (vm_compute; reflexivity).
  split; [exact Hreply|].
  assert (Hjob : @json_loads (saying "I cannot read this scan.") job = Some (JObj job_fields))
    by (vm_compute; reflexivity).
  assert (Hraw : dict_get_or job_fields "extracted_text" (JStr "") = raw_text)
    by (vm_compute; reflexivity).
  assert (Hnull : @decoded (saying "I cannot read this scan.")
                    (Some "I cannot read this scan.") = JNull)
    by (vm_compute; reflexivity).
  exact (proj2 (proj2 (@extraction_null_or_whole (saying "I cannot read this scan.")
                         raw_text (Some "I cannot read this scan.") Hreply))
           job job_fields (start 1000) Hjob Hraw Hnull).
Defined.

(** C1 fails on JSON text without the schema: the reply [{}] decodes,
    satisfies none of the required paths, and is returned as it is
    instead of [None]; the job then ends in [email_draft_failed], not in
    [extraction_failed]. *)
Lemma schemaless_json_is_returned :
  decode "{}" = Some (JObj []) /\
  forallb (path_unsatisfied (JObj [])) required_fields = true /\
  fst (@llm_assistend_extraction (saying "{}") raw_text (start 1000)) = Ok (JObj []) /\
  field "status" (stored_status (snd (@process_job (saying "{}") job (start 1000))) "doc-1")
  = Some (JStr "email_draft_failed").
Proof. repeat split; vm_compute; reflexivity. Qed.

(** C2 on a referral without the date of birth of the patient. *)
Lemma check_required_fields_reports_missing_witness :
  check_required_fields referral_without_birth = Ok (false, ["patient.date_of_birth"]) /\
  (false = true <-> ["patient.date_of_birth"] = []) /\
  (truthy referral_without_birth = true ->
   forall path, In path required_fields ->
     path_unsatisfied referral_without_birth path = true ->
     In path ["patient.date_of_birth"]).
Proof.
  split; [reflexivity|].
  apply (check_required_fields_reports_missing referral_without_birth). reflexivity.
Defined.

(** C2 fails on the empty record: every segment is absent, and the
    missing list holds the sentinel, not the paths. *)
Lemma empty_record_gets_sentinel :
  check_required_fields (JObj []) = Ok (false, [sentinel]) /\
  In "patient.name" required_fields /\
  path_unsatisfied (JObj []) "patient.name" = true /\
  ~ In "patient.name" [sentinel].
Proof.
  repeat split; try reflexivity.
  - simpl. auto 10.
  - intros [Heq|[]]. discriminate.
Qed.

(** C3 on a referral whose contact records hold three empty texts. *)
Lemma contact_rule_witness :
  In "referring_provider.contact" required_fields /\
  path_value referral_without_contacts "referring_provider.contact" =
    Some (contact "" "" "") /\
  (In ("referring_provider.contact" +:+ contact_note)
      ["referring_provider.contact (phone, email, or address)";
       "receiving_provider.contact (phone, email, or address)"] <->
   no_channel [("phone", JStr ""); ("email", JStr ""); ("address", JStr "")] = true /\
   [("phone", JStr ""); ("email", JStr ""); ("address", JStr "")] <> []).
Proof.
  assert (Hin : In "referring_provider.contact" required_fields) by (simpl; auto 10).
  split; [exact Hin|]. split; [reflexivity|].
  apply (contact_rule referral_without_contacts "referring_provider.contact"
           [("phone", JStr ""); ("email", JStr ""); ("address", JStr "")]
           false
           ["referring_provider.contact (phone, email, or address)";
            "receiving_provider.contact (phone, email, or address)"]
           Hin eq_refl eq_refl eq_refl).
Defined.

(** C3 fails on a contact that is the empty record: it is a record, its
    three channels are empty, and the path is reported under its plain
    name, without the annotation. *)
Lemma empty_contact_is_not_annotated :
  path_value referral_with_empty_contact "referring_provider.contact" = Some (JObj []) /\
  no_channel [] = true /\
  check_required_fields referral_with_empty_contact =
    Ok (false, ["referring_provider.contact"]) /\
  ~ In ("referring_provider.contact" +:+ contact_note) ["referring_provider.contact"].
Proof.
  repeat split; try reflexivity.
  intros [Heq|[]]. vm_compute in Heq. discriminate.
Qed.



(** C6 on a job whose referring contact is a text: the pipeline raises
    [AttributeError], which is raised again past the boundary and out of
    the round of the worker; the job is gone from the queue and has no
    status. *)
Lemma job_error_policy_witness :
  fst (@process_job (answering referral_with_text_contact) job
         (dequeued (queued 1000) [])) = Raise AttributeError /\
  fst (@main_iteration (answering referral_with_text_contact) (queued 1000))
    = Raise AttributeError /\
  store (snd (@main_iteration (answering referral_with_text_contact) (queued 1000)))
    = store (queued 1000) /\
  queue (snd (@main_iteration (answering referral_with_text_contact) (queued 1000))) = [].
Proof.
  assert (Hraise : fst (@process_job (answering referral_with_text_contact) job
                          (dequeued (queued 1000) [])) = Raise AttributeError)
    by (vm_compute; reflexivity).
  split; [exact Hraise|].
  assert (Hne : job <> EmptyString) by (vm_compute; discriminate).
  exact (proj2 (proj2 (proj2
           (@job_error_policy (answering referral_with_text_contact) job
              (dequeued (queued 1000) []) AttributeError Hraise)))
           (queued 1000) [] eq_refl Hne eq_refl).
Defined.

(** C6 fails both ways.  The job above raises past the boundary of the
    pipeline, and leaves no status record.  A job whose extraction
    returns the number 5 raises [TypeError] in the validation; it is
    caught at the boundary, and no status record is written either. *)
Lemma job_errors_leave_no_status :
  fst (@try_process_job (answering referral_with_text_contact) job (start 1000))
    = Raise AttributeError /\
  stored_status
    (snd (@try_process_job (answering referral_with_text_contact) job (start 1000)))
    "doc-1" = None /\
  fst (@process_job (saying "5") job (start 1000)) = Raise TypeError /\
  fst (@try_process_job (saying "5") job (start 1000)) = Ok Completed /\
  stored_status (snd (@try_process_job (saying "5") job (start 1000))) "doc-1" = None /\
  fst (@main_iteration (saying "5") (queued 1000)) = Ok tt /\
  queue (snd (@main_iteration (saying "5") (queued 1000))) = [] /\
  stored_status (snd (@main_iteration (saying "5") (queued 1000))) "doc-1" = None.
Proof. repeat split; vm_compute; reflexivity. Qed.

(** C7 on the status written at time 1000 and read at time 4600. *)
Lemma status_query_witness :
  (exists value expires,
     store (later 0) !! ("document:" +:+ "doc-1") = Some (value, expires) /\
     expires <= clock (later 0)) /\
  fst (@get_document_status (saying "{}") "doc-1" (later 0))
  = Raise (HTTPException 500 corrupt_detail).
Proof.
  assert (Hexpired : exists value expires,
             store (later 0) !! ("document:" +:+ "doc-1") = Some (value, expires) /\
             expires <= clock (later 0)).
  { eexists. exists 4600. split; [vm_compute; reflexivity|]. vm_compute. discriminate. }
  split; [exact Hexpired|].
  apply (proj1 (@status_query (saying "{}") "doc-1" (later 0))).
  right. exact Hexpired.
Defined.

(** C7 fails: one second before the hour is over the query returns the
    record; from the hour on, and for a document that was never
    uploaded, it raises the HTTP error 500 "Corrupt document data in
    Redis" instead of an answer that says unknown. *)
Lemma expired_status_is_an_error :
  field "status"
    (match fst (@get_document_status (saying "{}") "doc-1" (later 1)) with
     | Ok r => Some r
     | Raise _ => None
     end) = Some (JStr "emr_synced") /\
  fst (@get_document_status (saying "{}") "doc-1" (later 0))
  = Raise (HTTPException 500 "Corrupt document data in Redis") /\
  fst (@get_document_status (saying "{}") "never-uploaded" (start 1000))
  = Raise (HTTPException 500 "Corrupt document data in Redis").
Proof. repeat split; vm_compute; reflexivity. Qed.

(** C9 on a referral the validation returns for, and on the one whose
    referring contact is a text. *)
Lemma check_required_fields_total_witness :
  (exists complete missing,
     check_required_fields referral_without_birth = Ok (complete, missing)) /\
  check_required_fields referral_with_text_contact = Raise AttributeError.
Proof.
  split.
  - apply (proj1 check_required_fields_total referral_without_birth).
    + right. reflexivity.
    + reflexivity.
  - apply (proj2 check_required_fields_total referral_with_text_contact); reflexivity.
Defined.

(** C9 fails on the number 5, which the reply [5] decodes to: no contact
    path reaches a value, and the membership test on a top-level field
    raises [TypeError]. *)
Lemma number_input_raises :
  decode "5" = Some (JInt 5) /\
  contacts_are_records (JInt 5) = true /\
  check_required_fields (JInt 5) = Raise TypeError.
Proof. repeat split; reflexivity. Qed.



End Witnesses.
(** * Further properties of the code *)

(** ** [check_required_fields] beyond records *)

Module ValidationMore.

Import Validation PathSpec Entries Outcomes ValidationFacts.

(** A round of the loop adds nothing, the field, or the contact field
    with its note. *)
Lemma entry_cases (data : json) (field : string) (l : list string) :
  entry data field = Ok l ->
  l = [] \/ l = [field] \/
  (endswith field ".contact" = true /\ l = [field +:+ contact_note]).
Proof.
  unfold entry, dotted_entry, plain_entry, contact_entry. intros H.
  destruct (endswith field ".contact") eqn:Hend;
    repeat match type of H with
           | context [match ?t with _ => _ end] => destruct t; try discriminate
           end;
    injection H as <-; auto.
Qed.

Lemma entries_in_order (data : json) (fields : list string) :
  forall missing,
    entries data fields = Ok missing ->
    exists reported,
      sublist reported fields /\
      Forall2 (fun name path =>
                 name = path \/
                 (endswith path ".contact" = true /\ name = path +:+ contact_note))
        missing reported.
Proof.
  induction fields as [|f rest IH]; intros missing Hm; simpl in Hm.
  - injection Hm as <-. exists []. split; constructor.
  - destruct (entry data f) as [l|e] eqn:Hf; simpl in Hm; [|discriminate].
    destruct (entries data rest) as [ls|e] eqn:Hrest; simpl in Hm; [|discriminate].
    injection Hm as <-.
    destruct (IH ls eq_refl) as (reported & Hsub & Hall).
    destruct (entry_cases _ _ _ Hf) as [->|[->|[Hend ->]]].
    + exists reported. split; [apply sublist_cons; exact Hsub|exact Hall].
    + exists (f :: reported). split; [apply sublist_skip; exact Hsub|].
      constructor; auto.
    + exists (f :: reported). split; [apply sublist_skip; exact Hsub|].
      constructor; auto.
Qed.

Lemma existsb_either {A : Type} (f g : A -> bool) (l : list A) :
  existsb (fun x => f x || g x) l = existsb f l || existsb g l.
Proof.
  induction l as [|x l IH]; [reflexivity|]. cbn [existsb]. rewrite IH.
  destruct (f x), (g x), (existsb f l), (existsb g l); reflexivity.
Qed.

(** The rounds of the loop on data that is true but not a record. *)
Lemma entries_beyond_records (data : json) :
  truthy data = true -> is_dict data = false ->
  entries data required_fields =
  if plain_round_raises data then Raise TypeError else Ok required_fields.
Proof.
  intros Htrue Hdict.
  destruct data as [|b|z|f|s|items|fields]; try discriminate; try reflexivity.
  - unfold required_fields. cbn [entries]. unfold entry. cbn.
    destruct (contains "reason_for_referral" s); [reflexivity|].
    destruct (contains "requested_action" s); reflexivity.
  - unfold required_fields. cbn [entries]. unfold entry. cbn.
    rewrite existsb_either.
    destruct (existsb _ items); [reflexivity|].
    destruct (existsb _ items); reflexivity.
Qed.

(** X1.  On data that is true but not a record ([if not data] lets it
    pass) the check reports all eight required fields as missing, unless
    a round for a top-level field raises [TypeError]: on a number or a
    boolean, on a list that has the name of such a field among its
    items, on a text that has it inside. *)
Theorem check_required_fields_beyond_records (data : json) :
  truthy data = true -> is_dict data = false ->
  check_required_fields data =
  if plain_round_raises data then Raise TypeError else Ok (false, required_fields).
Proof.
  intros Htrue Hdict.
  rewrite check_required_fields_entries, Htrue.
  rewrite (entries_beyond_records data Htrue Hdict).
  destruct (plain_round_raises data); reflexivity.
Qed.

(** X2.  The list of missing fields follows the list of required
    fields: each required field is reported at most once, under its name
    or, for a contact, its name with the note, and in the order of the
    list; so there are at most eight entries. *)
Theorem missing_fields_in_order (data : json) (complete : bool) (missing : list string) :
  check_required_fields data = Ok (complete, missing) ->
  truthy data = true ->
  (exists reported,
     sublist reported required_fields /\
     Forall2 (fun name path =>
                name = path \/
                (endswith path ".contact" = true /\ name = path +:+ contact_note))
       missing reported) /\
  (length missing <= 8)%nat.
Proof.
  intros Hcheck Htrue. rewrite check_required_fields_entries, Htrue in Hcheck.
  destruct (entries data required_fields) as [m|e] eqn:Hentries; [|discriminate].
  injection Hcheck as _ <-.
  destruct (entries_in_order _ _ _ Hentries) as (reported & Hsub & Hall).
  split; [exists reported; auto|].
  rewrite (Forall2_length _ _ _ Hall).
  apply sublist_length in Hsub. exact Hsub.
Qed.

(** X3.  The check reads five keys of a record and nothing else: two
    records, neither of them empty, that agree on the two providers,
    the patient, the reason for referral and the requested action get
    the same answer, whatever else they hold. *)
Theorem check_reads_five_keys (fields fields' : list (string * json)) :
  fields <> [] -> fields' <> [] ->
  (forall k,
     In k ["referring_provider"; "receiving_provider"; "patient";
           "reason_for_referral"; "requested_action"] ->
     dict_get fields k = dict_get fields' k) ->
  check_required_fields (JObj fields) = check_required_fields (JObj fields').
Proof.
  intros Hne Hne' Hsame. rewrite !check_required_fields_entries.
  destruct fields as [|kv rest]; [congruence|].
  destruct fields' as [|kv' rest']; [congruence|].
  cbn [truthy]. f_equal.
  assert (H1 := Hsame "referring_provider"). assert (H2 := Hsame "receiving_provider").
  assert (H3 := Hsame "patient"). assert (H4 := Hsame "reason_for_referral").
  assert (H5 := Hsame "requested_action").
  generalize dependent (kv :: rest). generalize dependent (kv' :: rest').
  intros f' _ f _ _ H1 H2 H3 H4 H5.
  unfold required_fields. cbn [entries]. unfold entry, dotted_entry, plain_entry, path_value.
  cbn.
  rewrite H1, H2, H3, H4, H5 by (simpl; auto 10). reflexivity.
Qed.

End ValidationMore.
(** ** The worker beyond the specification *)

Module WorkerMore.

Import Validation PathSpec Agent RoutingSpec Api Effects Outcomes AgentFacts.
Local Open Scope m_scope.

(** X4.  [get_contact_info] raises [AttributeError] when the provider
    is not a record or its contact is there and is not a record;
    otherwise it returns the email if that is not empty, else the phone,
    else the address, else the no-contact text, and what it returns is
    never empty. *)
Theorem get_contact_info_outcome (provider : json) :
  match contact_record provider with
  | None => get_contact_info provider = Raise AttributeError
  | Some contact =>
      exists v,
        get_contact_info provider = Ok v /\ truthy v = true /\
        v = match best_channel contact with
            | Some channel => channel
            | None => JStr sentinel_no_contact
            end
  end.
Proof.
  destruct (contact_record provider) as [contact|] eqn:Hc.
  - rewrite (get_contact_info_best _ _ Hc). eexists. split; [reflexivity|].
    split; [|reflexivity]. unfold best_channel.
    destruct (truthy (channel contact "email")) eqn:He; [exact He|].
    destruct (truthy (channel contact "phone")) eqn:Hp; [exact Hp|].
    destruct (truthy (channel contact "address")) eqn:Ha; [exact Ha|reflexivity].
  - exact (get_contact_info_raises _ Hc).
Qed.

Ltac log_only :=
  repeat first
    [ progress auto with effects
    | apply emits_emit; reflexivity
    | apply @emits_bind; [|intros ?]
    | match goal with
      | |- _ (match ?x with _ => _ end) => destruct x
      | |- _ (if ?x then _ else _) => destruct x
      end ].

Section Pipeline.
Context `{Platform}.

Lemma only_logs_emr (referral_data : json) :
  emits (fun ev => is_log ev = true) (mock_emr_sync referral_data).
Proof.
  pose proof (emits_now (fun ev => is_log ev = true)).
  unfold mock_emr_sync. log_only.
Qed.

Lemma only_logs_send (email_data contact_info : json) :
  emits (fun ev => is_log ev = true) (mock_send_email email_data contact_info).
Proof.
  pose proof (emits_now (fun ev => is_log ev = true)).
  unfold mock_send_email. log_only.
Qed.

(** X5.  [mock_emr_sync] returns the record of a sync, with the
    [referral_id] of the data or [None], when the data is a record whose
    patient and providers are records where it has them, and raises
    [AttributeError] otherwise.  Either way it only writes log records:
    Redis and the queue are as before and the language model is not
    called. *)
Theorem mock_emr_sync_outcome (referral_data : json) (w : world) :
  fst (mock_emr_sync referral_data w) =
    match referral_data with
    | JObj fields =>
        if syncable referral_data then
          Ok (JObj [("status", JStr "synced");
                    ("timestamp", JStr (isoformat (clock w)));
                    ("referral_id", dict_get_or fields "referral_id" JNull)])
        else Raise AttributeError
    | _ => Raise AttributeError
    end /\
  store (snd (mock_emr_sync referral_data w)) = store w /\
  queue (snd (mock_emr_sync referral_data w)) = queue w /\
  clock (snd (mock_emr_sync referral_data w)) = clock w /\
  exists evs,
    trace (snd (mock_emr_sync referral_data w)) = trace w ++ evs /\
    Forall (fun ev => is_log ev = true) evs.
Proof.
  split; [|split; [apply quiet_emr|split; [apply quiet_emr|split; [apply quiet_emr|apply only_logs_emr]]]].
  destruct referral_data as [| | | | | |fields]; try reflexivity.
  cbn [syncable forallb].
  destruct (is_dict (dict_get_or fields "patient" (JObj []))) eqn:Hp.
  - destruct (is_dict (dict_get_or fields "referring_provider" (JObj []))) eqn:Hr.
    + destruct (is_dict (dict_get_or fields "receiving_provider" (JObj []))) eqn:Hv.
      * destruct (emr_run fields w Hp Hr Hv) as (evs & -> & _). reflexivity.
      * unfold mock_emr_sync. rewrite !get_record. plumbing.
        destruct (dict_get_or fields "patient" (JObj [])); try discriminate.
        destruct (dict_get_or fields "referring_provider" (JObj [])); try discriminate.
        rewrite !get_record. plumbing.
        destruct (dict_get_or fields "receiving_provider" (JObj [])); try discriminate; reflexivity.
    + unfold mock_emr_sync. rewrite !get_record. plumbing.
      destruct (dict_get_or fields "patient" (JObj [])); try discriminate.
      rewrite !get_record. plumbing.
      destruct (dict_get_or fields "referring_provider" (JObj [])); try discriminate; reflexivity.
  - unfold mock_emr_sync. rewrite !get_record. plumbing.
    destruct (dict_get_or fields "patient" (JObj [])); try discriminate; reflexivity.
Qed.

(** X6.  [mock_send_email] first logs the recipient; it returns the
    record of a sent email when the draft is a record and raises
    [AttributeError] when it is anything else.  Either way it only
    writes log records. *)
Theorem mock_send_email_outcome (email_data contact_info : json) (w : world) :
  fst (mock_send_email email_data contact_info w) =
    (if is_dict email_data then
       Ok (JObj [("status", JStr "sent");
                 ("timestamp", JStr (isoformat (clock w)));
                 ("recipient", contact_info)])
     else Raise AttributeError) /\
  store (snd (mock_send_email email_data contact_info w)) = store w /\
  queue (snd (mock_send_email email_data contact_info w)) = queue w /\
  clock (snd (mock_send_email email_data contact_info w)) = clock w /\
  exists evs,
    trace (snd (mock_send_email email_data contact_info w)) =
      trace w ++ Log INFO "To: %s" [contact_info] :: evs /\
    Forall (fun ev => is_log ev = true) evs.
Proof.
  split; [|split; [apply quiet_send|split; [apply quiet_send|split; [apply quiet_send|]]]].
  - destruct email_data as [| | | | | |fields]; try reflexivity.
  - unfold mock_send_email. rewrite run_bind. cbn [log emit fst snd].
    match goal with
    | |- context [snd (?m (extend w ?l))] =>
        assert (Hrest : emits (fun ev => is_log ev = true) m)
    end.
    { pose proof (emits_now (fun ev => is_log ev = true)). log_only. }
    match goal with
    | |- context [snd (?m (extend w ?l))] =>
       destruct (Hrest (extend w l)) as (evs & Htrace & Hevs)
    end.
    exists evs. split; [|exact Hevs].
    rewrite Htrace. cbn [extend trace]. rewrite <- app_assoc. reflexivity.
Qed.

End Pipeline.

Lemma doc_key_text `{Platform} (document_id : string) :
  doc_key (JStr document_id) = "document:" +:+ document_id.
Proof. reflexivity. Qed.

Lemma document_key_inj (a b : string) :
  "document:" +:+ a = "document:" +:+ b -> a = b.
Proof. intros Heq. cbv in Heq. injection Heq as Heq. exact Heq. Qed.

Section Jobs.

Context `{Platform}.

(** The status record a completed job leaves. *)
Lemma completed_job (document_data : string) (w : world) (how : exit) :
  fst (process_job document_data w) = Ok how ->
  exists job status additional_info structured_data,
    json_loads document_data = Some (JObj job) /\
    In status worker_statuses /\
    (how = Continue <-> status = "extraction_failed") /\
    written w (snd (process_job document_data w))
      (dict_get_or job "document_id" (JStr "unknown")) status
      additional_info structured_data.
Proof.
  unfold process_job, loads. rewrite run_bind. cbn [lift fst snd].
  destruct (json_loads document_data) as [job_data|]; [|discriminate].
  destruct job_data as [| | | | | |job]; try discriminate.
  rewrite !get_record. plumbing.
  match goal with
  | |- context [llm_assistend_extraction ?raw ?w0] =>
      pose proof (quiet_extraction raw w0) as Hquiet; cbv beta in Hquiet;
      destruct (llm_assistend_extraction raw w0) as [[data|e] w1]
  end; [|discriminate].
  cbn [fst snd store queue clock] in Hquiet. destruct Hquiet as (Hs1 & Hq1 & Hc1).
  destruct (is_none data) eqn:Hnone.
  - plumbing.
    match goal with
    | |- context [update_redis_status ?d ?s ?i ?x ?w0] =>
        destruct (update_redis_status_run d s i x w0)
          as (w2 & -> & Hstore & _ & Hq2 & _)
    end.
    cbn [fst snd]. intros [= <-].
    exists job, "extraction_failed", (JStr "LLM extraction failed"), JNull.
    split; [reflexivity|]. split; [simpl; auto|]. split; [tauto|].
    unfold written. rewrite Hstore. cbn [store clock]. rewrite Hs1, Hc1. reflexivity.
  - plumbing.
    destruct (check_required_fields data) as [[complete missing]|e]; [|discriminate].
    cbn [fst snd].
    match goal with
    | |- context [route ?d ?x ?c ?m ?w0] =>
        pose proof (records_route d x c m w0) as Hrec; cbv beta in Hrec;
        destruct (route d x c m w0) as [[[]|e] w2]
    end; [|discriminate].
    cbn [fst snd is_ok store clock] in *. intros [= <-].
    destruct Hrec as (_ & [(Hno & _)|(_ & status & info & Hallowed & Hwritten)]);
      [discriminate|].
    exists job, status, info, data.
    split; [reflexivity|].
    unfold written in *. cbn [store clock] in *. rewrite Hs1, Hc1 in Hwritten.
    assert (Hstatus : status = "emr_synced" \/ status = "email_draft_failed" \/
                      status = "missing_fields_email_sent").
    { destruct complete; cbn in Hallowed; tauto. }
    destruct Hstatus as [-> | [-> | ->]];
      (split; [simpl; auto|]; split; [split; discriminate|]; exact Hwritten).
Qed.

(** X7.  A job whose processing ends without an exception has set the
    status record of its document exactly once: to [extraction_failed]
    when the body was left by its [continue], to [emr_synced],
    [email_draft_failed] or [missing_fields_email_sent] when it ran to
    its end.  Nothing else in Redis has changed, and the queue is as it
    was. *)
Theorem completed_job_has_one_status (document_data : string) (w : world) (how : exit) :
  fst (process_job document_data w) = Ok how ->
  exists job status additional_info structured_data,
    json_loads document_data = Some (JObj job) /\
    In status worker_statuses /\
    (how = Continue <-> status = "extraction_failed") /\
    written w (snd (process_job document_data w))
      (dict_get_or job "document_id" (JStr "unknown")) status
      additional_info structured_data /\
    queue (snd (process_job document_data w)) = queue w.
Proof.
  intros Hdone.
  destruct (completed_job document_data w how Hdone)
    as (job & status & additional_info & structured_data & Hjob & Hstatus & Hhow & Hwritten).
  exists job, status, additional_info, structured_data.
  repeat split; try assumption; try apply Hhow.
  apply keeps_queue_process_job.
Qed.

(** X8.  A queued item that is not JSON text is logged and dropped by
    the first [except] clause; one that is JSON but not an object makes
    [job_data.get] raise [AttributeError], which the second clause
    raises again.  In both cases the language model is not called and
    nothing is written to Redis. *)
Theorem unreadable_job (document_data : string) (w : world) :
  (json_loads document_data = None ->
   try_process_job document_data w =
   (Ok Completed,
    extend w [Log ERROR "Error processing document (JSON or dict error): %s"
                [JStr (exn_str JSONDecodeError)];
              LogException JSONDecodeError])) /\
  (forall v,
     json_loads document_data = Some v -> is_dict v = false ->
     try_process_job document_data w =
     (Raise AttributeError,
      extend w [Log ERROR "Unexpected error processing document: %s"
                  [JStr (exn_str AttributeError)];
                LogException AttributeError])).
Proof.
  unfold try_process_job, process_job, loads. rewrite run_bind. cbn [lift fst snd].
  split.
  - intros ->. cbn [swallowed]. plumbing. rewrite <- !app_assoc. reflexivity.
  - intros v -> Hdict.
    destruct v; try discriminate; cbn [get lift fst snd swallowed]; plumbing;
      rewrite <- !app_assoc; reflexivity.
Qed.

(** X9.  When the language model answers the extraction request with
    JSON that is true but not an object, no status is written: a list
    or a text takes the job to the email branch, where
    [structured_data.get] raises [AttributeError], which [main] raises
    again; a value on which the check itself raises [TypeError] is
    logged and skipped. *)
Theorem extraction_not_a_record (document_data : string) (job : list (string * json))
    (reply : option string) (w : world) :
  json_loads document_data = Some (JObj job) ->
  chat_completions_create model
    (extraction_messages (dict_get_or job "extracted_text" (JStr ""))) = Ok reply ->
  truthy (decoded reply) = true -> is_dict (decoded reply) = false ->
  fst (try_process_job document_data w) =
    (if plain_round_raises (decoded reply) then Ok Completed else Raise AttributeError) /\
  store (snd (try_process_job document_data w)) = store w.
Proof.
  intros Hjob Hreply Htrue Hdict.
  assert (Hrun : fst (process_job document_data w) =
                 Raise (if plain_round_raises (decoded reply) then TypeError
                        else AttributeError)).
  { unfold process_job, loads. rewrite run_bind. cbn [lift fst snd]. rewrite Hjob.
    rewrite !get_record. plumbing.
    match goal with
    | |- context [llm_assistend_extraction ?raw ?w0] =>
        destruct (extraction_run raw reply w0 Hreply) as (evs & ->)
    end.
    assert (Hnone : is_none (decoded reply) = false)
      by (destruct (decoded reply); try discriminate; reflexivity).
    rewrite Hnone. plumbing.
    rewrite ValidationFacts.check_required_fields_entries, Htrue.
    rewrite (ValidationMore.entries_beyond_records _ Htrue Hdict).
    destruct (plain_round_raises (decoded reply)); [reflexivity|].
    cbn [fst snd]. unfold route, route_incomplete. plumbing.
    destruct (decoded reply); try discriminate; reflexivity. }
  pose proof (clean_raise_process_job document_data w) as Hclean. cbv beta in Hclean.
  unfold try_process_job.
  destruct (process_job document_data w) as [[how|e] w'].
  - discriminate.
  - cbn [fst snd is_ok] in *. injection Hrun as ->.
    destruct (plain_round_raises (decoded reply)); cbn [swallowed]; plumbing;
      (split; [reflexivity|]; apply Hclean; reflexivity).
Qed.

Lemma draft_fails (missing_fields : list string) (referring receiving referral_id : json)
    (w : world) :
  is_dict referring && is_dict receiving = false ->
  draft_request_email missing_fields referring receiving referral_id w =
  (Raise AttributeError,
   extend w [Log INFO "Drafting request email for missing fields: %s"
               [str_list missing_fields]]).
Proof.
  intros Hdict. unfold draft_request_email. rewrite run_bind. cbn [log emit fst snd].
  rewrite run_bind.
  destruct referring; try reflexivity.
  destruct receiving; try discriminate; reflexivity.
Qed.

(** X10.  In the email branch a provider that is there but is not a
    record (an empty text, as the extraction prompt asks for a value
    that is missing, [None], a list) makes [draft_request_email] raise
    [AttributeError] on its [get]: no request goes to the language
    model, no status is written, and the branch has only logged. *)
Theorem provider_not_a_record (doc_id : json) (fields : list (string * json))
    (missing : list string) (w : world) :
  is_dict (dict_get_or fields "referring_provider" (JObj [])) &&
  is_dict (dict_get_or fields "receiving_provider" (JObj [])) = false ->
  fst (route_incomplete doc_id (JObj fields) missing w) = Raise AttributeError /\
  store (snd (route_incomplete doc_id (JObj fields) missing w)) = store w /\
  exists evs,
    trace (snd (route_incomplete doc_id (JObj fields) missing w)) = trace w ++ evs /\
    Forall (fun ev => is_log ev = true) evs.
Proof.
  intros Hdict.
  assert (Hrun : exists evs,
            route_incomplete doc_id (JObj fields) missing w =
            (Raise AttributeError, extend w evs) /\
            Forall (fun ev => is_log ev = true) evs).
  { unfold route_incomplete. rewrite !get_record. plumbing.
    match goal with
    | |- context [draft_request_email ?m ?a ?b ?c ?w0] =>
        rewrite (draft_fails m a b c w0 Hdict)
    end.
    plumbing. eexists. split; [rewrite <- !app_assoc; reflexivity|].
    repeat constructor. }
  destruct Hrun as (evs & -> & Hlogs). cbn [fst snd].
  split; [reflexivity|]. split; [reflexivity|]. exists evs. auto.
Qed.
(** X11.  In the email branch, once a draft has come back, a referring
    provider whose [contact] is there but is not a record (an empty
    text, as the extraction prompt asks for a missing value, [None], a
    number) makes [get_contact_info] raise [AttributeError]: the branch
    ends there and no status is written. *)
Theorem contact_not_a_record (doc_id : json) (fields : list (string * json))
    (missing : list string) (reply : option string) (w : world) :
  let referring := dict_get_or fields "referring_provider" (JObj []) in
  let receiving := dict_get_or fields "receiving_provider" (JObj []) in
  is_dict referring = true -> is_dict receiving = true ->
  chat_completions_create model
    (draft_messages (provider_name referring) (provider_name receiving) missing)
    = Ok reply ->
  truthy (decoded reply) = true ->
  contact_record referring = None ->
  fst (route_incomplete doc_id (JObj fields) missing w) = Raise AttributeError /\
  store (snd (route_incomplete doc_id (JObj fields) missing w)) = store w.
Proof.
  intros referring receiving Hr Hv Hreply Htrue Hcontact.
  assert (Hrun : fst (route_incomplete doc_id (JObj fields) missing w) =
                 Raise AttributeError).
  { unfold route_incomplete. rewrite !get_record. plumbing.
    fold referring receiving.
    match goal with
    | |- context [draft_request_email ?m ?a ?b ?c ?w0] =>
        destruct (draft_run m a b c _ _ _ w0 (provider_name_get _ Hr)
                    (provider_name_get _ Hv) Hreply) as (evs & ->)
    end.
    rewrite Htrue. unfold contact_target.
    rewrite (get_contact_info_raises _ Hcontact). reflexivity. }
  split; [exact Hrun|].
  pose proof (clean_raise_route doc_id (JObj fields) false missing w) as Hclean.
  cbv beta in Hclean. cbn [route] in Hclean. apply Hclean.
  rewrite Hrun. reflexivity.
Qed.

(** X12.  A draft that is JSON and true but not an object (a text, a
    list, a number) passes the test [if email_draft]; [mock_send_email]
    logs the recipient and then raises [AttributeError] on
    [email_data.get], and no status is written. *)
Theorem draft_not_a_record (doc_id : json) (fields : list (string * json))
    (missing : list string) (reply : option string) (contact_info : json) (w : world) :
  let referring := dict_get_or fields "referring_provider" (JObj []) in
  let receiving := dict_get_or fields "receiving_provider" (JObj []) in
  is_dict referring = true -> is_dict receiving = true ->
  chat_completions_create model
    (draft_messages (provider_name referring) (provider_name receiving) missing)
    = Ok reply ->
  truthy (decoded reply) = true -> is_dict (decoded reply) = false ->
  contact_target referring receiving = Ok contact_info ->
  fst (route_incomplete doc_id (JObj fields) missing w) = Raise AttributeError /\
  store (snd (route_incomplete doc_id (JObj fields) missing w)) = store w /\
  In (Log INFO "To: %s" [contact_info])
     (trace (snd (route_incomplete doc_id (JObj fields) missing w))).
Proof.
  intros referring receiving Hr Hv Hreply Htrue Hdict Htarget.
  assert (Hrun : fst (route_incomplete doc_id (JObj fields) missing w) =
                 Raise AttributeError /\
                 In (Log INFO "To: %s" [contact_info])
                   (trace (snd (route_incomplete doc_id (JObj fields) missing w)))).
  { unfold route_incomplete. rewrite !get_record. plumbing.
    fold referring receiving.
    match goal with
    | |- context [draft_request_email ?m ?a ?b ?c ?w0] =>
        destruct (draft_run m a b c _ _ _ w0 (provider_name_get _ Hr)
                    (provider_name_get _ Hv) Hreply) as (evs & ->)
    end.
    rewrite Htrue, Htarget. plumbing.
    rewrite (send_fails _ contact_info _ Hdict). cbn [fst snd trace extend].
    split; [reflexivity|]. apply in_or_app. right. left. reflexivity. }
  destruct Hrun as (Hrun & Hlog). split; [exact Hrun|]. split; [|exact Hlog].
  pose proof (clean_raise_route doc_id (JObj fields) false missing w) as Hclean.
  cbv beta in Hclean. cbn [route] in Hclean. apply Hclean.
  rewrite Hrun. reflexivity.
Qed.

Lemma update_elsewhere (a b status : string) (additional_info data : json)
    (w : world) :
  a <> b ->
  store (snd (update_redis_status (JStr a) status additional_info data w))
    !! doc_key (JStr b) = store w !! doc_key (JStr b).
Proof.
  intros Hne.
  destruct (update_redis_status_run (JStr a) status additional_info data w)
    as (w' & -> & Hs & _).
  cbn [snd]. rewrite Hs. apply lookup_insert_ne. rewrite !doc_key_text.
  intros Heq. apply Hne. exact (document_key_inj _ _ Heq).
Qed.

Lemma update_twice (doc_id : json) (status status' : string)
    (additional_info additional_info' data data' : json) (w : world) :
  store (snd (update_redis_status doc_id status' additional_info' data'
                (snd (update_redis_status doc_id status additional_info data w)))) =
  store (snd (update_redis_status doc_id status' additional_info' data' w)).
Proof.
  destruct (update_redis_status_run doc_id status additional_info data w)
    as (w1 & -> & Hs1 & Hc1 & _).
  cbn [snd].
  destruct (update_redis_status_run doc_id status' additional_info' data' w1)
    as (w2 & -> & Hs2 & _).
  destruct (update_redis_status_run doc_id status' additional_info' data' w)
    as (w3 & -> & Hs3 & _).
  cbn [snd]. rewrite Hs2, Hs3, Hs1, Hc1. apply insert_insert_eq.
Qed.

(** X13.  A status update touches the record of its own document only:
    the record of every other document is as it was; and of two updates
    for the same document only the second is kept, with its own hour. *)
Theorem status_updates_are_local (w : world) :
  (forall (a b status : string) (additional_info data : json),
     a <> b ->
     store (snd (update_redis_status (JStr a) status additional_info data w))
       !! doc_key (JStr b) = store w !! doc_key (JStr b)) /\
  (forall (doc_id : json) (status status' : string)
          (additional_info additional_info' data data' : json),
     store (snd (update_redis_status doc_id status' additional_info' data'
                   (snd (update_redis_status doc_id status additional_info data w)))) =
     store (snd (update_redis_status doc_id status' additional_info' data' w))).
Proof.
  split.
  - intros. apply update_elsewhere. assumption.
  - intros. apply update_twice.
Qed.

(** X14.  A status written by [update_redis_status] is what
    [get_document_status] answers for the next hour, as long as the
    JSON library reads back what it wrote; from 3600 seconds on the
    record has expired and the answer is the HTTP error 500 [Corrupt
    document data in Redis]. *)
Theorem status_lifetime (document_id status : string) (additional_info data : json)
    (seconds : Z) (w : world) :
  let record := status_data status (isoformat (clock w)) additional_info data in
  let asked :=
    get_document_status document_id
      (snd (elapse seconds
              (snd (update_redis_status (JStr document_id) status additional_info data w)))) in
  (0 <= seconds < 3600 ->
   json_loads (json_dumps None record) = Some record ->
   fst asked = Ok record) /\
  (3600 <= seconds -> fst asked = Raise (HTTPException 500 corrupt_detail)).
Proof.
  intros record asked. subst asked.
  destruct (update_redis_status_run (JStr document_id) status additional_info data w)
    as (w1 & -> & Hs1 & Hc1 & _).
  cbn [snd]. unfold get_document_status, http_guard, get_document_status_body.
  rewrite run_bind. unfold redis_get, elapse. cbn [fst snd store clock].
  rewrite Hs1, doc_key_text, lookup_insert_eq. cbn [mbind option_bind live fst snd].
  rewrite Hc1. unfold live. cbn [fst snd]. split.
  - intros Hin Hloads.
    replace (clock w + Z.max 0 seconds <? clock w + 3600) with true
      by (symmetry; apply Z.ltb_lt; lia).
    unfold loads. fold record. rewrite Hloads. reflexivity.
  - intros Hout.
    replace (clock w + Z.max 0 seconds <? clock w + 3600) with false
      by (symmetry; apply Z.ltb_ge; lia).
    reflexivity.
Qed.

Lemma keeps_queue_try (document_data : string) :
  keeps_queue (try_process_job document_data).
Proof.
  intros w. pose proof (keeps_queue_process_job document_data w) as Hq.
  cbv beta in Hq. unfold try_process_job.
  destruct (process_job document_data w) as [[how|e] w']; [exact Hq|].
  destruct (swallowed e); exact Hq.
Qed.

Lemma main_iteration_queue (w : world) :
  queue (snd (main_iteration w)) = removelast (queue w).
Proof.
  destruct (queue w) as [|x l] eqn:Hq using rev_ind.
  - unfold main_iteration, check_redis, rpop. plumbing. rewrite Hq. cbn. exact Hq.
  - clear IHl. rewrite removelast_last.
    destruct (String.eqb x "") eqn:Hx.
    + unfold main_iteration, check_redis.
      rewrite run_bind, run_bind, (rpop_last l x w Hq). cbn [fst snd ret].
      rewrite Hx. reflexivity.
    + apply String.eqb_neq in Hx.
      rewrite (main_iteration_run l x w Hq Hx).
      pose proof (keeps_queue_try x (dequeued w l)) as Hkeep. cbv beta in Hkeep.
      destruct (try_process_job x (dequeued w l)) as [[[|]|e] w']; exact Hkeep.
Qed.

(** X15.  The worker only ever takes jobs from the right end of the
    queue, one per round, whether the job succeeds, is skipped or
    raises: after any number of rounds the queue is what it was without
    its last [taken] items, and [taken] is the number of rounds when
    none of them raised. *)
Theorem jobs_leave_from_the_right (rounds : nat) (w : world) :
  exists taken,
    (taken <= rounds)%nat /\
    queue (snd (main_rounds rounds w)) =
      firstn (length (queue w) - taken) (queue w) /\
    (is_ok (fst (main_rounds rounds w)) = true -> taken = rounds).
Proof.
  revert w. induction rounds as [|n IH]; intros w.
  - exists 0%nat. cbn [main_rounds ret fst snd]. rewrite Nat.sub_0_r, firstn_all. auto.
  - cbn [main_rounds]. rewrite run_bind.
    pose proof (main_iteration_queue w) as Hround.
    destruct (fst (main_iteration w)) as [[]|e].
    + destruct (IH (snd (main_iteration w))) as (taken & Hle & Hq & Hok).
      exists (S taken). split; [lia|]. split.
      * rewrite Hq, Hround, removelast_firstn_len, length_firstn, firstn_firstn.
        f_equal. lia.
      * intros Hdone. rewrite (Hok Hdone). reflexivity.
    + exists 1%nat. split; [lia|]. split; [|discriminate].
      cbn [snd]. rewrite Hround, removelast_firstn_len. f_equal. lia.
Qed.

End Jobs.

(** *** Requests to the language model *)

Section Asking.

Context {A B : Type}.

Lemma asks_bind (a b : nat) (m : M A) (k : A -> M B) :
  asks a m -> (forall x, asks b (k x)) -> asks (a + b) (bind m k).
Proof.
  intros Hm Hk w. rewrite run_bind. specialize (Hm w). cbv beta in Hm.
  destruct Hm as (evs & Htrace & Hcount & Hall).
  destruct (fst (m w)) as [x|e].
  - specialize (Hk x (snd (m w))). cbv beta in Hk.
    destruct Hk as (evs' & Htrace' & Hcount' & Hall').
    exists (evs ++ evs'). split; [rewrite Htrace', Htrace, app_assoc; reflexivity|].
    split; [rewrite List.filter_app, length_app; lia|].
    apply Forall_app; auto.
  - exists evs. cbn [snd]. split; [exact Htrace|]. split; [lia|exact Hall].
Qed.

Lemma asks_le (a b : nat) (m : M A) : asks a m -> (a <= b)%nat -> asks b m.
Proof.
  intros Hm Hle w. destruct (Hm w) as (evs & Htrace & Hcount & Hall).
  exists evs. split; [exact Htrace|]. split; [lia|exact Hall].
Qed.

End Asking.

Lemma asks_still {A : Type} (n : nat) (m : M A) :
  (forall w, trace (snd (m w)) = trace w) -> asks n m.
Proof.
  intros Hm w. exists []. rewrite app_nil_r. split; [apply Hm|].
  split; [cbn; lia|constructor].
Qed.

Lemma asks_emit (n : nat) (ev : event) : is_chat ev = false -> asks n (emit ev).
Proof.
  intros Hev w. exists [ev]. split; [reflexivity|]. cbn [List.filter]. rewrite Hev.
  split; [cbn; lia|]. constructor; [|constructor].
  intros name messages ->. discriminate.
Qed.

Lemma asks_ret {A : Type} (n : nat) (a : A) : asks n (ret a).
Proof. apply asks_still. reflexivity. Qed.

Lemma asks_raise {A : Type} (n : nat) (e : exn) : asks n (raise (A := A) e).
Proof. apply asks_still. reflexivity. Qed.

Lemma asks_lift {A : Type} (n : nat) (r : res A) : asks n (lift r).
Proof. apply asks_still. reflexivity. Qed.

Lemma asks_log (n : nat) (level : log_level) (msg : string) (args : list json) :
  asks n (log level msg args).
Proof. apply asks_emit. reflexivity. Qed.

Lemma asks_print (n : nat) (line : string) : asks n (print line).
Proof. apply asks_emit. reflexivity. Qed.

Lemma asks_setex (n : nat) (key : string) (ttl : Z) (value : string) :
  asks n (setex key ttl value).
Proof. apply asks_still. reflexivity. Qed.

Lemma asks_rpop (n : nat) : asks n rpop.
Proof.
  apply asks_still. intros w. unfold rpop. destruct (rev (queue w)); reflexivity.
Qed.

Create HintDb asking.

#[export] Hint Resolve asks_ret asks_raise asks_lift asks_log asks_print asks_setex
  asks_rpop : asking.

(** Go through a computation that asks nothing more. *)
Ltac silent :=
  repeat first
    [ progress auto with asking
    | apply asks_emit; reflexivity
    | apply (asks_bind 0); [|intros ?]
    | match goal with
      | |- asks _ (match ?x with _ => _ end) => destruct x
      | |- asks _ (if ?x then _ else _) => destruct x
      end ].

Section Requests.

Context `{Platform}.

Lemma asks_now (n : nat) : asks n now_isoformat.
Proof. apply asks_still. reflexivity. Qed.

Lemma asks_chat (messages : list (string * json)) : asks 1 (chat_with_gpt4 messages).
Proof.
  unfold chat_with_gpt4.
  apply (asks_bind 0 1); [auto with asking|intros _].
  apply (asks_bind 1 0); [|intros _; silent].
  intros w. exists [Chat model messages]. split; [reflexivity|].
  split; [cbn; lia|]. constructor; [|constructor].
  intros name msgs [= <- _]. reflexivity.
Qed.

Lemma asks_extraction (raw_ocr_text : json) :
  asks 1 (llm_assistend_extraction raw_ocr_text).
Proof.
  unfold llm_assistend_extraction.
  apply (asks_bind 0 1); [auto with asking|intros _].
  apply (asks_bind 1 0); [apply asks_chat|intros response].
  silent.
Qed.

Lemma asks_draft (missing_fields : list string) (referring receiving referral_id : json) :
  asks 1 (draft_request_email missing_fields referring receiving referral_id).
Proof.
  unfold draft_request_email.
  do 3 (apply (asks_bind 0 1); [auto with asking|intros ?]).
  apply (asks_bind 1 0); [apply asks_chat|intros response].
  silent.
Qed.

Lemma asks_update (n : nat) (doc_id : json) (status : string)
    (additional_info data : json) :
  asks n (update_redis_status doc_id status additional_info data).
Proof. pose proof asks_now. unfold update_redis_status. silent. Qed.

Lemma asks_send (n : nat) (email_data contact_info : json) :
  asks n (mock_send_email email_data contact_info).
Proof. pose proof asks_now. unfold mock_send_email. silent. Qed.

Lemma asks_emr (n : nat) (referral_data : json) : asks n (mock_emr_sync referral_data).
Proof. pose proof asks_now. unfold mock_emr_sync. silent. Qed.

Lemma asks_route (doc_id data : json) (is_complete : bool) (missing : list string) :
  asks 1 (route doc_id data is_complete missing).
Proof.
  pose proof asks_update. pose proof asks_send. pose proof asks_emr.
  unfold route, route_complete, route_incomplete. destruct is_complete.
  - silent.
  - do 5 (apply (asks_bind 0 1); [auto with asking|intros ?]).
    apply (asks_bind 1 0); [apply asks_draft|intros draft].
    silent.
Qed.

Lemma asks_process_job (document_data : string) : asks 2 (process_job document_data).
Proof.
  pose proof asks_update.
  unfold process_job.
  do 5 (apply (asks_bind 0 2); [auto with asking|intros ?]).
  apply (asks_bind 1 1); [apply asks_extraction|intros data].
  destruct (is_none data); [silent|].
  do 2 (apply (asks_bind 0 1); [auto with asking|intros ?]).
  apply (asks_bind 1 0); [apply asks_route|intros _].
  silent.
Qed.

Lemma asks_try (document_data : string) : asks 2 (try_process_job document_data).
Proof.
  intros w. pose proof (asks_process_job document_data w) as Hjob. cbv beta in Hjob.
  unfold try_process_job.
  destruct (process_job document_data w) as [[how|e] w']; [exact Hjob|].
  cbn [fst snd] in Hjob. destruct Hjob as (evs & Htrace & Hcount & Hall).
  assert (Hhandler : forall msg,
            exists evs', trace w' ++ [Log ERROR msg [JStr (exn_str e)]; LogException e] =
                         trace w ++ evs' /\
                         (length (List.filter is_chat evs') <= 2)%nat /\
                         Forall (fun ev => forall name messages,
                                   ev = Chat name messages -> name = "gpt-4.1-nano") evs').
  { intros msg. exists (evs ++ [Log ERROR msg [JStr (exn_str e)]; LogException e]).
    split; [rewrite Htrace, app_assoc; reflexivity|].
    split; [rewrite List.filter_app, length_app; cbn; lia|].
    apply Forall_app. split; [exact Hall|].
    repeat constructor; intros name messages; discriminate. }
  destruct (swallowed e); plumbing; rewrite <- app_assoc; apply Hhandler.
Qed.

(** X16.  A round of the worker sends at most two requests to the
    language model, the extraction and, in the email branch, the draft,
    and both go to [gpt-4.1-nano]; on an empty queue the round changes
    nothing at all, not even the log. *)
Theorem round_asks_at_most_twice (w : world) :
  (queue w = [] -> main_iteration w = (Ok tt, w)) /\
  exists evs,
    trace (snd (main_iteration w)) = trace w ++ evs /\
    (length (List.filter is_chat evs) <= 2)%nat /\
    Forall (fun ev => forall name messages,
              ev = Chat name messages -> name = "gpt-4.1-nano") evs.
Proof.
  split.
  - intros Hq. unfold main_iteration, check_redis, rpop. plumbing. rewrite Hq.
    reflexivity.
  - assert (Hround : asks 2 main_iteration).
    { pose proof asks_try. unfold main_iteration, check_redis.
      apply (asks_bind 0 2); [silent|intros job].
      destruct job as [job|]; [|silent].
      destruct (String.eqb job ""); [silent|].
      apply (asks_bind 0 2); [auto with asking|intros _].
      apply (asks_bind 2 0); [auto|intros how]. silent. }
    exact (Hround w).
Qed.

End Requests.

End WorkerMore.
(** ** The web service and the OCR front end *)

Module ServiceFacts.

Import Agent Api Effects AgentFacts Text DocumentProcessor Service ServiceSpec.
Local Open Scope m_scope.

(** *** Texts *)

Lemma py_len_app (a b : string) : py_len (a +:+ b) = py_len a + py_len b.
Proof.
  induction a as [|c a IH]; [reflexivity|].
  change (String c a +:+ b) with (String c (a +:+ b)). cbn [py_len].
  rewrite IH. destruct (is_continuation c); lia.
Qed.

Lemma py_len_nonneg (s : string) : 0 <= py_len s.
Proof. induction s as [|c s IH]; cbn [py_len]; [lia|]. destruct (is_continuation c); lia. Qed.

Lemma py_len_take (n : nat) (s : string) :
  py_len (py_take n s) = Z.min (Z.of_nat n) (py_len s).
Proof.
  revert n. induction s as [|c s IH]; intros n; cbn [py_take py_len].
  - pose proof (Nat2Z.is_nonneg n). rewrite Z.min_r by lia. reflexivity.
  - destruct (is_continuation c) eqn:Hc.
    + cbn [py_len]. rewrite Hc. apply IH.
    + destruct n as [|k]; cbn [py_len].
      * pose proof (py_len_nonneg s). rewrite Z.min_l by lia. reflexivity.
      * rewrite Hc, IH, Nat2Z.inj_succ, <- Z.add_1_l, Z.add_min_distr_l. reflexivity.
Qed.

Lemma py_take_prefix (n : nat) (s : string) : String.prefix (py_take n s) s = true.
Proof.
  revert n. induction s as [|c s IH]; intros n; [reflexivity|].
  cbn [py_take]. destruct (is_continuation c).
  - cbn [String.prefix]. destruct (ascii_dec c c); [apply IH|congruence].
  - destruct n; [reflexivity|].
    cbn [String.prefix]. destruct (ascii_dec c c); [apply IH|congruence].
Qed.

Lemma split_on_absent (sep s : string) :
  contains sep s = false -> split_on sep s = [s].
Proof.
  unfold split_on. induction s as [|c s IH]; intros Hno; [reflexivity|].
  cbn [contains] in Hno. apply orb_false_iff in Hno. destruct Hno as (Hp & Hs).
  cbn [split_from]. rewrite Hp, (IH Hs). reflexivity.
Qed.

Lemma prefix_app (s t : string) : String.prefix s (s +:+ t) = true.
Proof.
  induction s as [|c s IH]; [destruct t; reflexivity|].
  change (String c s +:+ t) with (String c (s +:+ t)). cbn [String.prefix].
  destruct (ascii_dec c c); [exact IH|congruence].
Qed.

Lemma split_from_skip (sep a s : string) :
  split_from sep (String.length a) (a +:+ s) = split_from sep 0 s.
Proof.
  induction a as [|c a IH]; [reflexivity|].
  change (String c a +:+ s) with (String c (a +:+ s)). exact IH.
Qed.

Lemma split_on_separator (c : ascii) (sep s : string) :
  split_on (String c sep) (String c sep +:+ s) =
  EmptyString :: split_on (String c sep) s.
Proof.
  unfold split_on. change (String c sep +:+ s) with (String c (sep +:+ s)).
  cbn [split_from].
  change (String c (sep +:+ s)) with (String c sep +:+ s). rewrite prefix_app.
  cbn [String.length]. rewrite Nat.sub_1_r. cbn [Nat.pred].
  rewrite split_from_skip. reflexivity.
Qed.

Lemma split_on_nonempty (sep s : string) : split_on sep s <> [].
Proof.
  unfold split_on. generalize 0%nat. induction s as [|c s IH]; intros skip; [discriminate|].
  cbn [split_from]. destruct skip; [|apply IH].
  destruct (String.prefix sep (String c s)); [discriminate|].
  destruct (split_from sep 0 s); discriminate.
Qed.

Lemma id_of_document_key (id : string) :
  id_of_key ("document:" +:+ id) = hd EmptyString (split_on "document:" id).
Proof.
  unfold id_of_key. rewrite split_on_separator.
  destruct (split_on "document:" id); reflexivity.
Qed.

Lemma existsb_eqb_In (x : string) (l : list string) :
  existsb (String.eqb x) l = true <-> In x l.
Proof.
  rewrite existsb_exists. split.
  - intros (y & Hin & Heq). apply String.eqb_eq in Heq. subst. exact Hin.
  - intros Hin. exists x. split; [exact Hin|apply String.eqb_refl].
Qed.

(** *** The trace *)

Lemma extend_extend (w : world) (evs evs' : list event) :
  extend (extend w evs) evs' = extend w (evs ++ evs').
Proof. unfold extend. cbn [store queue clock trace]. rewrite app_assoc. reflexivity. Qed.

Lemma extend_nil (w : world) : extend w [] = w.
Proof. destruct w. unfold extend. cbn. rewrite app_nil_r. reflexivity. Qed.

Lemma omap_cons {A B : Type} (f : A -> option B) (x : A) (l : list A) :
  omap f (x :: l) =
  match f x with
  | Some y => y :: omap f l
  | None => omap f l
  end.
Proof. reflexivity. Qed.

Section Endpoints.

Context `{Platform} `{Host}.

(** *** The upload *)

Lemma process_document_run (file_content : list Byte.byte) (name : string) (w : world) :
  process_document file_content name w =
  if existsb (String.eqb (file_ext name)) accepted_formats then
    match image_to_string file_content with
    | Ok text =>
        (Ok {| filename := name;
               file_size := Z.of_nat (length file_content);
               extracted_text := str_strip text;
               text_length := py_len (str_strip text) |}, w)
    | Raise e =>
        (Raise (HTTPException 500 (ocr_failed e)),
         extend w [Log ERROR (ocr_failed e) []])
    end
  else if String.eqb (file_ext name) ".pdf" then (Raise (HTTPException 400 pdf_detail), w)
  else (Raise (HTTPException 400 unsupported_detail), w).
Proof.
  unfold process_document, extract_text_from_image, supported_formats, accepted_formats.
  cbn [existsb].
  destruct (String.eqb (file_ext name) ".png") eqn:E1;
  destruct (String.eqb (file_ext name) ".jpg") eqn:E2;
  destruct (String.eqb (file_ext name) ".jpeg") eqn:E3;
  destruct (String.eqb (file_ext name) ".pdf") eqn:E4;
  destruct (String.eqb (file_ext name) ".tiff") eqn:E5;
  destruct (String.eqb (file_ext name) ".bmp") eqn:E6;
  cbn [orb negb];
  try (apply String.eqb_eq in E4; rewrite E4 in *; discriminate);
  try reflexivity;
  destruct (image_to_string file_content); reflexivity.
Qed.

Lemma upload_run (doc_id : string) (file_content : list Byte.byte) (name text : string)
    (w : world) :
  In (file_ext name) accepted_formats ->
  image_to_string file_content = Ok text ->
  let r := processed file_content name text in
  let job := json_dumps None (job_data doc_id r (isoformat (clock w))) in
  exists evs,
    upload_document doc_id file_content (Some name) w =
    (Ok (upload_response doc_id r),
     {| store := <["document:" +:+ doc_id := (job, clock w + 3600)]> (store w);
        queue := job :: queue w;
        clock := clock w;
        trace := trace w ++ evs |}).
Proof.
  intros Hin Hocr r job.
  unfold upload_document, upload_guard, upload_document_body.
  rewrite run_bind. cbn [log emit fst snd]. rewrite run_bind.
  rewrite process_document_run.
  apply existsb_eqb_In in Hin. rewrite Hin, Hocr. cbn [fst snd].
  unfold lpush. plumbing.
  eexists. rewrite <- !app_assoc. reflexivity.
Qed.

(** *** The listings *)

Lemma status_now_extend (w : world) (evs : list event) (doc_id : json) :
  status_now (extend w evs) doc_id = status_now w doc_id.
Proof. reflexivity. Qed.

Lemma queued_document_extend (w : world) (evs : list event) (item : string) :
  queued_document (extend w evs) item = queued_document w item.
Proof. reflexivity. Qed.

Lemma current_status_run (doc_id : json) (w : world) :
  exists evs,
    (let* status_data := redis_get ("document:" +:+ py_str doc_id) in
     current_status ("document:" +:+ py_str doc_id) status_data) w =
    (Ok (status_now w doc_id), extend w evs).
Proof.
  rewrite run_bind. unfold redis_get, status_now. cbn [fst snd].
  destruct (store w !! ("document:" +:+ py_str doc_id) ≫= live (clock w)) as [text|].
  - exists []. rewrite extend_nil. unfold current_status, loads.
    destruct (json_loads text) as [v|]; [|reflexivity].
    destruct v; reflexivity.
  - eexists. unfold current_status. plumbing. reflexivity.
Qed.

Lemma queue_entry_run (item : string) (w : world) :
  exists evs,
    queue_entry item w =
    (match json_loads item with
     | Some (JObj job) =>
         Ok (JObj (dict_setitem job "current_status"
                     (status_now w (dict_get_or job "document_id" JNull))))
     | Some _ => Raise AttributeError
     | None => Raise JSONDecodeError
     end,
     extend w evs).
Proof.
  unfold queue_entry, loads. rewrite run_bind. cbn [lift fst snd].
  destruct (json_loads item) as [v|]; [|exists []; rewrite extend_nil; reflexivity].
  destruct v as [| | | | | |job]; try (exists []; rewrite extend_nil; reflexivity).
  rewrite run_bind. cbn [lift fst snd get].
  destruct (current_status_run (dict_get_or job "document_id" JNull) w) as (evs & Hrun).
  rewrite run_bind in Hrun. rewrite run_bind.
  destruct (redis_get _ w) as [[status_data|e] w1] eqn:Hget; cbn [fst snd] in *.
  - rewrite run_bind, Hrun. cbn [fst snd setitem lift]. exists evs. reflexivity.
  - discriminate.
Qed.

Lemma omap_length_le {A B : Type} (f : A -> option B) (l : list A) :
  (length (omap f l) <= length l)%nat.
Proof.
  induction l as [|x l IH]; [reflexivity|].
  rewrite omap_cons. destruct (f x); cbn [length]; lia.
Qed.

Lemma queue_entries_run (items : list string) :
  forall (documents : list json) (w : world),
  exists evs,
    queue_entries items documents w =
    (Ok (documents ++ omap (queued_document w) items), extend w evs).
Proof.
  induction items as [|item rest IH]; intros documents w.
  - exists []. cbn. rewrite app_nil_r, extend_nil. reflexivity.
  - cbn [queue_entries]. rewrite omap_cons.
    destruct (queue_entry_run item w) as (evs & ->).
    unfold queued_document at 1.
    assert (Hskip : forall e,
              exists evs',
                (log ERROR ("Error parsing job data from queue: " +:+ exn_str e) [];;
                 queue_entries rest documents) (extend w evs) =
                (Ok (documents ++ omap (queued_document w) rest), extend w evs')).
    { intros e. rewrite run_bind. cbn [log emit fst snd]. rewrite extend_extend.
      destruct (IH documents (extend w (evs ++ [Log ERROR
                  ("Error parsing job data from queue: " +:+ exn_str e) []])))
        as (evs' & ->).
      rewrite extend_extend. eexists. reflexivity. }
    destruct (json_loads item) as [v|]; [|apply Hskip].
    destruct v as [| | | | | |job]; try apply Hskip.
    destruct (IH (documents ++ [JObj (dict_setitem job "current_status"
                    (status_now w (dict_get_or job "document_id" JNull)))])
                (extend w evs)) as (evs' & ->).
    exists (evs ++ evs'). rewrite extend_extend, <- app_assoc. reflexivity.
Qed.

Lemma prefix_split (p s : string) :
  String.prefix p s = true -> exists t, s = p +:+ t.
Proof.
  revert s. induction p as [|c p IH]; intros s Hp.
  - exists s. reflexivity.
  - destruct s as [|c' s]; [discriminate|]. cbn [String.prefix] in Hp.
    destruct (ascii_dec c c') as [<-|]; [|discriminate].
    destruct (IH s Hp) as (t & ->). exists t. reflexivity.
Qed.

Lemma key_id_document (key : string) :
  String.prefix "document:" key = true -> key_id key = Ok (JStr (id_of_key key)).
Proof.
  intros Hp. destruct (prefix_split _ _ Hp) as (id & ->).
  unfold key_id, id_of_key. rewrite split_on_separator.
  pose proof (split_on_nonempty "document:" id).
  destruct (split_on "document:" id); [congruence|reflexivity].
Qed.

Lemma status_entry_document (key text : string) :
  String.prefix "document:" key = true ->
  status_entry key text =
  match json_loads text with
  | Some (JObj fields) =>
      Ok (JObj (dict_setitem fields "document_id" (JStr (id_of_key key))))
  | Some _ => Raise TypeError
  | None => Raise JSONDecodeError
  end.
Proof.
  intros Hprefix. unfold status_entry, loads.
  rewrite (key_id_document _ Hprefix).
  destruct (json_loads text) as [v|]; [|reflexivity].
  destruct v; reflexivity.
Qed.

Lemma status_entries_run (keys : list string) :
  Forall (fun key => String.prefix "document:" key = true) keys ->
  forall (documents : list json) (w : world),
  exists evs,
    status_entries keys documents w =
    (Ok (documents ++ omap (shown_status w) keys), extend w evs).
Proof.
  induction 1 as [|key rest Hkey Hrest IH]; intros documents w.
  - exists []. cbn. rewrite app_nil_r, extend_nil. reflexivity.
  - cbn [status_entries]. rewrite omap_cons, run_bind.
    unfold redis_get, shown_status at 1. cbn [fst snd].
    assert (Hskip : forall msg,
              exists evs',
                (log ERROR msg [];; status_entries rest documents) w =
                (Ok (documents ++ omap (shown_status w) rest), extend w evs')).
    { intros msg. rewrite run_bind. cbn [log emit fst snd].
      destruct (IH documents (extend w [Log ERROR msg []])) as (evs' & ->).
      rewrite extend_extend. eexists. reflexivity. }
    destruct (store w !! key ≫= live (clock w)) as [text|]; [|apply Hskip].
    rewrite (status_entry_document _ _ Hkey). unfold status_document.
    destruct (json_loads text) as [v|]; [|apply Hskip].
    destruct v as [| | | | | |fields]; try apply Hskip.
    destruct (IH (documents ++
                  [JObj (dict_setitem fields "document_id" (JStr (id_of_key key)))]) w)
      as (evs & ->).
    exists evs. rewrite <- app_assoc. reflexivity.
Qed.

End Endpoints.

End ServiceFacts.

Module ServiceMore.

Import Agent Api Effects Outcomes AgentFacts.
Import Text DocumentProcessor Service ServiceSpec ServiceFacts.
Local Open Scope m_scope.

Section Endpoints.

Context `{Platform} `{Host}.

(** X17.  [process_document] goes on to the OCR for five extensions
    only: [.pdf] is in [supported_formats], and in the message that
    lists them, but is refused like any other extension, with status
    400.  A refusal does not look at the content, logs nothing and
    leaves everything as it was; a failure of the OCR becomes status
    500; otherwise the result holds the name, the size in bytes, the
    stripped text and its length. *)
Theorem process_document_outcome (file_content : list Byte.byte) (name : string)
    (w : world) :
  (In (file_ext name) accepted_formats ->
   match image_to_string file_content with
   | Ok text =>
       process_document file_content name w =
       (Ok {| filename := name;
              file_size := Z.of_nat (length file_content);
              extracted_text := str_strip text;
              text_length := py_len (str_strip text) |}, w)
   | Raise e =>
       process_document file_content name w =
       (Raise (HTTPException 500 (ocr_failed e)), extend w [Log ERROR (ocr_failed e) []])
   end) /\
  (~ In (file_ext name) accepted_formats ->
   process_document file_content name w =
   (Raise (HTTPException 400
             (if String.eqb (file_ext name) ".pdf" then pdf_detail
              else unsupported_detail)), w)) /\
  unsupported_detail =
    "Unsupported file format. Supported: .png, .jpg, .jpeg, .pdf, .tiff, .bmp".
Proof.
  rewrite process_document_run. split; [|split; [|reflexivity]].
  - intros Hin. apply existsb_eqb_In in Hin. rewrite Hin.
    destruct (image_to_string file_content); reflexivity.
  - intros Hout.
    destruct (existsb (String.eqb (file_ext name)) accepted_formats) eqn:Hex.
    + apply existsb_eqb_In in Hex. contradiction.
    + destruct (String.eqb (file_ext name) ".pdf"); reflexivity.
Qed.

(** X18.  A successful upload puts the same JSON text of the job in
    two places: at the left end of the queue, and under the status key
    of the document for one hour; nothing else in Redis changes, and
    the answer carries the identifier, the preview and the length of
    the text. *)
Theorem upload_queues_and_stores (doc_id : string) (file_content : list Byte.byte)
    (name text : string) (w : world) :
  In (file_ext name) accepted_formats ->
  image_to_string file_content = Ok text ->
  let r := processed file_content name text in
  let job := json_dumps None (job_data doc_id r (isoformat (clock w))) in
  let out := upload_document doc_id file_content (Some name) w in
  fst out = Ok (upload_response doc_id r) /\
  queue (snd out) = job :: queue w /\
  store (snd out) = <["document:" +:+ doc_id := (job, clock w + 3600)]> (store w) /\
  clock (snd out) = clock w.
Proof.
  intros Hin Hocr r job out. subst out.
  destruct (upload_run doc_id file_content name text w Hin Hocr) as (evs & ->).
  auto.
Qed.

(** X19.  A file that [process_document] refuses (an extension that is
    not accepted, or an image the OCR cannot read) is refused by
    [upload_document] with the same [HTTPException], of status 400 or
    500: the clause [except HTTPException] passes it on as it is, and
    [lpush] and [setex] have not been reached, so nothing has been
    queued or stored. *)
Theorem refused_upload_leaves_nothing (doc_id : string) (file_content : list Byte.byte)
    (file_name : option string) (w : world) (e : exn) :
  fst (process_document file_content
         (match file_name with Some name => name | None => EmptyString end) w) = Raise e ->
  fst (upload_document doc_id file_content file_name w) = Raise e /\
  (exists detail, e = HTTPException 400 detail \/ e = HTTPException 500 detail) /\
  store (snd (upload_document doc_id file_content file_name w)) = store w /\
  queue (snd (upload_document doc_id file_content file_name w)) = queue w.
Proof.
  unfold upload_document, upload_guard, upload_document_body.
  rewrite run_bind. cbn [log emit fst snd]. rewrite run_bind.
  rewrite !process_document_run.
  destruct (existsb _ accepted_formats).
  - destruct (image_to_string file_content) as [text|e'].
    + discriminate.
    + cbn [fst snd]. intros [= <-]. split; [reflexivity|].
      split; [eexists; right; reflexivity|]. auto.
  - destruct (String.eqb _ ".pdf"); cbn [fst snd]; intros [= <-];
      (split; [reflexivity|]; split; [eexists; left; reflexivity|]; auto).
Qed.

(** X20.  The preview of the answer never has more than 203
    characters: it is the text itself up to 200 characters, and the
    first 200 characters followed by three dots beyond, which makes it
    longer than a text of 201 or 202 characters. *)
Theorem preview_bounded (text : string) :
  py_len (preview text) <= 203 /\
  (py_len text <= 200 -> preview text = text) /\
  (200 < py_len text ->
   preview text = py_take 200 text +:+ "..." /\
   String.prefix (py_take 200 text) text = true /\
   py_len (py_take 200 text) = 200 /\
   py_len (preview text) = 203).
Proof.
  assert (Htake : 200 < py_len text -> py_len (py_take 200 text) = 200).
  { intros Hlen. rewrite py_len_take. change (Z.of_nat 200) with 200.
    apply Z.min_l. lia. }
  unfold preview. destruct (200 <? py_len text) eqn:Hlen.
  - apply Z.ltb_lt in Hlen.
    assert (Hsum : py_len (py_take 200 text +:+ "...") = 203).
    { rewrite py_len_app, (Htake Hlen). reflexivity. }
    split; [lia|]. split; [lia|]. intros _.
    split; [reflexivity|]. split; [apply py_take_prefix|]. auto.
  - apply Z.ltb_ge in Hlen. split; [lia|]. split; [reflexivity|lia].
Qed.

(** X21.  Right after an upload the status endpoint answers
    [ocr_complete] with no timestamp: the job record keeps its time
    under [upload_timestamp], and the endpoint reads [timestamp]. *)
Theorem status_after_upload (doc_id : string) (file_content : list Byte.byte)
    (name text : string) (w : world) :
  In (file_ext name) accepted_formats ->
  image_to_string file_content = Ok text ->
  let job := job_data doc_id (processed file_content name text) (isoformat (clock w)) in
  json_loads (json_dumps None job) = Some job ->
  fst (get_document_status doc_id
         (snd (upload_document doc_id file_content (Some name) w))) =
  Ok (JObj [("status", JStr "ocr_complete");
            ("timestamp", JNull);
            ("additional_info", JNull);
            ("structured_data", JNull)]).
Proof.
  intros Hin Hocr job Hloads.
  destruct (upload_run doc_id file_content name text w Hin Hocr) as (evs & ->).
  cbn [snd]. unfold get_document_status, http_guard, get_document_status_body.
  rewrite run_bind. unfold redis_get. cbn [fst snd store clock].
  rewrite lookup_insert_eq. cbn [mbind option_bind]. unfold live. cbn [fst snd].
  replace (clock w <? clock w + 3600) with true by (symmetry; apply Z.ltb_lt; lia).
  unfold loads. fold job. rewrite Hloads. reflexivity.
Qed.

(** X22.  The worker's next round after an upload into an empty
    queue takes exactly that job and empties the queue.  Either it
    replaces the record of the upload by one of the worker's four
    statuses, under the same key and for a new hour, or, when the job
    raises, it leaves Redis as the upload left it: the document then
    stays at [ocr_complete]. *)
Theorem worker_takes_over_upload (doc_id : string) (file_content : list Byte.byte)
    (name text : string) (w : world) :
  In (file_ext name) accepted_formats ->
  image_to_string file_content = Ok text ->
  queue w = [] ->
  let job := job_data doc_id (processed file_content name text) (isoformat (clock w)) in
  readable job ->
  let uploaded := snd (upload_document doc_id file_content (Some name) w) in
  queue (snd (main_iteration uploaded)) = [] /\
  ((exists status additional_info data,
      In status worker_statuses /\
      store (snd (main_iteration uploaded)) =
      <["document:" +:+ doc_id :=
          (json_dumps None (status_data status (isoformat (clock w)) additional_info data),
           clock w + 3600)]> (store w)) \/
   store (snd (main_iteration uploaded)) = store uploaded).
Proof.
  intros Hin Hocr Hempty job (Hne & Hloads) uploaded. subst uploaded.
  destruct (upload_run doc_id file_content name text w Hin Hocr) as (evs & ->).
  cbn [snd]. fold job. rewrite Hempty.
  match goal with
  | |- context [main_iteration ?w1] => set (w1' := w1)
  end.
  assert (Hq : queue w1' = [] ++ [json_dumps None job]) by reflexivity.
  rewrite (main_iteration_run [] _ w1' Hq Hne).
  pose proof (WorkerMore.keeps_queue_try (json_dumps None job) (dequeued w1' [])) as Hkeep.
  cbv beta in Hkeep. cbn [dequeued queue] in Hkeep.
  pose proof (WorkerMore.completed_job (json_dumps None job) (dequeued w1' []))
    as Hdone.
  pose proof (clean_raise_process_job (json_dumps None job) (dequeued w1' [])) as Hclean.
  cbv beta in Hclean. cbn [dequeued store] in Hclean.
  unfold try_process_job in *.
  destruct (process_job (json_dumps None job) (dequeued w1' [])) as [[how|e] w2].
  - destruct (Hdone how eq_refl) as (fields & status & info & data & Hjob & Hst & _ & Hw).
    rewrite Hloads in Hjob. injection Hjob as <-.
    assert (Hstore : store w2 =
              <["document:" +:+ doc_id :=
                  (json_dumps None (status_data status (isoformat (clock w)) info data),
                   clock w + 3600)]> (store w)).
    { unfold written in Hw. cbn [snd dequeued store clock] in Hw. rewrite Hw.
      subst w1'. cbn [store clock]. apply insert_insert_eq. }
    destruct how; cbn [fst snd queue store extend] in *;
      (split; [exact Hkeep|]; left; exists status, info, data; auto).
  - cbn [fst snd is_ok] in Hclean. specialize (Hclean eq_refl).
    destruct (swallowed e); plumbing; cbn [fst snd] in *;
      (split; [exact Hkeep|]; right; exact Hclean).
Qed.

(** X23.  [get_queue_status] answers with the number of waiting jobs
    and changes nothing; the queue is [active] right after a successful
    upload, and a round of the worker lowers the count by one whatever
    becomes of the job. *)
Theorem queue_status_counts (w : world) :
  get_queue_status w =
  (Ok (JObj [("queue_length", JInt (Z.of_nat (length (queue w))));
             ("status", JStr (match queue w with [] => "empty" | _ :: _ => "active" end))]),
   w) /\
  (forall doc_id file_content name text,
     In (file_ext name) accepted_formats ->
     image_to_string file_content = Ok text ->
     fst (get_queue_status (snd (upload_document doc_id file_content (Some name) w))) =
     Ok (JObj [("queue_length", JInt (Z.of_nat (length (queue w)) + 1));
               ("status", JStr "active")])) /\
  fst (get_queue_status (snd (main_iteration w))) =
  Ok (JObj [("queue_length", JInt (Z.of_nat (Nat.pred (length (queue w)))));
            ("status", JStr (if (length (queue w) <=? 1)%nat then "empty" else "active"))]).
Proof.
  assert (Hstatus : forall w0,
            get_queue_status w0 =
            (Ok (JObj [("queue_length", JInt (Z.of_nat (length (queue w0))));
                       ("status",
                        JStr (match queue w0 with [] => "empty" | _ :: _ => "active" end))]),
             w0)).
  { intros w0. unfold get_queue_status, failing, llen. plumbing.
    destruct (queue w0); reflexivity. }
  split; [apply Hstatus|]. split.
  - intros doc_id file_content name text Hin Hocr.
    destruct (upload_run doc_id file_content name text w Hin Hocr) as (evs & ->).
    rewrite Hstatus. cbn [fst snd queue length].
    rewrite Nat2Z.inj_succ, <- Z.add_1_r. reflexivity.
  - rewrite Hstatus, WorkerMore.main_iteration_queue. cbn [fst].
    destruct (queue w) as [|x l] using rev_ind; [reflexivity|].
    rewrite removelast_last, length_app. cbn [length].
    rewrite Nat.add_1_r. cbn [Nat.pred].
    destruct l; reflexivity.
Qed.

(** X24.  [get_all_documents_in_queue] never fails on a bad item: the
    items of the queue that are not the JSON text of an object are
    logged and left out, and the others are shown in the order of the
    queue, each with the status kept for its document at that time
    ([None] when there is none).  Redis and the queue are not
    changed.  A job the worker has taken is no longer shown, whatever
    its status. *)
Theorem queue_listing (w : world) :
  (exists evs,
     get_all_documents_in_queue w =
     (Ok (listing (omap (queued_document w) (queue w))), extend w evs)) /\
  (length (omap (queued_document w) (queue w)) <= length (queue w))%nat /\
  fst (get_all_documents_in_queue (snd (main_iteration w))) =
  Ok (listing (omap (queued_document (snd (main_iteration w))) (removelast (queue w)))).
Proof.
  assert (Hlist : forall w0,
            exists evs,
              get_all_documents_in_queue w0 =
              (Ok (listing (omap (queued_document w0) (queue w0))), extend w0 evs)).
  { intros w0. unfold get_all_documents_in_queue, failing. rewrite run_bind.
    unfold lrange_all. cbn [fst snd]. rewrite run_bind.
    destruct (queue_entries_run (queue w0) [] w0) as (evs & ->).
    exists evs. reflexivity. }
  split; [apply Hlist|]. split; [apply omap_length_le|].
  destruct (Hlist (snd (main_iteration w))) as (evs & ->).
  rewrite WorkerMore.main_iteration_queue. reflexivity.
Qed.

(** X25.  [get_all_document_statuses] shows exactly the status records
    that have not expired and are the JSON text of an object, each with
    a [document_id] taken from its key; the others are logged and left
    out.  The identifier is that of the key as long as it has no
    [document:] inside; otherwise it is cut before the first one. *)
Theorem status_listing (w : world) :
  exists evs documents,
    get_all_document_statuses w = (Ok (listing documents), extend w evs) /\
    forall doc,
      In doc documents <->
      exists key text expires,
        store w !! key = Some (text, expires) /\ clock w < expires /\
        String.prefix "document:" key = true /\
        status_document key text = Some doc.
Proof.
  unfold get_all_document_statuses, failing. rewrite run_bind.
  unfold redis_keys. cbn [fst snd].
  set (keys := map fst _).
  assert (Hkeys : forall key,
            In key keys <->
            exists text expires,
              store w !! key = Some (text, expires) /\ clock w < expires /\
              String.prefix "document:" key = true).
  { intros key. subst keys. rewrite in_map_iff. split.
    - intros ([k [text expires]] & <- & Hin).
      apply list_elem_of_In, list_elem_of_filter in Hin. destruct Hin as (Hp & Hin).
      apply elem_of_map_to_list in Hin. cbn [fst snd] in *.
      apply Is_true_true, andb_true_iff in Hp. destruct Hp as (Hp & Hlive).
      apply Z.ltb_lt in Hlive. exists text, expires. auto.
    - intros (text & expires & Hlook & Hlive & Hp).
      exists (key, (text, expires)). split; [reflexivity|].
      apply list_elem_of_In, list_elem_of_filter. split.
      + cbn [fst snd]. apply Is_true_true, andb_true_iff. split; [exact Hp|].
        apply Z.ltb_lt. exact Hlive.
      + apply elem_of_map_to_list. exact Hlook. }
  assert (Hall : Forall (fun key => String.prefix "document:" key = true) keys).
  { apply Forall_forall. intros key Hin. apply list_elem_of_In, Hkeys in Hin.
    destruct Hin as (_ & _ & _ & _ & Hp). exact Hp. }
  rewrite run_bind.
  destruct (status_entries_run keys Hall [] w) as (evs & ->).
  exists evs, (omap (shown_status w) keys). split; [reflexivity|].
  intros doc. rewrite <- list_elem_of_In, list_elem_of_omap. split.
  - intros (key & Hin & Hshown). apply list_elem_of_In, Hkeys in Hin.
    destruct Hin as (text & expires & Hlook & Hlive & Hp).
    exists key, text, expires. repeat split; try assumption.
    unfold shown_status in Hshown. rewrite Hlook in Hshown.
    cbn [mbind option_bind] in Hshown. unfold live in Hshown. cbn [fst snd] in Hshown.
    apply Z.ltb_lt in Hlive. rewrite Hlive in Hshown. exact Hshown.
  - intros (key & text & expires & Hlook & Hlive & Hp & Hdoc).
    exists key. split.
    + apply list_elem_of_In, Hkeys. exists text, expires. auto.
    + unfold shown_status. rewrite Hlook. cbn [mbind option_bind]. unfold live.
      cbn [fst snd]. apply Z.ltb_lt in Hlive. rewrite Hlive. exact Hdoc.
Qed.

End Endpoints.

End ServiceMore.
(** ** The further properties on concrete runs *)

Module Examples.

Import Validation PathSpec Agent Api RoutingSpec Effects Outcomes.
Import Text DocumentProcessor Service ServiceSpec.
Import Reference Scenario ReferenceHost Uploads Oddities.
Import ValidationMore WorkerMore ServiceMore.

(** X1 on the list [[1]]. *)
Lemma check_required_fields_beyond_records_witness :
  truthy (JArr [JInt 1]) = true /\ is_dict (JArr [JInt 1]) = false /\
  check_required_fields (JArr [JInt 1]) =
  (if plain_round_raises (JArr [JInt 1]) then Raise TypeError
   else Ok (false, required_fields)).
Proof.
  split; [reflexivity|]. split; [reflexivity|].
  exact (check_required_fields_beyond_records (JArr [JInt 1]) eq_refl eq_refl).
Defined.

(** X2 on a referral without the date of birth of the patient. *)
Lemma missing_fields_in_order_witness :
  check_required_fields referral_without_birth = Ok (false, ["patient.date_of_birth"]) /\
  truthy referral_without_birth = true /\
  (exists reported,
     sublist reported required_fields /\
     Forall2 (fun name path =>
                name = path \/
                (endswith path ".contact" = true /\ name = path +:+ contact_note))
       ["patient.date_of_birth"] reported) /\
  (length ["patient.date_of_birth"] <= 8)%nat.
Proof.
  split; [reflexivity|]. split; [reflexivity|].
  exact (missing_fields_in_order referral_without_birth false ["patient.date_of_birth"]
           eq_refl eq_refl).
Defined.

(** X3 on a referral and the same with a diagnosis added. *)
Lemma check_reads_five_keys_witness :
  no_birth_fields <> [] /\
  no_birth_fields ++ [("diagnosis", JStr "angina")] <> [] /\
  (forall k,
     In k ["referring_provider"; "receiving_provider"; "patient";
           "reason_for_referral"; "requested_action"] ->
     dict_get no_birth_fields k =
     dict_get (no_birth_fields ++ [("diagnosis", JStr "angina")]) k) /\
  check_required_fields (JObj no_birth_fields) =
  check_required_fields (JObj (no_birth_fields ++ [("diagnosis", JStr "angina")])).
Proof.
  assert (H1 : no_birth_fields <> []) by discriminate.
  assert (H2 : no_birth_fields ++ [("diagnosis", JStr "angina")] <> []) by discriminate.
  assert (H3 : forall k,
            In k ["referring_provider"; "receiving_provider"; "patient";
                  "reason_for_referral"; "requested_action"] ->
            dict_get no_birth_fields k =
            dict_get (no_birth_fields ++ [("diagnosis", JStr "angina")]) k).
  { intros k [<-|[<-|[<-|[<-|[<-|[]]]]]]; reflexivity. }
  split; [exact H1|]. split; [exact H2|]. split; [exact H3|].
  exact (check_reads_five_keys no_birth_fields
           (no_birth_fields ++ [("diagnosis", JStr "angina")]) H1 H2 H3).
Defined.

(** X7 on the job of a complete referral. *)
Lemma completed_job_has_one_status_witness :
  fst (@process_job (answering complete_referral) job (start 1000)) = Ok Completed /\
  exists fields status additional_info structured_data,
    @json_loads (answering complete_referral) job = Some (JObj fields) /\
    In status worker_statuses /\
    (Completed = Continue <-> status = "extraction_failed") /\
    @written (answering complete_referral) (start 1000)
      (snd (@process_job (answering complete_referral) job (start 1000)))
      (dict_get_or fields "document_id" (JStr "unknown")) status
      additional_info structured_data /\
    queue (snd (@process_job (answering complete_referral) job (start 1000))) =
    queue (start 1000).
Proof.
  assert (Hrun : fst (@process_job (answering complete_referral) job (start 1000)) =
                 Ok Completed) by (vm_compute; reflexivity).
  split; [exact Hrun|].
  exact (@completed_job_has_one_status (answering complete_referral) job (start 1000)
           Completed Hrun).
Defined.

(** X8 on a text that is not JSON, and on the JSON text of a list. *)
Lemma unreadable_job_witness :
  (@json_loads (saying "{}") "not json" = None /\
   @try_process_job (saying "{}") "not json" (start 1000) =
   (Ok Completed,
    extend (start 1000)
      [Log ERROR "Error processing document (JSON or dict error): %s"
         [JStr (@exn_str (saying "{}") JSONDecodeError)];
       LogException JSONDecodeError])) /\
  (@json_loads (saying "{}") "[1, 2]" = Some (JArr [JInt 1; JInt 2]) /\
   is_dict (JArr [JInt 1; JInt 2]) = false /\
   @try_process_job (saying "{}") "[1, 2]" (start 1000) =
   (Raise AttributeError,
    extend (start 1000)
      [Log ERROR "Unexpected error processing document: %s"
         [JStr (@exn_str (saying "{}") AttributeError)];
       LogException AttributeError])).
Proof.
  assert (H1 : @json_loads (saying "{}") "not json" = None) by (vm_compute; reflexivity).
  assert (H2 : @json_loads (saying "{}") "[1, 2]" = Some (JArr [JInt 1; JInt 2]))
    by (vm_compute; reflexivity).
  split.
  - split; [exact H1|].
    exact (proj1 (@unreadable_job (saying "{}") "not json" (start 1000)) H1).
  - split; [exact H2|]. split; [reflexivity|].
    exact (proj2 (@unreadable_job (saying "{}") "[1, 2]" (start 1000))
             (JArr [JInt 1; JInt 2]) H2 eq_refl).
Defined.

(** X9 on the reply [[1, 2]] to the extraction request. *)
Lemma extraction_not_a_record_witness :
  @json_loads (saying "[1, 2]") job = Some (JObj job_fields) /\
  @chat_completions_create (saying "[1, 2]") model
    (extraction_messages (dict_get_or job_fields "extracted_text" (JStr ""))) =
    Ok (Some "[1, 2]") /\
  truthy (@decoded (saying "[1, 2]") (Some "[1, 2]")) = true /\
  is_dict (@decoded (saying "[1, 2]") (Some "[1, 2]")) = false /\
  fst (@try_process_job (saying "[1, 2]") job (start 1000)) =
    (if plain_round_raises (@decoded (saying "[1, 2]") (Some "[1, 2]"))
     then Ok Completed else Raise AttributeError) /\
  store (snd (@try_process_job (saying "[1, 2]") job (start 1000))) = store (start 1000).
Proof.
  assert (H1 : @json_loads (saying "[1, 2]") job = Some (JObj job_fields))
    by (vm_compute; reflexivity).
  assert (H2 : @chat_completions_create (saying "[1, 2]") model
                 (extraction_messages (dict_get_or job_fields "extracted_text" (JStr ""))) =
               Ok (Some "[1, 2]")) by (vm_compute; reflexivity).
  assert (H3 : truthy (@decoded (saying "[1, 2]") (Some "[1, 2]")) = true)
    by (vm_compute; reflexivity).
  assert (H4 : is_dict (@decoded (saying "[1, 2]") (Some "[1, 2]")) = false)
    by (vm_compute; reflexivity).
  split; [exact H1|]. split; [exact H2|]. split; [exact H3|]. split; [exact H4|].
  exact (@extraction_not_a_record (saying "[1, 2]") job job_fields (Some "[1, 2]")
           (start 1000) H1 H2 H3 H4).
Defined.

(** X10 on a referral whose referring provider is the empty text. *)
Lemma provider_not_a_record_witness :
  is_dict (dict_get_or blank_provider_fields "referring_provider" (JObj [])) &&
  is_dict (dict_get_or blank_provider_fields "receiving_provider" (JObj [])) = false /\
  check_required_fields (JObj blank_provider_fields) =
    Ok (false, ["referring_provider.name"; "referring_provider.contact"]) /\
  fst (@route_incomplete (saying "{}") (JStr "doc-1") (JObj blank_provider_fields)
         ["referring_provider.name"; "referring_provider.contact"] (start 1000)) =
    Raise AttributeError /\
  store (snd (@route_incomplete (saying "{}") (JStr "doc-1") (JObj blank_provider_fields)
                ["referring_provider.name"; "referring_provider.contact"] (start 1000))) =
    store (start 1000) /\
  exists evs,
    trace (snd (@route_incomplete (saying "{}") (JStr "doc-1") (JObj blank_provider_fields)
                  ["referring_provider.name"; "referring_provider.contact"] (start 1000))) =
      trace (start 1000) ++ evs /\
    Forall (fun ev => is_log ev = true) evs.
Proof.
  assert (H1 : is_dict (dict_get_or blank_provider_fields "referring_provider" (JObj [])) &&
               is_dict (dict_get_or blank_provider_fields "receiving_provider" (JObj []))
               = false) by (vm_compute; reflexivity).
  assert (H2 : check_required_fields (JObj blank_provider_fields) =
               Ok (false, ["referring_provider.name"; "referring_provider.contact"]))
    by (vm_compute; reflexivity).
  split; [exact H1|]. split; [exact H2|].
  exact (@provider_not_a_record (saying "{}") (JStr "doc-1") blank_provider_fields
           ["referring_provider.name"; "referring_provider.contact"] (start 1000) H1).
Defined.

(** X11 on a referral whose referring contact is the empty text. *)
Lemma contact_not_a_record_witness :
  is_dict (dict_get_or blank_contact_fields "referring_provider" (JObj [])) = true /\
  is_dict (dict_get_or blank_contact_fields "receiving_provider" (JObj [])) = true /\
  @chat_completions_create (answering (JObj blank_contact_fields)) model
    (@draft_messages (answering (JObj blank_contact_fields))
       (provider_name (dict_get_or blank_contact_fields "referring_provider" (JObj [])))
       (provider_name (dict_get_or blank_contact_fields "receiving_provider" (JObj [])))
       ["referring_provider.contact"]) = Ok (Some (encode None draft_record)) /\
  truthy (@decoded (answering (JObj blank_contact_fields))
            (Some (encode None draft_record))) = true /\
  contact_record (dict_get_or blank_contact_fields "referring_provider" (JObj [])) = None /\
  check_required_fields (JObj blank_contact_fields) =
    Ok (false, ["referring_provider.contact"]) /\
  fst (@route_incomplete (answering (JObj blank_contact_fields)) (JStr "doc-1")
         (JObj blank_contact_fields) ["referring_provider.contact"] (start 1000)) =
    Raise AttributeError /\
  store (snd (@route_incomplete (answering (JObj blank_contact_fields)) (JStr "doc-1")
                (JObj blank_contact_fields) ["referring_provider.contact"] (start 1000))) =
    store (start 1000).
Proof.
  assert (H1 : is_dict (dict_get_or blank_contact_fields "referring_provider" (JObj []))
               = true) by (vm_compute; reflexivity).
  assert (H2 : is_dict (dict_get_or blank_contact_fields "receiving_provider" (JObj []))
               = true) by (vm_compute; reflexivity).
  assert (H3 : @chat_completions_create (answering (JObj blank_contact_fields)) model
    (@draft_messages (answering (JObj blank_contact_fields))
       (provider_name (dict_get_or blank_contact_fields "referring_provider" (JObj [])))
       (provider_name (dict_get_or blank_contact_fields "receiving_provider" (JObj [])))
       ["referring_provider.contact"]) = Ok (Some (encode None draft_record)))
    by (vm_compute; reflexivity).
  assert (H4 : truthy (@decoded (answering (JObj blank_contact_fields))
                         (Some (encode None draft_record))) = true)
    by (vm_compute; reflexivity).
  assert (H5 : contact_record
                 (dict_get_or blank_contact_fields "referring_provider" (JObj [])) = None)
    by (vm_compute; reflexivity).
  assert (H6 : check_required_fields (JObj blank_contact_fields) =
               Ok (false, ["referring_provider.contact"])) by (vm_compute; reflexivity).
  split; [exact H1|]. split; [exact H2|]. split; [exact H3|]. split; [exact H4|].
  split; [exact H5|]. split; [exact H6|].
  exact (@contact_not_a_record (answering (JObj blank_contact_fields)) (JStr "doc-1")
           blank_contact_fields ["referring_provider.contact"]
           (Some (encode None draft_record)) (start 1000) H1 H2 H3 H4 H5).
Defined.

(** X12 on the draft [[1]] for a referral without a date of birth. *)
Lemma draft_not_a_record_witness :
  is_dict (dict_get_or no_birth_fields "referring_provider" (JObj [])) = true /\
  is_dict (dict_get_or no_birth_fields "receiving_provider" (JObj [])) = true /\
  @chat_completions_create (drafting_with (JObj no_birth_fields) "[1]") model
    (@draft_messages (drafting_with (JObj no_birth_fields) "[1]")
       (provider_name (dict_get_or no_birth_fields "referring_provider" (JObj [])))
       (provider_name (dict_get_or no_birth_fields "receiving_provider" (JObj [])))
       ["patient.date_of_birth"]) = Ok (Some "[1]") /\
  truthy (@decoded (drafting_with (JObj no_birth_fields) "[1]") (Some "[1]")) = true /\
  is_dict (@decoded (drafting_with (JObj no_birth_fields) "[1]") (Some "[1]")) = false /\
  contact_target (dict_get_or no_birth_fields "referring_provider" (JObj []))
    (dict_get_or no_birth_fields "receiving_provider" (JObj [])) =
    Ok (JStr "ames@clinic.example") /\
  fst (@route_incomplete (drafting_with (JObj no_birth_fields) "[1]") (JStr "doc-1")
         (JObj no_birth_fields) ["patient.date_of_birth"] (start 1000)) =
    Raise AttributeError /\
  store (snd (@route_incomplete (drafting_with (JObj no_birth_fields) "[1]") (JStr "doc-1")
                (JObj no_birth_fields) ["patient.date_of_birth"] (start 1000))) =
    store (start 1000) /\
  In (Log INFO "To: %s" [JStr "ames@clinic.example"])
     (trace (snd (@route_incomplete (drafting_with (JObj no_birth_fields) "[1]")
                    (JStr "doc-1") (JObj no_birth_fields) ["patient.date_of_birth"]
                    (start 1000)))).
Proof.
  assert (H1 : is_dict (dict_get_or no_birth_fields "referring_provider" (JObj []))
               = true) by (vm_compute; reflexivity).
  assert (H2 : is_dict (dict_get_or no_birth_fields "receiving_provider" (JObj []))
               = true) by (vm_compute; reflexivity).
  assert (H3 : @chat_completions_create (drafting_with (JObj no_birth_fields) "[1]") model
    (@draft_messages (drafting_with (JObj no_birth_fields) "[1]")
       (provider_name (dict_get_or no_birth_fields "referring_provider" (JObj [])))
       (provider_name (dict_get_or no_birth_fields "receiving_provider" (JObj [])))
       ["patient.date_of_birth"]) = Ok (Some "[1]")) by (vm_compute; reflexivity).
  assert (H4 : truthy (@decoded (drafting_with (JObj no_birth_fields) "[1]") (Some "[1]"))
               = true) by (vm_compute; reflexivity).
  assert (H5 : is_dict (@decoded (drafting_with (JObj no_birth_fields) "[1]") (Some "[1]"))
               = false) by (vm_compute; reflexivity).
  assert (H6 : contact_target (dict_get_or no_birth_fields "referring_provider" (JObj []))
                 (dict_get_or no_birth_fields "receiving_provider" (JObj [])) =
               Ok (JStr "ames@clinic.example")) by (vm_compute; reflexivity).
  split; [exact H1|]. split; [exact H2|]. split; [exact H3|]. split; [exact H4|].
  split; [exact H5|]. split; [exact H6|].
  exact (@draft_not_a_record (drafting_with (JObj no_birth_fields) "[1]") (JStr "doc-1")
           no_birth_fields ["patient.date_of_birth"] (Some "[1]")
           (JStr "ames@clinic.example") (start 1000) H1 H2 H3 H4 H5 H6).
Defined.

(** X13 on two documents. *)
Lemma status_updates_are_local_witness :
  "doc-1" <> "doc-2" /\
  store (snd (@update_redis_status (saying "{}") (JStr "doc-1") "emr_synced" JNull
                complete_referral (start 1000)))
    !! @doc_key (saying "{}") (JStr "doc-2") =
  store (start 1000) !! @doc_key (saying "{}") (JStr "doc-2").
Proof.
  assert (Hne : "doc-1" <> "doc-2") by discriminate.
  split; [exact Hne|].
  exact (proj1 (@status_updates_are_local (saying "{}") (start 1000))
           "doc-1" "doc-2" "emr_synced" JNull complete_referral Hne).
Defined.

(** X14 one second before the hour is over, and at the hour. *)
Lemma status_lifetime_witness :
  (0 <= 3599 < 3600 /\
   @json_loads (saying "{}")
     (@json_dumps (saying "{}") None
        (status_data "emr_synced" (@isoformat (saying "{}") (clock (start 1000)))
           JNull complete_referral)) =
   Some (status_data "emr_synced" (@isoformat (saying "{}") (clock (start 1000)))
           JNull complete_referral) /\
   fst (@get_document_status (saying "{}") "doc-1"
          (snd (elapse 3599
                  (snd (@update_redis_status (saying "{}") (JStr "doc-1") "emr_synced"
                          JNull complete_referral (start 1000)))))) =
   Ok (status_data "emr_synced" (@isoformat (saying "{}") (clock (start 1000)))
         JNull complete_referral)) /\
  (3600 <= 3600 /\
   fst (@get_document_status (saying "{}") "doc-1"
          (snd (elapse 3600
                  (snd (@update_redis_status (saying "{}") (JStr "doc-1") "emr_synced"
                          JNull complete_referral (start 1000)))))) =
   Raise (HTTPException 500 corrupt_detail)).
Proof.
  assert (H1 : 0 <= 3599 < 3600) by lia.
  assert (H2 : @json_loads (saying "{}")
     (@json_dumps (saying "{}") None
        (status_data "emr_synced" (@isoformat (saying "{}") (clock (start 1000)))
           JNull complete_referral)) =
   Some (status_data "emr_synced" (@isoformat (saying "{}") (clock (start 1000)))
           JNull complete_referral)) by (vm_compute; reflexivity).
  assert (H3 : 3600 <= 3600) by lia.
  split.
  - split; [exact H1|]. split; [exact H2|].
    exact (proj1 (@status_lifetime (saying "{}") "doc-1" "emr_synced" JNull
                    complete_referral 3599 (start 1000)) H1 H2).
  - split; [exact H3|].
    exact (proj2 (@status_lifetime (saying "{}") "doc-1" "emr_synced" JNull
                    complete_referral 3600 (start 1000)) H3).
Defined.

(** X17 on a PNG file that is read, and on a PDF file. *)
Lemma process_document_outcome_witness :
  (In (@file_ext reading "referral.PNG") accepted_formats /\
   @process_document (saying "{}") reading scan "referral.PNG" (start 1000) =
   (Ok {| filename := "referral.PNG";
          file_size := Z.of_nat (length scan);
          extracted_text := @str_strip reading scanned;
          text_length := py_len (@str_strip reading scanned) |}, start 1000)) /\
  (~ In (@file_ext reading "referral.pdf") accepted_formats /\
   @process_document (saying "{}") reading scan "referral.pdf" (start 1000) =
   (Raise (HTTPException 400
             (if String.eqb (@file_ext reading "referral.pdf") ".pdf" then pdf_detail
              else unsupported_detail)), start 1000)).
Proof.
  assert (H1 : In (@file_ext reading "referral.PNG") accepted_formats)
    by (vm_compute; auto).
  assert (H2 : ~ In (@file_ext reading "referral.pdf") accepted_formats).
  { vm_compute. intros [H|[H|[H|[H|[H|[]]]]]]; discriminate. }
  split.
  - split; [exact H1|].
    exact (proj1 (@process_document_outcome (saying "{}") reading scan "referral.PNG"
                    (start 1000)) H1).
  - split; [exact H2|].
    exact (proj1 (proj2 (@process_document_outcome (saying "{}") reading scan
                           "referral.pdf" (start 1000))) H2).
Defined.

(** X18 on the upload of a PNG file. *)
Lemma upload_queues_and_stores_witness :
  In (@file_ext reading "referral.PNG") accepted_formats /\
  @image_to_string reading scan = Ok scanned /\
  fst (@upload_document (saying "{}") reading "doc-1" scan (Some "referral.PNG")
         (start 1000)) =
    Ok (upload_response "doc-1" (@processed reading scan "referral.PNG" scanned)) /\
  queue (snd (@upload_document (saying "{}") reading "doc-1" scan (Some "referral.PNG")
                (start 1000))) =
    @json_dumps (saying "{}") None
      (job_data "doc-1" (@processed reading scan "referral.PNG" scanned)
         (@isoformat (saying "{}") (clock (start 1000)))) :: queue (start 1000) /\
  store (snd (@upload_document (saying "{}") reading "doc-1" scan (Some "referral.PNG")
                (start 1000))) =
    <["document:" +:+ "doc-1" :=
        (@json_dumps (saying "{}") None
           (job_data "doc-1" (@processed reading scan "referral.PNG" scanned)
              (@isoformat (saying "{}") (clock (start 1000)))),
         clock (start 1000) + 3600)]> (store (start 1000)) /\
  clock (snd (@upload_document (saying "{}") reading "doc-1" scan (Some "referral.PNG")
                (start 1000))) = clock (start 1000).
Proof.
  assert (H1 : In (@file_ext reading "referral.PNG") accepted_formats)
    by (vm_compute; auto).
  assert (H2 : @image_to_string reading scan = Ok scanned) by reflexivity.
  split; [exact H1|]. split; [exact H2|].
  exact (@upload_queues_and_stores (saying "{}") reading "doc-1" scan "referral.PNG"
           scanned (start 1000) H1 H2).
Defined.

(** X19 on an upload without a file name. *)
Lemma refused_upload_leaves_nothing_witness :
  fst (@process_document (saying "{}") reading scan EmptyString (start 1000)) =
    Raise (HTTPException 400
             "Unsupported file format. Supported: .png, .jpg, .jpeg, .pdf, .tiff, .bmp") /\
  fst (@upload_document (saying "{}") reading "doc-1" scan None (start 1000)) =
    Raise (HTTPException 400
             "Unsupported file format. Supported: .png, .jpg, .jpeg, .pdf, .tiff, .bmp") /\
  (exists detail,
     HTTPException 400
       "Unsupported file format. Supported: .png, .jpg, .jpeg, .pdf, .tiff, .bmp" =
     HTTPException 400 detail \/
     HTTPException 400
       "Unsupported file format. Supported: .png, .jpg, .jpeg, .pdf, .tiff, .bmp" =
     HTTPException 500 detail) /\
  store (snd (@upload_document (saying "{}") reading "doc-1" scan None (start 1000))) =
    store (start 1000) /\
  queue (snd (@upload_document (saying "{}") reading "doc-1" scan None (start 1000))) =
    queue (start 1000).
Proof.
  assert (H1 : fst (@process_document (saying "{}") reading scan EmptyString (start 1000)) =
               Raise (HTTPException 400
                 "Unsupported file format. Supported: .png, .jpg, .jpeg, .pdf, .tiff, .bmp"))
    by (vm_compute; reflexivity).
  split; [exact H1|].
  exact (@refused_upload_leaves_nothing (saying "{}") reading "doc-1" scan None
           (start 1000) _ H1).
Defined.

(** X21 on the upload of a PNG file. *)
Lemma status_after_upload_witness :
  In (@file_ext reading "referral.PNG") accepted_formats /\
  @image_to_string reading scan = Ok scanned /\
  @json_loads (saying "{}")
    (@json_dumps (saying "{}") None
       (job_data "doc-1" (@processed reading scan "referral.PNG" scanned)
          (@isoformat (saying "{}") (clock (start 1000))))) =
  Some (job_data "doc-1" (@processed reading scan "referral.PNG" scanned)
          (@isoformat (saying "{}") (clock (start 1000)))) /\
  fst (@get_document_status (saying "{}") "doc-1"
         (snd (@upload_document (saying "{}") reading "doc-1" scan (Some "referral.PNG")
                 (start 1000)))) =
  Ok (JObj [("status", JStr "ocr_complete");
            ("timestamp", JNull);
            ("additional_info", JNull);
            ("structured_data", JNull)]).
Proof.
  assert (H1 : In (@file_ext reading "referral.PNG") accepted_formats)
    by (vm_compute; auto).
  assert (H2 : @image_to_string reading scan = Ok scanned) by reflexivity.
  assert (H3 : @json_loads (saying "{}")
    (@json_dumps (saying "{}") None
       (job_data "doc-1" (@processed reading scan "referral.PNG" scanned)
          (@isoformat (saying "{}") (clock (start 1000))))) =
  Some (job_data "doc-1" (@processed reading scan "referral.PNG" scanned)
          (@isoformat (saying "{}") (clock (start 1000))))) by (vm_compute; reflexivity).
  split; [exact H1|]. split; [exact H2|]. split; [exact H3|].
  exact (@status_after_upload (saying "{}") reading "doc-1" scan "referral.PNG" scanned
           (start 1000) H1 H2 H3).
Defined.

(** X22 on the upload of a PNG file that the language model reads as a
    complete referral. *)
Lemma worker_takes_over_upload_witness :
  In (@file_ext reading "referral.PNG") accepted_formats /\
  @image_to_string reading scan = Ok scanned /\
  queue (start 1000) = [] /\
  @readable (answering complete_referral)
    (job_data "doc-1" (@processed reading scan "referral.PNG" scanned)
       (@isoformat (answering complete_referral) (clock (start 1000)))) /\
  queue (snd (@main_iteration (answering complete_referral)
                (snd (@upload_document (answering complete_referral) reading "doc-1" scan
                        (Some "referral.PNG") (start 1000))))) = [] /\
  ((exists status additional_info data,
      In status worker_statuses /\
      store (snd (@main_iteration (answering complete_referral)
                    (snd (@upload_document (answering complete_referral) reading "doc-1"
                            scan (Some "referral.PNG") (start 1000))))) =
      <["document:" +:+ "doc-1" :=
          (@json_dumps (answering complete_referral) None
             (status_data status
                (@isoformat (answering complete_referral) (clock (start 1000)))
                additional_info data),
           clock (start 1000) + 3600)]> (store (start 1000))) \/
   store (snd (@main_iteration (answering complete_referral)
                 (snd (@upload_document (answering complete_referral) reading "doc-1" scan
                         (Some "referral.PNG") (start 1000))))) =
   store (snd (@upload_document (answering complete_referral) reading "doc-1" scan
                 (Some "referral.PNG") (start 1000)))).
Proof.
  assert (H1 : In (@file_ext reading "referral.PNG") accepted_formats)
    by (vm_compute; auto).
  assert (H2 : @image_to_string reading scan = Ok scanned) by reflexivity.
  assert (H3 : queue (start 1000) = []) by reflexivity.
  assert (H4 : @readable (answering complete_referral)
    (job_data "doc-1" (@processed reading scan "referral.PNG" scanned)
       (@isoformat (answering complete_referral) (clock (start 1000))))).
  { split; [vm_compute; discriminate|vm_compute; reflexivity]. }
  split; [exact H1|]. split; [exact H2|]. split; [exact H3|]. split; [exact H4|].
  exact (@worker_takes_over_upload (answering complete_referral) reading "doc-1" scan
           "referral.PNG" scanned (start 1000) H1 H2 H3 H4).
Defined.

(** X20 on a text of 31 characters, and on one of 201. *)
Lemma preview_bounded_witness :
  (py_len "Referral: Jane Roe, chest pain." <= 200 /\
   preview "Referral: Jane Roe, chest pain." = "Referral: Jane Roe, chest pain.") /\
  (200 < py_len (spaces 201) /\
   preview (spaces 201) = py_take 200 (spaces 201) +:+ "..." /\
   String.prefix (py_take 200 (spaces 201)) (spaces 201) = true /\
   py_len (py_take 200 (spaces 201)) = 200 /\
   py_len (preview (spaces 201)) = 203).
Proof.
  assert (H1 : py_len "Referral: Jane Roe, chest pain." <= 200) by (vm_compute; discriminate).
  assert (H2 : 200 < py_len (spaces 201)) by (vm_compute; reflexivity).
  split.
  - split; [exact H1|].
    exact (proj1 (proj2 (preview_bounded "Referral: Jane Roe, chest pain.")) H1).
  - split; [exact H2|].
    exact (proj2 (proj2 (preview_bounded (spaces 201))) H2).
Defined.

(** X23 after the upload of a PNG file. *)
Lemma queue_status_counts_witness :
  In (@file_ext reading "referral.PNG") accepted_formats /\
  @image_to_string reading scan = Ok scanned /\
  fst (@get_queue_status (saying "{}")
         (snd (@upload_document (saying "{}") reading "doc-1" scan (Some "referral.PNG")
                 (start 1000)))) =
  Ok (JObj [("queue_length", JInt (Z.of_nat (length (queue (start 1000))) + 1));
            ("status", JStr "active")]).
Proof.
  assert (H1 : In (@file_ext reading "referral.PNG") accepted_formats)
    by (vm_compute; auto).
  assert (H2 : @image_to_string reading scan = Ok scanned) by reflexivity.
  split; [exact H1|]. split; [exact H2|].
  exact (proj1 (proj2 (@queue_status_counts (saying "{}") reading (start 1000)))
           "doc-1" scan "referral.PNG" scanned H1 H2).
Defined.

(** The run of X22: the worker replaces [ocr_complete] by [emr_synced]. *)
Lemma upload_then_round :
  field "status" (stored_status (uploaded (answering complete_referral)) "doc-1") =
    Some (JStr "ocr_complete") /\
  field "status"
    (stored_status
       (snd (@main_iteration (answering complete_referral)
               (uploaded (answering complete_referral)))) "doc-1") =
    Some (JStr "emr_synced").
Proof. split; vm_compute; reflexivity. Qed.

(** The listings on a queue with two items that are not jobs. *)
Lemma listings_skip_bad_items :
  fst (@get_all_documents_in_queue (saying "{}") mixed_queue) =
    Ok (listing [JObj (dict_setitem job_fields "current_status" (JStr "emr_synced"))]) /\
  fst (@get_all_document_statuses (saying "{}") mixed_queue) =
    Ok (listing [JObj [("status", JStr "emr_synced"); ("document_id", JStr "doc-1")]]) /\
  id_of_key "document:a-document:b" = "a-".
Proof. repeat split; vm_compute; reflexivity. Qed.

End Examples.
